(** * Vercel analytics CSV query tool: a shallow embedding

    This development embeds [src/tools/get-vercel-top-pages.ts] and
    proves properties of its row parser, catalog resolver, row loader,
    query pipeline and renderer.  The update-price tool is embedded in
    the module [UpdatePrice].

    Conventions of the embedding.
    - A JavaScript string is a sequence of UTF-16 code units.  It is
      rendered here as a Rocq [string], one [ascii] per code unit, so
      the model covers the strings whose code units are below 256.
    - A JavaScript number is an IEEE-754 double.  Every finite double
      is an integer multiple of 2^-1074, so a finite number is kept as
      a sign and that integer multiple (see [Num]).
    - [await]ed file-system calls either produce a value or throw;
      they are rendered with the [result] type, and the environment of
      one invocation is the record [fs].
    - Built-ins of the host ([String.prototype.trim], [Array.prototype.sort],
      [Number], ...) live in the modules [Str], [Num] and [Arr]; the
      functions of the source file follow, under their own names. *)

From Stdlib Require Import Bool Ascii String List NArith ZArith Lia.
From Stdlib Require Import Sorting.Sorted Sorting.Permutation.
From Stdlib Require Import Numbers.DecimalString.
Import ListNotations.

Local Open Scope list_scope.
Local Open Scope string_scope.

(** ** Characters used by the source *)

Definition dquote : ascii := "034"%char.
Definition comma : ascii := ","%char.
Definition hyphen : ascii := "-"%char.
Definition space : ascii := " "%char.
Definition slash : ascii := "/"%char.
Definition LF : ascii := "010"%char.
Definition CR : ascii := "013"%char.

(** ** String built-ins *)

Module Str.

(** [s.startsWith(p)] *)
Definition startsWith (s p : string) : bool := String.prefix p s.

(** Reverse of a string, used to read a string from its end. *)
Fixpoint rev_onto (s acc : string) : string :=
  match s with
  | EmptyString => acc
  | String c s' => rev_onto s' (String c acc)
  end.

Definition rev (s : string) : string := rev_onto s EmptyString.

(** [s.endsWith(p)] *)
Definition endsWith (s p : string) : bool := String.prefix (rev p) (rev s).

(** [s.includes(sub)] *)
Fixpoint includes (s sub : string) : bool :=
  String.prefix sub s ||
  match s with
  | EmptyString => false
  | String _ s' => includes s' sub
  end.

(** WhiteSpace and LineTerminator code units below 256: TAB, LF, VT,
    FF, CR, SPACE and NO-BREAK SPACE. *)
Definition isWhiteSpace (c : ascii) : bool :=
  let n := nat_of_ascii c in
  ((9 <=? n) && (n <=? 13) || (n =? 32) || (n =? 160))%nat.

Fixpoint allWhiteSpace (s : string) : bool :=
  match s with
  | EmptyString => true
  | String c s' => isWhiteSpace c && allWhiteSpace s'
  end.

Fixpoint trimStart (s : string) : string :=
  match s with
  | EmptyString => EmptyString
  | String c s' => if isWhiteSpace c then trimStart s' else s
  end.

Definition trimEnd (s : string) : string := rev (trimStart (rev s)).

(** [s.trim()] *)
Definition trim (s : string) : string := trimEnd (trimStart s).

(** [String.prototype.toLowerCase] on code units below 256: the
    letters A-Z and the Latin-1 capitals U+00C0-U+00DE other than the
    multiplication sign U+00D7 move up by 32, all else is unchanged. *)
Definition lowerChar (c : ascii) : ascii :=
  let n := nat_of_ascii c in
  if ((65 <=? n) && (n <=? 90)
      || (192 <=? n) && (n <=? 222) && negb (n =? 215))%nat
  then ascii_of_nat (n + 32) else c.

Fixpoint toLowerCase (s : string) : string :=
  match s with
  | EmptyString => EmptyString
  | String c s' => String (lowerChar c) (toLowerCase s')
  end.

(** [s.replace(/,/g, "")] *)
Fixpoint removeCommas (s : string) : string :=
  match s with
  | EmptyString => EmptyString
  | String c s' =>
      if Ascii.eqb c comma then removeCommas s' else String c (removeCommas s')
  end.

(** [s.split(/\r?\n/)]: the text is cut at every LF; a CR directly
    before the LF belongs to the separator.  [cur] is the piece read so
    far, in reverse. *)
Fixpoint splitLines_from (s : string) (cur : string) : list string :=
  match s with
  | EmptyString => [rev cur]
  | String c s' =>
      if Ascii.eqb c LF then
        match cur with
        | String c' cur' =>
            if Ascii.eqb c' CR then rev cur' :: splitLines_from s' EmptyString
            else rev cur :: splitLines_from s' EmptyString
        | EmptyString => EmptyString :: splitLines_from s' EmptyString
        end
      else splitLines_from s' (String c cur)
  end.

Definition splitLines (s : string) : list string :=
  splitLines_from s EmptyString.

(** [Boolean(s)]: a string is truthy when it is not empty. *)
Definition truthy (s : string) : bool :=
  match s with EmptyString => false | _ => true end.

(** [arr.join(sep)] *)
Definition join (sep : string) (l : list string) : string :=
  String.concat sep l.

(** [String(n)] for an array length or index. *)
Definition ofNat (n : nat) : string :=
  NilZero.string_of_uint (Nat.to_uint n).

End Str.

(** ** Numbers *)

Module Num.

(** A double: [Fin s k] is the finite value (-1)^s * k * 2^-1074, so
    [Fin true 0] is the negative zero; [Inf s] is the infinity of sign
    [s]. *)
Inductive number : Type :=
  | NaN
  | Inf (neg : bool)
  | Fin (neg : bool) (k : N).

(** One, counted in units of 2^-1074. *)
Definition unit_scale : N := 2 ^ 1074.

(** 2^1024 in the same units: the magnitudes from here on are not
    finite doubles. *)
Definition overflow_bound : N := 2 ^ 2098.

(** Nearest integer to [p / q], ties to the even one. *)
Definition rne_div (p q : N) : N :=
  let a := (p / q)%N in
  let r := (p mod q)%N in
  match (2 * r ?= q)%N with
  | Lt => a
  | Gt => (a + 1)%N
  | Eq => if N.even a then a else (a + 1)%N
  end.

(** Round the ratio [p / q] of units to 53 significant bits. *)
Definition round_ratio (p q : N) : N :=
  let f := (p / q)%N in
  let shift := (N.log2 f + 1 - 53)%N in
  (rne_div p (q * 2 ^ shift) * 2 ^ shift)%N.

Definition ofRatio (neg : bool) (p q : N) : number :=
  let k := round_ratio p q in
  if (overflow_bound <=? k)%N then Inf neg else Fin neg k.

Definition ofUnits (neg : bool) (k : N) : number := ofRatio neg k 1.

(** An integer literal of the source. *)
Definition int (z : Z) : number :=
  ofUnits (z <? 0)%Z (Z.abs_N z * unit_scale).

Definition zero : number := Fin false 0.

(** The signed count of units of a finite value. *)
Definition toZ (s : bool) (k : N) : Z :=
  if s then (- Z.of_N k)%Z else Z.of_N k.

(** [Number.isFinite] *)
Definition isFinite (a : number) : bool :=
  match a with Fin _ _ => true | _ => false end.

(** [Boolean(a)]: NaN and the two zeros are falsy. *)
Definition truthy (a : number) : bool :=
  match a with
  | NaN => false
  | Inf _ => true
  | Fin _ k => negb (k =? 0)%N
  end.

(** Unary minus. *)
Definition neg (a : number) : number :=
  match a with
  | NaN => NaN
  | Inf s => Inf (negb s)
  | Fin s k => Fin (negb s) k
  end.

(** [a + b], rounded to nearest. *)
Definition add (a b : number) : number :=
  match a, b with
  | NaN, _ | _, NaN => NaN
  | Inf s, Inf t => if Bool.eqb s t then Inf s else NaN
  | Inf s, Fin _ _ => Inf s
  | Fin _ _, Inf t => Inf t
  | Fin s j, Fin t k =>
      if Bool.eqb s t then ofUnits s (j + k)
      else match (j ?= k)%N with
           | Eq => Fin false 0
           | Gt => ofUnits s (j - k)
           | Lt => ofUnits t (k - j)
           end
  end.

(** [a - b] *)
Definition sub (a b : number) : number := add a (neg b).

(** [a < b] *)
Definition lt (a b : number) : bool :=
  match a, b with
  | NaN, _ | _, NaN => false
  | Inf s, Inf t => s && negb t
  | Inf s, Fin _ _ => s
  | Fin _ _, Inf t => negb t
  | Fin s j, Fin t k => (toZ s j <? toZ t k)%Z
  end.

(** [a > b] *)
Definition gt (a b : number) : bool := lt b a.

(** [a <= b] and [a >= b]: false as soon as one side is NaN. *)
Definition le (a b : number) : bool :=
  match a, b with
  | NaN, _ | _, NaN => false
  | _, _ => negb (lt b a)
  end.

Definition ge (a b : number) : bool := le b a.

(** [a == b] on numbers: the two zeros are equal, NaN equals nothing. *)
Definition eqb (a b : number) : bool := le a b && le b a.

(** [Math.max(a, b)]: NaN wins, and +0 is above -0. *)
Definition max (a b : number) : number :=
  match a, b with
  | NaN, _ | _, NaN => NaN
  | _, _ =>
      if lt a b then b
      else if lt b a then a
      else match a with Fin true _ => b | _ => a end
  end.

(** [Math.min(a, b)]: NaN wins, and -0 is below +0. *)
Definition min (a b : number) : number :=
  match a, b with
  | NaN, _ | _, NaN => NaN
  | _, _ =>
      if lt a b then a
      else if lt b a then b
      else match a with Fin false _ => b | _ => a end
  end.

(** ToIntegerOrInfinity, used by [Array.prototype.slice]. *)
Inductive extint : Type :=
  | MinusInfinity
  | Int (z : Z)
  | PlusInfinity.

Definition toIntegerOrInfinity (a : number) : extint :=
  match a with
  | NaN => Int 0
  | Inf true => MinusInfinity
  | Inf false => PlusInfinity
  | Fin s k => Int (toZ s (k / unit_scale))
  end.

(** *** [Number(s)]: the StringNumericLiteral grammar *)

(** Value of [c] as a digit of the given base. *)
Definition digitOf (base : N) (c : ascii) : option N :=
  let n := N_of_ascii c in
  let v :=
    if ((48 <=? n) && (n <=? 57))%N then Some (n - 48)%N
    else if ((97 <=? n) && (n <=? 102))%N then Some (n - 87)%N
    else if ((65 <=? n) && (n <=? 70))%N then Some (n - 55)%N
    else None in
  match v with
  | Some d => if (d <? base)%N then Some d else None
  | None => None
  end.

(** Reads the longest run of digits at the head of [s]; returns the
    value accumulated onto [acc], the number of digits read added to
    [cnt], and the rest of [s]. *)
Fixpoint digits (base : N) (s : string) (acc cnt : N) : N * N * string :=
  match s with
  | EmptyString => (acc, cnt, s)
  | String c s' =>
      match digitOf base c with
      | Some d => digits base s' (acc * base + d)%N (cnt + 1)%N
      | None => (acc, cnt, s)
      end
  end.

(** The text after the mantissa: nothing, or [e]/[E], an optional sign
    and at least one digit, up to the end of the text. *)
Definition exponentPart (s : string) : option Z :=
  match s with
  | EmptyString => Some 0%Z
  | String c s' =>
      if Ascii.eqb c "e" || Ascii.eqb c "E" then
        let '(sgn, s'') :=
          match s' with
          | String c' r =>
              if Ascii.eqb c' "+" then (false, r)
              else if Ascii.eqb c' "-" then (true, r)
              else (false, s')
          | EmptyString => (false, s')
          end in
        let '(v, cnt, rest) := digits 10 s'' 0 0 in
        match rest with
        | EmptyString =>
            if (0 <? cnt)%N then Some (toZ sgn v) else None
        | _ => None
        end
      else None
  end.

(** The double nearest to (-1)^neg * m * 10^e. *)
Definition decimalValue (neg : bool) (m : N) (e : Z) : number :=
  match e with
  | Zneg p => ofRatio neg (m * unit_scale) (10 ^ Npos p)
  | _ => ofUnits neg (m * 10 ^ Z.to_N e * unit_scale)
  end.

(** StrUnsignedDecimalLiteral. *)
Definition unsignedDecimal (neg : bool) (s : string) : number :=
  if String.eqb s "Infinity" then Inf neg
  else
    let '(m1, c1, r1) := digits 10 s 0 0 in
    let '(m, c2, ok, r2) :=
      match r1 with
      | String c r =>
          if Ascii.eqb c "." then
            let '(m2, c2, r2) := digits 10 r m1 0 in
            (m2, c2, (0 <? c1)%N || (0 <? c2)%N, r2)
          else (m1, 0%N, (0 <? c1)%N, r1)
      | EmptyString => (m1, 0%N, (0 <? c1)%N, r1)
      end in
    if ok then
      match exponentPart r2 with
      | Some e => decimalValue neg m (e - Z.of_N c2)
      | None => NaN
      end
    else NaN.

(** StrDecimalLiteral: an optional sign, then the unsigned literal. *)
Definition strDecimal (s : string) : number :=
  match s with
  | String c r =>
      if Ascii.eqb c "+" then unsignedDecimal false r
      else if Ascii.eqb c "-" then unsignedDecimal true r
      else unsignedDecimal false s
  | EmptyString => NaN
  end.

(** NonDecimalIntegerLiteral: [0x], [0o] or [0b] and at least one
    digit of that base, nothing else. *)
Definition nonDecimal (s : string) : option number :=
  match s with
  | String c0 (String p r) =>
      if Ascii.eqb c0 "0" then
        let base :=
          if Ascii.eqb p "x" || Ascii.eqb p "X" then Some 16%N
          else if Ascii.eqb p "o" || Ascii.eqb p "O" then Some 8%N
          else if Ascii.eqb p "b" || Ascii.eqb p "B" then Some 2%N
          else None in
        match base with
        | Some b =>
            let '(v, cnt, rest) := digits b r 0 0 in
            match rest with
            | EmptyString =>
                if (0 <? cnt)%N then Some (ofUnits false (v * unit_scale))
                else Some NaN
            | _ => Some NaN
            end
        | None => None
        end
      else None
  | _ => None
  end.

(** [Number(s)] *)
Definition ofString (s : string) : number :=
  let t := Str.trim s in
  match t with
  | EmptyString => zero
  | _ =>
      match nonDecimal t with
      | Some v => v
      | None => strDecimal t
      end
  end.

End Num.

(** ** Array built-ins *)

Module Arr.

Section Sort.
Context {A : Type}.

(** [after x y] holds when the comparator puts [x] after [y], that
    is when its result on [(x, y)] is above zero. *)
Variable after : A -> A -> bool.

Fixpoint insert (x : A) (l : list A) : list A :=
  match l with
  | [] => [x]
  | y :: l' => if after x y then y :: insert x l' else x :: l
  end.

(** [Array.prototype.sort]: a stable sort, here by insertion; each
    element goes in front of the first element it does not sort
    after. *)
Fixpoint sort (l : list A) : list A :=
  match l with
  | [] => []
  | x :: l' => insert x (sort l')
  end.
End Sort.

(** [arr.sort(cmp)] with a number-valued comparator; a NaN result
    counts as zero. *)
Definition sortWith {A : Type} (cmp : A -> A -> Num.number) (l : list A) : list A :=
  sort (fun x y => Num.gt (cmp x y) Num.zero) l.

(** [arr.sort()] on strings: ascending order of code units. *)
Definition sortStrings (l : list string) : list string :=
  sort (fun x y => String.ltb y x) l.

(** [arr.includes(s)] on strings. *)
Definition includes (l : list string) (s : string) : bool :=
  existsb (String.eqb s) l.

(** [arr.slice(0, e)] *)
Definition slice0 {A : Type} (l : list A) (e : Num.number) : list A :=
  let len := Z.of_nat (length l) in
  let final :=
    match Num.toIntegerOrInfinity e with
    | Num.MinusInfinity => 0%Z
    | Num.Int z => if (z <? 0)%Z then Z.max (len + z) 0 else Z.min z len
    | Num.PlusInfinity => len
    end in
  firstn (Z.to_nat final) l.

(** [arr[i]] *)
Definition get {A : Type} (l : list A) (i : nat) : option A := nth_error l i.

(** [arr.map((x, i) => f(x, i))], counting from [i]. *)
Fixpoint mapi_from {A B : Type} (f : A -> nat -> B) (i : nat) (l : list A) : list B :=
  match l with
  | [] => []
  | x :: l' => f x i :: mapi_from f (S i) l'
  end.

Definition mapi {A B : Type} (f : A -> nat -> B) (l : list A) : list B :=
  mapi_from f 0 l.

End Arr.

(** ** [node:path] *)

Module Path.

Fixpoint dropSlashes (s : string) : string :=
  match s with
  | EmptyString => EmptyString
  | String c s' => if Ascii.eqb c slash then dropSlashes s' else s
  end.

Fixpoint untilSlash (s : string) : string :=
  match s with
  | EmptyString => EmptyString
  | String c s' => if Ascii.eqb c slash then EmptyString else String c (untilSlash s')
  end.

(** [path.basename(p)] (POSIX): trailing slashes are dropped and the
    part after the last remaining slash is returned. *)
Definition basename (p : string) : string :=
  Str.rev (untilSlash (dropSlashes (Str.rev p))).

End Path.

(** ** Exceptions and the file system *)

(** A thrown value: an [Error] with its message, or anything else. *)
Inductive thrown : Type :=
  | ErrorObject (message : string)
  | OtherValue.

Inductive result (A : Type) : Type :=
  | Ok (a : A)
  | Throw (e : thrown).

Arguments Ok {A} a.
Arguments Throw {A} e.

Definition bind {A B : Type} (r : result A) (k : A -> result B) : result B :=
  match r with
  | Ok a => k a
  | Throw e => Throw e
  end.

Notation "x <- r ;; k" := (bind r (fun x => k))
  (at level 61, r at next level, right associativity).

(** [throw new Error(msg)] *)
Definition throwError {A : Type} (msg : string) : result A :=
  Throw (ErrorObject msg).

(** What the two file-system calls of one invocation do:
    [readdir env] is the outcome of [readdir(DATA_DIR)] and
    [readFile env f] the outcome of
    [readFile(path.join(DATA_DIR, f), "utf8")]. *)
Record fs : Type := {
  readdir : result (list string);
  readFile : string -> result string
}.

(** ** The source file *)

Import Num.

Record TopPageRow : Type := {
  item : string;
  visitors : number;
  total : number
}.

Definition DEFAULT_FILE : string :=
  "Top Pages - Nov 13 '25, 11pm - Feb 13 '26.csv".

Definition REPORT_LABELS : list string :=
  ["Top Pages"; "Top Referrers"; "Top Countries"; "Top Browsers";
   "Top Devices"; "Top Operating Systems"].

Inductive ReportType : Type :=
  | pages | referrers | countries | browsers | devices | operating_systems.

Inductive SortBy : Type := by_visitors | by_total.

Inductive SortOrder : Type := asc | desc.

(** The argument of the tool: every field of [schema] is optional. *)
Record criteria : Type := {
  reportType : option ReportType;
  fileName : option string;
  listReports : option bool;
  pageContains : option string;
  startsWith : option string;
  minVisitors : option number;
  minTotal : option number;
  sortBy : option SortBy;
  sortOrder : option SortOrder;
  limit : option number;
  includeSummary : option bool
}.

(** The loop of [parseCsvLine]: [line] is what is left to read. *)
Fixpoint parseCsvLine_loop (line : string) (fields : list string)
    (current : string) (inQuotes : bool) : list string :=
  match line with
  | EmptyString => (fields ++ [current])%list
  | String char rest =>
      if Ascii.eqb char dquote then
        match inQuotes, rest with
        | true, String next rest' =>
            if Ascii.eqb next dquote
            then parseCsvLine_loop rest' fields (current ++ String dquote EmptyString) inQuotes
            else parseCsvLine_loop rest fields current (negb inQuotes)
        | _, _ => parseCsvLine_loop rest fields current (negb inQuotes)
        end
      else if Ascii.eqb char comma && negb inQuotes then
        parseCsvLine_loop rest (fields ++ [current])%list EmptyString inQuotes
      else parseCsvLine_loop rest fields (current ++ String char EmptyString) inQuotes
  end.

Definition parseCsvLine (line : string) : list string :=
  parseCsvLine_loop line [] EmptyString false.

(** [files.filter((f) => f.endsWith(".csv")).sort()] *)
Definition csvFilesOf (files : list string) : list string :=
  Arr.sortStrings (filter (fun f => Str.endsWith f ".csv") files).

Definition resolveFileName (env : fs) (requested : option string) : result string :=
  files <- readdir env ;;
  let csvFiles := csvFilesOf files in
  if (length csvFiles =? 0)%nat then
    throwError "No CSV files found in src/lib/vercel"
  else
    match requested with
    | Some (String _ _ as r) =>
        let clean := Path.basename r in
        if negb (Str.endsWith clean ".csv") then
          throwError "fileName must be a .csv file"
        else if negb (Arr.includes csvFiles clean) then
          throwError ("CSV file not found: " ++ clean)
        else Ok clean
    | _ =>
        Ok (if Arr.includes csvFiles DEFAULT_FILE then DEFAULT_FILE
            else last csvFiles EmptyString)
    end.

Definition toReportLabel (reportType : ReportType) : string :=
  match reportType with
  | pages => "Top Pages"
  | referrers => "Top Referrers"
  | countries => "Top Countries"
  | browsers => "Top Browsers"
  | devices => "Top Devices"
  | operating_systems => "Top Operating Systems"
  end.

(** The text of a report type, as it appears in a template literal. *)
Definition reportTypeText (reportType : ReportType) : string :=
  match reportType with
  | pages => "pages"
  | referrers => "referrers"
  | countries => "countries"
  | browsers => "browsers"
  | devices => "devices"
  | operating_systems => "operating-systems"
  end.

Fixpoint inferReportLabel_loop (labels : list string) (fileName : string) : string :=
  match labels with
  | [] => "Unknown"
  | label :: labels' =>
      if Str.startsWith fileName (label ++ " - ") then label
      else inferReportLabel_loop labels' fileName
  end.

Definition inferReportLabel (fileName : string) : string :=
  inferReportLabel_loop REPORT_LABELS fileName.

(** [name.replace(/\.csv$/i, "")]: a final [.csv], in any letter
    case, is removed. *)
Definition stripCsvExtension (name : string) : string :=
  match Str.rev name with
  | String v (String s (String c (String dot rest))) =>
      if Ascii.eqb (Str.lowerChar v) "v" && Ascii.eqb (Str.lowerChar s) "s"
         && Ascii.eqb (Str.lowerChar c) "c" && Ascii.eqb dot "."
      then Str.rev rest else name
  | _ => name
  end.

(** The match of [[^-]+ - ] at the head of [s]: the characters before
    the first hyphen, at least two and the last a space, then the
    hyphen and a space.  [seen] counts the characters read and [prev]
    is the last one.  Returns what follows the match. *)
Fixpoint afterLabel (s : string) (seen : nat) (prev : ascii) : option string :=
  match s with
  | EmptyString => None
  | String c s' =>
      if Ascii.eqb c hyphen then
        match s' with
        | String c' s'' =>
            if (2 <=? seen)%nat && Ascii.eqb prev space && Ascii.eqb c' space
            then Some s'' else None
        | EmptyString => None
        end
      else afterLabel s' (S seen) c
  end.

(** [name.replace(/^Top [^-]+ - /, "")] *)
Definition stripReportPrefix (name : string) : string :=
  match name with
  | String c1 (String c2 (String c3 (String c4 s))) =>
      if Ascii.eqb c1 "T" && Ascii.eqb c2 "o" && Ascii.eqb c3 "p" && Ascii.eqb c4 space
      then match afterLabel s 0 c4 with Some r => r | None => name end
      else name
  | _ => name
  end.

Definition extractDateRange (fileName : string) : string :=
  stripReportPrefix (stripCsvExtension fileName).

Definition resolveFileNameByType (env : fs) (reportType : ReportType) : result string :=
  files <- readdir env ;;
  let csvFiles := csvFilesOf files in
  let label := toReportLabel reportType in
  let matches := filter (fun f => Str.startsWith f (label ++ " - ")) csvFiles in
  if (length matches =? 0)%nat then
    throwError ("No CSV found for reportType '" ++ reportTypeText reportType ++ "'")
  else Ok (last matches EmptyString).

Definition listAvailableReports (env : fs) : result (list string) :=
  listing <- readdir env ;;
  let files := csvFilesOf listing in
  Ok (map (fun file =>
             let label := inferReportLabel file in
             let dateRange := extractDateRange file in
             label ++ " | " ++ dateRange ++ " | " ++ file) files).

Definition toNumber (value : string) : number :=
  let parsed := Num.ofString (Str.trim (Str.removeCommas value)) in
  if Num.isFinite parsed then parsed else Num.int 0.

(** [raw || "0"] for a field that may be missing or empty. *)
Definition orZeroText (raw : option string) : string :=
  match raw with
  | Some (String _ _ as s) => s
  | _ => "0"
  end.

(** The body of the [for] loop of [loadRows] over the data lines. *)
Fixpoint loadRows_loop (lines : list string) : list TopPageRow :=
  match lines with
  | [] => []
  | line :: lines' =>
      let fields := parseCsvLine line in
      let pageRaw := Arr.get fields 0 in
      let visitorsRaw := Arr.get fields 1 in
      let totalRaw := Arr.get fields 2 in
      match pageRaw with
      | Some (String _ _ as page) =>
          {| item := page;
             visitors := toNumber (orZeroText visitorsRaw);
             total := toNumber (orZeroText totalRaw) |}
          :: loadRows_loop lines'
      | _ => loadRows_loop lines'
      end
  end.

(** The rows of a file content. *)
Definition rowsOfContent (content : string) : list TopPageRow :=
  let lines := filter Str.truthy (map Str.trim (Str.splitLines content)) in
  if (length lines <=? 1)%nat then [] else loadRows_loop (tl lines).

Definition loadRows (env : fs) (fileName : string) : result (list TopPageRow) :=
  content <- readFile env fileName ;;
  Ok (rowsOfContent content).

(** The predicate of [rows.filter] in [getVercelTopPages]. *)
Definition keepRow (c : criteria) (row : TopPageRow) : bool :=
  if match pageContains c with
     | Some p =>
         Str.truthy p
         && negb (Str.includes (Str.toLowerCase (item row)) (Str.toLowerCase p))
     | None => false
     end then false
  else if match startsWith c with
          | Some p => Str.truthy p && negb (Str.startsWith (item row) p)
          | None => false
          end then false
  else if match minVisitors c with
          | Some m => Num.lt (visitors row) m
          | None => false
          end then false
  else if match minTotal c with
          | Some m => Num.lt (total row) m
          | None => false
          end then false
  else true.

(** [sortBy || "visitors"] and [sortOrder || "desc"] *)
Definition sortField (c : criteria) : SortBy :=
  match sortBy c with Some b => b | None => by_visitors end.

Definition sortDirection (c : criteria) : SortOrder :=
  match sortOrder c with Some o => o | None => desc end.

(** The comparator handed to [filtered.sort]. *)
Definition compareRows (by_ : SortBy) (order : SortOrder) (a b : TopPageRow) : number :=
  let diff :=
    match by_ with
    | by_visitors => Num.sub (visitors a) (visitors b)
    | by_total => Num.sub (total a) (total b)
    end in
  match order with
  | asc => diff
  | desc => Num.neg diff
  end.

(** [rows.filter(...)] followed by [filtered.sort(...)] *)
Definition filterRows (c : criteria) (rows : list TopPageRow) : list TopPageRow :=
  filter (keepRow c) rows.

Definition sortRows (c : criteria) (filtered : list TopPageRow) : list TopPageRow :=
  Arr.sortWith (compareRows (sortField c) (sortDirection c)) filtered.

(** [Math.max(1, Math.min(limit || 20, 200))] *)
Definition maxRowsOf (c : criteria) : number :=
  let requested :=
    match limit c with
    | Some l => if Num.truthy l then l else Num.int 20
    | None => Num.int 20
    end in
  Num.max (Num.int 1) (Num.min requested (Num.int 200)).

(** [filtered.slice(0, maxRows)] *)
Definition topRows (c : criteria) (filtered : list TopPageRow) : list TopPageRow :=
  Arr.slice0 filtered (maxRowsOf c).

Definition sumVisitors (filtered : list TopPageRow) : number :=
  fold_left (fun sum row => Num.add sum (visitors row)) filtered (Num.int 0).

Definition sumTotal (filtered : list TopPageRow) : number :=
  fold_left (fun sum row => Num.add sum (total row)) filtered (Num.int 0).

(** [fileName ? await resolveFileName(fileName)
              : await resolveFileNameByType(reportType || "pages")] *)
Definition selectFile (env : fs) (c : criteria) : result string :=
  match fileName c with
  | Some (String _ _ as f) => resolveFileName env (Some f)
  | _ =>
      resolveFileNameByType env
        (match reportType c with Some t => t | None => pages end)
  end.

Definition NL : string := String LF EmptyString.

Definition sortByText (b : SortBy) : string :=
  match b with by_visitors => "visitors" | by_total => "total" end.

Definition sortOrderText (o : SortOrder) : string :=
  match o with asc => "asc" | desc => "desc" end.

Section Tool.

(** [Number.prototype.toLocaleString()] under the default locale of
    the host. *)
Variable toLocaleString : number -> string.

(** The text returned once the rows of the selected file are
    loaded: the part of the [try] block from [rows.filter] to its
    last [return]. *)
Definition renderReport (c : criteria) (selectedFile : string)
    (rows : list TopPageRow) : string :=
  let initialCount := length rows in
  let filtered := sortRows c (filterRows c rows) in
  let by_ := sortField c in
  let order := sortDirection c in
  let top := topRows c filtered in
  let reportLabel := inferReportLabel selectedFile in
  let dateRange := extractDateRange selectedFile in
  if (length top =? 0)%nat then
    "No rows match the current filters." ++ NL ++ NL
    ++ "Report: " ++ reportLabel ++ NL
    ++ "Period: " ++ dateRange ++ NL
    ++ "File: " ++ selectedFile ++ NL
    ++ "Rows scanned: " ++ Str.ofNat initialCount
  else
    let withSummary :=
      match includeSummary c with Some false => false | _ => true end in
    let totalVisitors := sumVisitors filtered in
    let totalVisits := sumTotal filtered in
    let summary :=
      if withSummary then
        ["Vercel Analytics Report";
         "Report type: " ++ reportLabel;
         "Period: " ++ dateRange;
         "File: " ++ selectedFile;
         "Rows scanned: " ++ Str.ofNat initialCount;
         "Rows matched: " ++ Str.ofNat (length filtered);
         "Total visitors (matched): " ++ toLocaleString totalVisitors;
         "Total visits (matched): " ++ toLocaleString totalVisits;
         EmptyString]
      else [] in
    let heading :=
      ["Top " ++ Str.ofNat (length top) ++ " rows by "
       ++ sortByText by_ ++ " (" ++ sortOrderText order ++ ")";
       EmptyString] in
    let ranked :=
      Arr.mapi (fun row index =>
                  Str.ofNat (index + 1) ++ ". " ++ item row
                  ++ " | Visitors: " ++ toLocaleString (visitors row)
                  ++ " | Total: " ++ toLocaleString (total row)) top in
    let lines := List.app summary (List.app heading ranked) in
    Str.join NL lines.

(** What the [try] block of [getVercelTopPages] returns or throws. *)
Definition getVercelTopPages_try (env : fs) (c : criteria) : result string :=
  match listReports c with
  | Some true =>
      reports <- listAvailableReports env ;;
      if (length reports =? 0)%nat then Ok "No CSV reports found in src/lib/vercel."
      else Ok (Str.join NL
                 ("Available Vercel CSV reports:" :: EmptyString ::
                  Arr.mapi (fun r i => Str.ofNat (i + 1) ++ ". " ++ r) reports))
  | _ =>
      selectedFile <- selectFile env c ;;
      rows <- loadRows env selectedFile ;;
      Ok (renderReport c selectedFile rows)
  end.

(** The [catch] clause. *)
Definition catchClause (error : thrown) : string :=
  "Error reading Vercel analytics CSV: "
  ++ match error with
     | ErrorObject message => message
     | OtherValue => "Unknown error"
     end.

Definition getVercelTopPages (env : fs) (c : criteria) : string :=
  match getVercelTopPages_try env c with
  | Ok text => text
  | Throw error => catchClause error
  end.

End Tool.

(** ** The en-US locale *)

Module EnUS.

(** Digits written from the right, a comma after every third one;
    [n] is the size of the group being written. *)
Fixpoint groupFromRight (s : string) (n : nat) : string :=
  match s with
  | EmptyString => EmptyString
  | String c s' =>
      match n with
      | 3 => String comma (String c (groupFromRight s' 1))
      | _ => String c (groupFromRight s' (S n))
      end
  end.

Definition grouped (n : N) : string :=
  Str.rev (groupFromRight (Str.rev (NilZero.string_of_uint (N.to_uint n))) 0).

(** The fraction digits of [t] thousandths, without trailing zeros. *)
Definition fraction (t : N) : string :=
  let d1 := (t / 100)%N in
  let d2 := (t / 10 mod 10)%N in
  let d3 := (t mod 10)%N in
  let digit (d : N) := NilZero.string_of_uint (N.to_uint d) in
  if (t =? 0)%N then EmptyString
  else if (d3 =? 0)%N then
    if (d2 =? 0)%N then "." ++ digit d1 else "." ++ digit d1 ++ digit d2
  else "." ++ digit d1 ++ digit d2 ++ digit d3.

(** The infinity sign U+221E lies outside the code units of the
    model; it is written as its three UTF-8 bytes. *)
Definition infinitySign : string :=
  String "226"%char (String "136"%char (String "158"%char EmptyString)).

(** *** The shortest decimal that reads back as the same double

    The host formats the decimal digits that [Number::toString] would
    write: the fewest digits [d], with an exponent [e], such that
    [d * 10^e] lies in the rounding interval of the double, and among
    those the closest to it. *)

Definition decimalLength (n : N) : N :=
  N.of_nat (String.length (NilZero.string_of_uint (N.to_uint n))).

(** The least [q' >= q] with [x * 10^(q' - q) >= 1], for [x] in units. *)
Fixpoint leastScale (fuel : nat) (q x : N) : N :=
  match fuel with
  | O => q
  | S fuel' =>
      if (unit_scale <=? x)%N then q
      else leastScale fuel' (q + 1)%N (x * 10)%N
  end.

(** [floor (log10 v)] of the positive value of [k] units; the least
    positive double is above [10^-324]. *)
Definition floorLog10 (k : N) : Z :=
  if (unit_scale <=? k)%N
  then (Z.of_N (decimalLength (k / unit_scale)) - 1)%Z
  else (- Z.of_N (leastScale 400 1 (k * 10)))%Z.

(** The decimal of [n] digits closest to the double of [k] units, if one
    reads back as that double.  The bounds of the rounding interval are
    the midpoints to the neighbouring doubles, in half units; they
    belong to the interval when the significand is even. *)
Definition candidate (k n : N) : option (N * Z) :=
  let shift := (N.log2 k + 1 - 53)%N in
  let ulp := (2 ^ shift)%N in
  let gap :=
    if (0 <? shift)%N && (k =? 2 ^ N.log2 k)%N
    then (2 ^ (shift - 1))%N else ulp in
  let closed := N.even (k / ulp) in
  let e := (floorLog10 k - (Z.of_N n - 1))%Z in
  let perDigit :=
    match e with
    | Zneg _ => (2 * unit_scale)%N
    | _ => (2 * unit_scale * 10 ^ Z.to_N e)%N
    end in
  let scale := match e with Zneg p => (10 ^ Npos p)%N | _ => 1%N end in
  let low := ((2 * k - gap) * scale)%N in
  let high := ((2 * k + ulp) * scale)%N in
  let value := (2 * k * scale)%N in
  let inside (d : N) :=
    let x := (d * perDigit)%N in
    if closed then (low <=? x)%N && (x <=? high)%N
    else (low <? x)%N && (x <? high)%N in
  let below := (value / perDigit)%N in
  let above := if (value mod perDigit =? 0)%N then below else (below + 1)%N in
  match inside below, inside above with
  | true, true =>
      match (value - below * perDigit ?= above * perDigit - value)%N with
      | Lt => Some (below, e)
      | Gt => Some (above, e)
      | Eq => Some (if N.even below then below else above, e)
      end
  | true, false => Some (below, e)
  | false, true => Some (above, e)
  | false, false => None
  end.

Fixpoint shortest_from (fuel : nat) (k n : N) : N * Z :=
  match fuel with
  | O => (0%N, 0%Z)
  | S fuel' =>
      match candidate k n with
      | Some r => r
      | None => shortest_from fuel' k (n + 1)%N
      end
  end.

(** Seventeen digits always suffice for a double. *)
Definition shortest (k : N) : N * Z :=
  if (k =? 0)%N then (0%N, 0%Z) else shortest_from 17 k 1.

(** [d * 10^e] in thousandths, a tie rounded away from zero. *)
Definition thousandths (d : N) (e : Z) : N :=
  match (e + 3)%Z with
  | Zneg p => ((2 * d + 10 ^ Npos p) / (2 * 10 ^ Npos p))%N
  | m => (d * 10 ^ Z.to_N m)%N
  end.

(** [toLocaleString()] in the en-US locale: the shortest decimal of the
    number, rounded to at most three fraction digits with ties away
    from zero, its integer digits grouped by thousands. *)
Definition toLocaleString (a : number) : string :=
  match a with
  | NaN => "NaN"
  | Inf s => (if s then "-" else EmptyString) ++ infinitySign
  | Fin s k =>
      let (d, e) := shortest k in
      let t := thousandths d e in
      (if s then "-" else EmptyString)
      ++ grouped (t / 1000) ++ fraction (t mod 1000)
  end.

End EnUS.

(** ** Writing a delimited line, as the round-trip property words it *)

Module CsvWriter.

Fixpoint doubleQuotes (s : string) : string :=
  match s with
  | EmptyString => EmptyString
  | String c s' =>
      if Ascii.eqb c dquote then String dquote (String dquote (doubleQuotes s'))
      else String c (doubleQuotes s')
  end.

(** Does the field contain a comma or a quote? *)
Fixpoint needsQuotes (s : string) : bool :=
  match s with
  | EmptyString => false
  | String c s' => Ascii.eqb c comma || Ascii.eqb c dquote || needsQuotes s'
  end.

Definition writeField (f : string) : string :=
  if needsQuotes f
  then String dquote (doubleQuotes f ++ String dquote EmptyString)
  else f.

(** The fields joined with commas. *)
Definition writeLine (fields : list string) : string :=
  Str.join "," (map writeField fields).

(** The text that may follow a written field: nothing, or a comma and
    more text.  It never starts with a quote. *)
Definition afterField (rest : string) : Prop :=
  match rest with
  | EmptyString => True
  | String c _ => c <> dquote
  end.

End CsvWriter.

(** ** Criteria used in the statements *)

(** A call that supplies nothing. *)
Definition noCriteria : criteria :=
  {| reportType := None; fileName := None; listReports := None;
     pageContains := None; startsWith := None;
     minVisitors := None; minTotal := None;
     sortBy := None; sortOrder := None; limit := None;
     includeSummary := None |}.

Definition withPageContains (p : option string) (c : criteria) : criteria :=
  {| reportType := reportType c; fileName := fileName c;
     listReports := listReports c;
     pageContains := p; startsWith := startsWith c;
     minVisitors := minVisitors c; minTotal := minTotal c;
     sortBy := sortBy c; sortOrder := sortOrder c; limit := limit c;
     includeSummary := includeSummary c |}.

Definition withStartsWith (p : option string) (c : criteria) : criteria :=
  {| reportType := reportType c; fileName := fileName c;
     listReports := listReports c;
     pageContains := pageContains c; startsWith := p;
     minVisitors := minVisitors c; minTotal := minTotal c;
     sortBy := sortBy c; sortOrder := sortOrder c; limit := limit c;
     includeSummary := includeSummary c |}.

Definition withLimit (l : option number) (c : criteria) : criteria :=
  {| reportType := reportType c; fileName := fileName c;
     listReports := listReports c;
     pageContains := pageContains c; startsWith := startsWith c;
     minVisitors := minVisitors c; minTotal := minTotal c;
     sortBy := sortBy c; sortOrder := sortOrder c; limit := l;
     includeSummary := includeSummary c |}.

Definition withListReports (l : option bool) (c : criteria) : criteria :=
  {| reportType := reportType c; fileName := fileName c;
     listReports := l;
     pageContains := pageContains c; startsWith := startsWith c;
     minVisitors := minVisitors c; minTotal := minTotal c;
     sortBy := sortBy c; sortOrder := sortOrder c; limit := limit c;
     includeSummary := includeSummary c |}.

Definition withFileName (n : option string) (c : criteria) : criteria :=
  {| reportType := reportType c; fileName := n;
     listReports := listReports c;
     pageContains := pageContains c; startsWith := startsWith c;
     minVisitors := minVisitors c; minTotal := minTotal c;
     sortBy := sortBy c; sortOrder := sortOrder c; limit := limit c;
     includeSummary := includeSummary c |}.

Definition withIncludeSummary (s : option bool) (c : criteria) : criteria :=
  {| reportType := reportType c; fileName := fileName c;
     listReports := listReports c;
     pageContains := pageContains c; startsWith := startsWith c;
     minVisitors := minVisitors c; minTotal := minTotal c;
     sortBy := sortBy c; sortOrder := sortOrder c; limit := limit c;
     includeSummary := s |}.

(** The sort key chosen by the criteria. *)
Definition sortKey (by_ : SortBy) (row : TopPageRow) : number :=
  match by_ with
  | by_visitors => visitors row
  | by_total => total row
  end.

(** Both measures of the row are finite numbers. *)
Definition finiteRow (row : TopPageRow) : Prop :=
  Num.isFinite (visitors row) = true /\ Num.isFinite (total row) = true.

(** [c'] supplies every filter that [c] supplies, and possibly
    filters that [c] leaves out. *)
Definition addsFilters (c c' : criteria) : Prop :=
  (pageContains c = None \/ pageContains c' = pageContains c)
  /\ (startsWith c = None \/ startsWith c' = startsWith c)
  /\ (minVisitors c = None \/ minVisitors c' = minVisitors c)
  /\ (minTotal c = None \/ minTotal c' = minTotal c).

(** The thresholds, when given, are numbers: the schema's
    [z.number()] rejects NaN. *)
Definition thresholdsAreNumbers (c : criteria) : Prop :=
  minVisitors c <> Some NaN /\ minTotal c <> Some NaN.

(** The errors that the resolver itself throws. *)
Definition resolverError (e : thrown) : Prop :=
  exists message,
    e = ErrorObject message
    /\ (message = "No CSV files found in src/lib/vercel"
        \/ message = "fileName must be a .csv file"
        \/ (exists name, message = "CSV file not found: " ++ name)
        \/ (exists t, message = "No CSV found for reportType '" ++ reportTypeText t ++ "'")).

(** ** Sample data used in the examples *)

Module Samples.

Definition row (name : string) (v t : Z) : TopPageRow :=
  {| item := name; visitors := Num.int v; total := Num.int t |}.

(** Three rows, two of them with the same number of visitors. *)
Definition tiedRows : list TopPageRow :=
  [row "/a" 2 9; row "/b" 1 5; row "/c" 2 7].

(** Criteria asking for at least two visitors, and the same with a
    prefix filter on top. *)
Definition minTwoVisitors : criteria :=
  {| reportType := None; fileName := None; listReports := None;
     pageContains := None; startsWith := None;
     minVisitors := Some (Num.int 2); minTotal := None;
     sortBy := None; sortOrder := None; limit := None;
     includeSummary := None |}.

Definition minTwoVisitorsUnderA : criteria :=
  withStartsWith (Some "/a") minTwoVisitors.

(** A directory whose files cannot be read. *)
Definition unreadable (files : list string) : fs :=
  {| readdir := Ok files;
     readFile := fun _ => throwError "EACCES: permission denied" |}.

(** The default file next to a later Top Pages report. *)
Definition defaultAndLater : fs :=
  unreadable [DEFAULT_FILE; "Top Pages - Z.csv"].

(** One report, of another type. *)
Definition referrersOnly : fs :=
  unreadable ["Top Referrers - Jan 1, 26.csv"].

(** No report, only a text file. *)
Definition noReports : fs := unreadable ["notes.txt"].

(** A directory that cannot be listed, the failure not being an
    [Error]. *)
Definition unlistable : fs :=
  {| readdir := Throw OtherValue;
     readFile := fun _ => Throw OtherValue |}.

(** Criteria naming a file with a directory part and no [.csv]
    extension. *)
Definition namedFile : criteria :=
  {| reportType := None; fileName := Some "../secret.txt"; listReports := None;
     pageContains := None; startsWith := None;
     minVisitors := None; minTotal := None;
     sortBy := None; sortOrder := None; limit := None;
     includeSummary := None |}.

(** The scenario of the specification: one report with a header and
    two data lines, the second with a quoted, grouped total. *)
Definition scenarioFile : string := "Top Pages - Jan 1, 26.csv".

Definition scenarioContent : string :=
  "item,visitors,total" ++ NL
  ++ "/home,100,150" ++ NL
  ++ "/about,50," ++ String dquote ("1,200" ++ String dquote EmptyString).

Definition scenario : fs :=
  {| readdir := Ok [scenarioFile];
     readFile := fun f =>
       if String.eqb f scenarioFile then Ok scenarioContent
       else throwError "ENOENT: no such file or directory" |}.

End Samples.

(** ** Proof automation *)

(** Decides the boolean comparisons of a goal and leaves the
    arithmetic to [lia]. *)
Ltac decide_ltb :=
  repeat match goal with
         | |- context [(?a <? ?b)%Z] => destruct (Z.ltb_spec a b)
         | |- context [(?a <? ?b)%N] => destruct (N.ltb_spec a b)
         end;
  cbn [negb andb]; try reflexivity; try lia.


(** ** Text helpers used in the statements *)

Module Text.

(** How many times [c] occurs in [s]. *)
Fixpoint count (c : ascii) (s : string) : nat :=
  match s with
  | EmptyString => 0
  | String d s' => (if Ascii.eqb d c then 1 else 0) + count c s'
  end.

(** [line.split(",")]: the plain cut of a line at its commas. *)
Fixpoint splitOnComma (s : string) : list string :=
  match s with
  | EmptyString => [EmptyString]
  | String c s' =>
      if Ascii.eqb c comma then EmptyString :: splitOnComma s'
      else match splitOnComma s' with
           | f :: fs => String c f :: fs
           | [] => [String c EmptyString]
           end
  end.

(** The text with every line feed turned into a carriage return and
    a line feed. *)
Fixpoint toCRLF (s : string) : string :=
  match s with
  | EmptyString => EmptyString
  | String c s' =>
      if Ascii.eqb c LF then String CR (String LF (toCRLF s'))
      else String c (toCRLF s')
  end.

(** The sum of a list of counts. *)
Definition sumN (l : list N) : N := fold_right N.add 0%N l.

(** [cur] put in front of the first field. *)
Definition prepend (cur : string) (fields : list string) : list string :=
  match fields with
  | f :: fs => (cur ++ f) :: fs
  | [] => [cur]
  end.

End Text.

(** ** The update-price tool *)

Module UpdatePrice.

(** A column value of a selected row: null, a number or a text. *)
Inductive column : Type :=
  | Null
  | NumberValue (n : number)
  | TextValue (s : string).

(** A row selected with
    ["id, year, make, model, vin, stock_number, price"]. *)
Record vehicle : Type := {
  v_id : column;
  v_year : column;
  v_make : column;
  v_model : column;
  v_vin : column;
  v_stock_number : column;
  v_price : column
}.

(** The argument of the tool. *)
Record request : Type := {
  id : option number;
  vin : option string;
  stockNumber : option string;
  price : option number
}.

(** The filter put on the select query. *)
Inductive identifier : Type :=
  | ById (n : number)
  | ByVin (s : string)
  | ByStockNumber (s : string).

(** What the awaited queries answer: an error with its message, or
    the data. *)
Inductive selectResponse : Type :=
  | SelectError (message : string)
  | Selected (vehicles : list vehicle).

Inductive updateResponse : Type :=
  | UpdateError (message : string)
  | Updated (updatedVehicle : vehicle).

(** The surroundings of one invocation: the two environment
    variables, and what [createClient], the select query and the
    update query do, each of which may throw.  [updateVehicle env i p]
    is the update of the row whose id is [i] to the price [p]. *)
Record host : Type := {
  SUPABASE_URL : option string;
  SUPABASE_SERVICE_ROLE_KEY : option string;
  createClient : result unit;
  selectVehicles : option identifier -> result selectResponse;
  updateVehicle : column -> number -> result updateResponse
}.

(** [!value] for an environment variable. *)
Definition missing (value : option string) : bool :=
  match value with
  | Some (String _ _) => false
  | _ => true
  end.

(** [[id, vin, stockNumber].filter((v) => v !== undefined).length] *)
Definition identifierCount (r : request) : nat :=
  (match id r with Some _ => 1 | None => 0 end)
  + (match vin r with Some _ => 1 | None => 0 end)
  + (match stockNumber r with Some _ => 1 | None => 0 end).

(** The [eq] filter that the [if]/[else if] chain adds to the query. *)
Definition queryFilter (r : request) : option identifier :=
  match id r, vin r, stockNumber r with
  | Some n, _, _ => Some (ById n)
  | None, Some s, _ => Some (ByVin s)
  | None, None, Some s => Some (ByStockNumber s)
  | None, None, None => None
  end.

Definition truthy (v : column) : bool :=
  match v with
  | Null => false
  | NumberValue n => Num.truthy n
  | TextValue s => Str.truthy s
  end.

Section Tool.

(** [String(n)] and [n.toLocaleString()] of the host. *)
Variable numberToString : number -> string.
Variable toLocaleString : number -> string.

(** A value inside a template literal. *)
Definition display (v : column) : string :=
  match v with
  | Null => "null"
  | NumberValue n => numberToString n
  | TextValue s => s
  end.

(** [${v || fallback}] *)
Definition displayOr (v : column) (fallback : string) : string :=
  if truthy v then display v else fallback.

Definition formatMoney (value : column) : string :=
  match value with
  | Null => "N/A"
  | NumberValue n => "$" ++ toLocaleString n
  | TextValue s => "$" ++ s
  end.

(** The text naming the identifier in the not-found message. *)
Definition identifierText (r : request) : string :=
  match id r with
  | Some n => "ID: " ++ numberToString n
  | None =>
      match vin r with
      | Some s => "VIN: " ++ s
      | None =>
          "Stock Number: "
          ++ match stockNumber r with Some s => s | None => "undefined" end
      end
  end.

(** What the [try] block of [updatePrice] returns or throws. *)
Definition updatePrice_try (env : host) (r : request) : result string :=
  if missing (SUPABASE_URL env) || missing (SUPABASE_SERVICE_ROLE_KEY env) then
    Ok "Error: Missing Supabase credentials. Please set SUPABASE_URL and SUPABASE_SERVICE_ROLE_KEY in .env file"
  else if (identifierCount r =? 0)%nat then
    Ok "Error: Please provide one identifier ('id', 'vin', or 'stockNumber') to identify the vehicle."
  else if (1 <? identifierCount r)%nat then
    Ok "Error: Please provide only one identifier ('id', 'vin', OR 'stockNumber'), not multiple."
  else
    match price r with
    | None => Ok "Error: Please provide 'price' to update the vehicle price."
    | Some newPrice =>
        _ <- createClient env ;;
        response <- selectVehicles env (queryFilter r) ;;
        match response with
        | SelectError message => Ok ("Error finding vehicle: " ++ message)
        | Selected vehicles =>
            (* no row, more than one row, or [vehicles[0]] alone *)
            match vehicles with
            | [] => Ok ("No vehicle found with " ++ identifierText r ++ ".")
            | _ :: _ :: _ =>
                Ok "Error: Multiple vehicles found with the same identifier. This shouldn't happen. Please contact support."
            | [selected] =>
                let vehicleInfo :=
                  Str.trim (displayOr (v_year selected) EmptyString ++ " "
                            ++ displayOr (v_make selected) EmptyString ++ " "
                            ++ displayOr (v_model selected) EmptyString) in
                updated <- updateVehicle env (v_id selected) newPrice ;;
                match updated with
                | UpdateError message =>
                    Ok ("Error updating vehicle price: " ++ message)
                | Updated updatedVehicle =>
                    Ok ("Successfully updated vehicle price:" ++ NL ++ NL
                        ++ "Vehicle: " ++ vehicleInfo ++ NL
                        ++ "ID: " ++ display (v_id updatedVehicle) ++ NL
                        ++ "VIN: " ++ displayOr (v_vin updatedVehicle) "N/A" ++ NL
                        ++ "Stock Number: "
                        ++ displayOr (v_stock_number updatedVehicle) "N/A" ++ NL ++ NL
                        ++ "Price: " ++ formatMoney (v_price selected) ++ " -> "
                        ++ formatMoney (v_price updatedVehicle))
                end
            end
        end
    end.

Definition updatePrice (env : host) (r : request) : string :=
  match updatePrice_try env r with
  | Ok text => text
  | Throw (ErrorObject message) => "Error: " ++ message
  | Throw OtherValue => "Error: Unknown error"
  end.

End Tool.

(** The request passes the checks made before the database is used:
    both credentials are set, exactly one identifier is given, and a
    price is given. *)
Definition wellFormed (env : host) (r : request) : Prop :=
  missing (SUPABASE_URL env) = false
  /\ missing (SUPABASE_SERVICE_ROLE_KEY env) = false
  /\ identifierCount r = 1
  /\ price r <> None.

(** A host whose database calls all throw. *)
Definition offline (url key : option string) : host :=
  {| SUPABASE_URL := url;
     SUPABASE_SERVICE_ROLE_KEY := key;
     createClient := throwError "Invalid supabaseUrl";
     selectVehicles := fun _ => Throw OtherValue;
     updateVehicle := fun _ _ => Throw OtherValue |}.

(** A host that answers the select with the given rows and refuses
    every update. *)
Definition readOnly (rows : list vehicle) : host :=
  {| SUPABASE_URL := Some "https://db.example";
     SUPABASE_SERVICE_ROLE_KEY := Some "key";
     createClient := Ok tt;
     selectVehicles := fun _ => Ok (Selected rows);
     updateVehicle := fun _ _ => Ok (UpdateError "permission denied") |}.

Definition byVin (v : string) (p : option number) : request :=
  {| id := None; vin := Some v; stockNumber := None; price := p |}.

End UpdatePrice.
(** ** Strings: basic facts *)

Module StrFacts.

Lemma append_nil_r (s : string) : s ++ EmptyString = s.
Proof. induction s as [|c s IH]; simpl; [reflexivity | now rewrite IH]. Qed.

Lemma append_assoc (a b c : string) : (a ++ b) ++ c = a ++ (b ++ c).
Proof. induction a as [|x a IH]; simpl; [reflexivity | now rewrite IH]. Qed.

Lemma append_char (a : string) (c : ascii) (b : string) :
  (a ++ String c EmptyString) ++ b = a ++ String c b.
Proof. now rewrite append_assoc. Qed.

Lemma rev_onto_app (s acc : string) : Str.rev_onto s acc = Str.rev s ++ acc.
Proof.
  revert acc. unfold Str.rev.
  induction s as [|c s IH]; intros acc; simpl; [reflexivity|].
  rewrite IH, (IH (String c EmptyString)).
  now rewrite append_assoc.
Qed.

Lemma rev_cons (c : ascii) (s : string) :
  Str.rev (String c s) = Str.rev s ++ String c EmptyString.
Proof. unfold Str.rev at 1. simpl. apply rev_onto_app. Qed.

Lemma rev_app (a b : string) : Str.rev (a ++ b) = Str.rev b ++ Str.rev a.
Proof.
  induction a as [|c a IH]; simpl.
  - now rewrite append_nil_r.
  - now rewrite !rev_cons, IH, append_assoc.
Qed.

Lemma rev_involutive (s : string) : Str.rev (Str.rev s) = s.
Proof.
  induction s as [|c s IH]; [reflexivity|].
  now rewrite rev_cons, rev_app, IH.
Qed.

Lemma allWhiteSpace_app (a b : string) :
  Str.allWhiteSpace (a ++ b) = Str.allWhiteSpace a && Str.allWhiteSpace b.
Proof.
  induction a as [|c a IH]; simpl; [reflexivity|].
  now rewrite IH, andb_assoc.
Qed.

Lemma allWhiteSpace_rev (s : string) :
  Str.allWhiteSpace (Str.rev s) = Str.allWhiteSpace s.
Proof.
  induction s as [|c s IH]; [reflexivity|].
  rewrite rev_cons, allWhiteSpace_app, IH. simpl.
  now rewrite andb_true_r, andb_comm.
Qed.

(** [trimStart] removes a prefix made of white space. *)
Lemma trimStart_split (s : string) :
  exists w, Str.allWhiteSpace w = true /\ s = w ++ Str.trimStart s.
Proof.
  induction s as [|c s (w & Hw & E)]; simpl.
  - now exists EmptyString.
  - destruct (Str.isWhiteSpace c) eqn:Hc.
    + exists (String c w). simpl. rewrite Hc, Hw. split; [reflexivity | now f_equal].
    + now exists EmptyString.
Qed.

(** [trimStart] leaves the text after the first other character
    untouched. *)
Lemma trimStart_app (x y : string) :
  Str.trimStart (x ++ y)
  = match Str.trimStart x with
    | EmptyString => Str.trimStart y
    | t => t ++ y
    end.
Proof.
  induction x as [|c x IH]; simpl; [reflexivity|].
  destruct (Str.isWhiteSpace c); [exact IH | reflexivity].
Qed.

Lemma trimStart_allWhiteSpace (w : string) :
  Str.allWhiteSpace w = true -> Str.trimStart w = EmptyString.
Proof.
  induction w as [|c w IH]; simpl; [reflexivity|].
  destruct (Str.isWhiteSpace c); [exact IH | discriminate].
Qed.

Lemma trimStart_skip (w s : string) :
  Str.allWhiteSpace w = true -> Str.trimStart (w ++ s) = Str.trimStart s.
Proof.
  intros Hw. now rewrite trimStart_app, trimStart_allWhiteSpace.
Qed.

Lemma trimEnd_split (s : string) :
  exists w, Str.allWhiteSpace w = true /\ s = Str.trimEnd s ++ w.
Proof.
  unfold Str.trimEnd.
  destruct (trimStart_split (Str.rev s)) as (w & Hw & E).
  exists (Str.rev w). split.
  - now rewrite allWhiteSpace_rev.
  - rewrite <- rev_app, <- E. symmetry. apply rev_involutive.
Qed.

Lemma trimEnd_skip (s w : string) :
  Str.allWhiteSpace w = true -> Str.trimEnd (s ++ w) = Str.trimEnd s.
Proof.
  intros Hw. unfold Str.trimEnd.
  rewrite rev_app, trimStart_skip; [reflexivity|].
  now rewrite allWhiteSpace_rev.
Qed.

Lemma trimEnd_nil : Str.trimEnd EmptyString = EmptyString.
Proof. reflexivity. Qed.

(** White space around a text does not change what [trim] returns. *)
Lemma trim_skip (w1 x w2 : string) :
  Str.allWhiteSpace w1 = true -> Str.allWhiteSpace w2 = true ->
  Str.trim (w1 ++ x ++ w2) = Str.trim x.
Proof.
  intros H1 H2. unfold Str.trim.
  rewrite trimStart_skip by assumption.
  rewrite trimStart_app.
  destruct (Str.trimStart x) as [|c t] eqn:E.
  - now rewrite trimStart_allWhiteSpace.
  - now apply trimEnd_skip.
Qed.

Lemma trim_split (s : string) :
  exists w1 w2,
    Str.allWhiteSpace w1 = true /\ Str.allWhiteSpace w2 = true
    /\ s = w1 ++ Str.trim s ++ w2.
Proof.
  destruct (trimStart_split s) as (w1 & H1 & E1).
  destruct (trimEnd_split (Str.trimStart s)) as (w2 & H2 & E2).
  exists w1, w2. repeat split; try assumption.
  unfold Str.trim. now rewrite <- E2.
Qed.

Lemma removeCommas_app (a b : string) :
  Str.removeCommas (a ++ b) = Str.removeCommas a ++ Str.removeCommas b.
Proof.
  induction a as [|c a IH]; simpl; [reflexivity|].
  destruct (Ascii.eqb c comma); simpl; now rewrite IH.
Qed.

Lemma removeCommas_allWhiteSpace (w : string) :
  Str.allWhiteSpace w = true -> Str.removeCommas w = w.
Proof.
  induction w as [|c w IH]; simpl; [reflexivity|].
  intros H. apply andb_true_iff in H as [Hc Hw].
  destruct (Ascii.eqb_spec c comma) as [->|_]; [discriminate|].
  now rewrite IH.
Qed.

Lemma removeCommas_idempotent (s : string) :
  Str.removeCommas (Str.removeCommas s) = Str.removeCommas s.
Proof.
  induction s as [|c s IH]; simpl; [reflexivity|].
  destruct (Ascii.eqb c comma) eqn:E; [exact IH|].
  simpl. now rewrite E, IH.
Qed.

(** Commas are removed and the ends trimmed in either order. *)
Lemma trim_removeCommas_trim (s : string) :
  Str.trim (Str.removeCommas (Str.trim s)) = Str.trim (Str.removeCommas s).
Proof.
  destruct (trim_split s) as (w1 & w2 & H1 & H2 & E).
  pose proof (f_equal Str.removeCommas E) as E'.
  rewrite !removeCommas_app in E'.
  rewrite (removeCommas_allWhiteSpace w1 H1), (removeCommas_allWhiteSpace w2 H2) in E'.
  rewrite E'. now rewrite trim_skip.
Qed.

End StrFacts.

(** ** The delimited-row parser *)

Module ParserFacts.
Import StrFacts CsvWriter.

(** Outside quotes, a field without comma or quote is read as it is. *)
Lemma loop_plain (f rest : string) (fields : list string) (current : string) :
  needsQuotes f = false ->
  parseCsvLine_loop (f ++ rest) fields current false
  = parseCsvLine_loop rest fields (current ++ f) false.
Proof.
  revert current.
  induction f as [|c f IH]; intros current Hf; simpl.
  - now rewrite append_nil_r.
  - simpl in Hf.
    apply orb_false_iff in Hf as [Hc Hf].
    apply orb_false_iff in Hc as [Hcomma Hquote].
    rewrite Hquote, Hcomma. simpl.
    rewrite IH by assumption.
    now rewrite append_char.
Qed.

(** Inside quotes, the doubled text up to the closing quote is read
    back as the original text, and the parser leaves the quotes. *)
Lemma loop_quoted (f rest : string) (fields : list string) (current : string) :
  afterField rest ->
  parseCsvLine_loop (doubleQuotes f ++ String dquote rest) fields current true
  = parseCsvLine_loop rest fields (current ++ f) false.
Proof.
  intros Hrest. revert current.
  induction f as [|c f IH]; intros current.
  - cbn [doubleQuotes append parseCsvLine_loop].
    rewrite Ascii.eqb_refl, append_nil_r.
    destruct rest as [|n rest']; [reflexivity|].
    simpl in Hrest. apply Ascii.eqb_neq in Hrest.
    now rewrite Hrest.
  - cbn [doubleQuotes].
    destruct (Ascii.eqb c dquote) eqn:Hc.
    + apply Ascii.eqb_eq in Hc. subst c.
      cbn [append parseCsvLine_loop].
      rewrite Ascii.eqb_refl.
      rewrite IH. now rewrite append_char.
    + cbn [append parseCsvLine_loop].
      rewrite Hc. cbn [negb andb].
      rewrite andb_false_r.
      rewrite IH. now rewrite append_char.
Qed.

(** A written field, read outside quotes, adds the field to [current]. *)
Lemma loop_field (f rest : string) (fields : list string) (current : string) :
  afterField rest ->
  parseCsvLine_loop (writeField f ++ rest) fields current false
  = parseCsvLine_loop rest fields (current ++ f) false.
Proof.
  intros Hrest. unfold writeField.
  destruct (needsQuotes f) eqn:Hq.
  - cbn [append parseCsvLine_loop].
    rewrite Ascii.eqb_refl.
    rewrite append_assoc. cbn [append].
    cbn [negb].
    now apply loop_quoted.
  - now apply loop_plain.
Qed.

Lemma loop_writeLine (fields : list string) :
  fields <> [] ->
  forall done : list string,
    parseCsvLine_loop (writeLine fields) done EmptyString false
    = (done ++ fields)%list.
Proof.
  induction fields as [|f fields IH]; intros Hne done; [congruence|].
  destruct fields as [|g fields].
  - unfold writeLine, Str.join. cbn [map String.concat].
    rewrite <- (append_nil_r (writeField f)).
    rewrite loop_field by exact I.
    reflexivity.
  - unfold writeLine, Str.join in *. cbn [map String.concat] in *.
    rewrite loop_field by (cbn; discriminate).
    cbn [append parseCsvLine_loop].
    replace (Ascii.eqb "," dquote) with false by reflexivity.
    replace (Ascii.eqb "," comma) with true by reflexivity.
    cbn [andb negb].
    rewrite IH by discriminate.
    now rewrite <- app_assoc.
Qed.

(** C6. Round trip of the delimited-row parser: for every list of
    one or more field strings, parsing the line that joins them with
    commas, a field with a comma or a quote being wrapped in quotes
    with its quotes doubled, gives back exactly those fields. *)
Theorem parseCsvLine_roundtrip (fields : list string) :
  fields <> [] ->
  parseCsvLine (writeLine fields) = fields.
Proof.
  intros Hne. unfold parseCsvLine.
  now rewrite loop_writeLine.
Qed.

Lemma parseCsvLine_roundtrip_witness :
  [ "/about"; "1,200"; String dquote "x"; EmptyString ] <> []
  /\ parseCsvLine
       (writeLine [ "/about"; "1,200"; String dquote "x"; EmptyString ])
     = [ "/about"; "1,200"; String dquote "x"; EmptyString ].
Proof.
  split; [discriminate|].
  apply (parseCsvLine_roundtrip
           [ "/about"; "1,200"; String dquote "x"; EmptyString ]).
  discriminate.
Defined.

(** With no field at all the joined line is empty, and the parser
    reads one empty field from it. *)
Lemma parseCsvLine_no_field : parseCsvLine (writeLine []) = [EmptyString].
Proof. reflexivity. Qed.

End ParserFacts.

(** ** The stable sort *)

Module SortFacts.
Import Arr.

Section Generic.
Context {A : Type}.
Variable after : A -> A -> bool.

Lemma insert_perm (x : A) (l : list A) : Permutation (insert after x l) (x :: l).
Proof.
  induction l as [|y l IH]; simpl; [reflexivity|].
  destruct (after x y); [|reflexivity].
  rewrite IH. apply perm_swap.
Qed.

Lemma sort_perm (l : list A) : Permutation (sort after l) l.
Proof.
  induction l as [|x l IH]; simpl; [reflexivity|].
  rewrite insert_perm. now constructor.
Qed.

Lemma sort_length (l : list A) : length (sort after l) = length l.
Proof. apply Permutation_length, sort_perm. Qed.

Lemma sort_In (l : list A) (x : A) : In x (sort after l) <-> In x l.
Proof.
  split; apply Permutation_in; [|symmetry]; apply sort_perm.
Qed.

(** Order: [after] decides a transitive relation [R] in both
    directions. *)
Section Ordered.
Variable R : A -> A -> Prop.
Variable dom : A -> Prop.
Hypothesis R_trans : forall x y z, R x y -> R y z -> R x z.
Hypothesis not_after : forall x y, dom x -> dom y -> after x y = false -> R x y.
Hypothesis is_after : forall x y, dom x -> dom y -> after x y = true -> R y x.

Lemma insert_sorted (x : A) (l : list A) :
  dom x -> Forall dom l ->
  StronglySorted R l -> StronglySorted R (insert after x l).
Proof.
  intros Hx Hd Hs.
  induction Hs as [|y l Hs IH Hy]; simpl.
  - constructor; constructor.
  - inversion Hd as [|? ? Hdy Hdl]; subst.
    destruct (after x y) eqn:E.
    + constructor; [now apply IH|].
      apply (Permutation_Forall (x := x :: l)).
      * symmetry. apply insert_perm.
      * constructor; [now apply is_after | assumption].
    + constructor; [now constructor|].
      assert (Rxy : R x y) by now apply not_after.
      constructor; [assumption|].
      eapply Forall_impl; [|exact Hy].
      intros z Hz. now apply R_trans with y.
Qed.

Lemma sort_sorted (l : list A) :
  Forall dom l -> StronglySorted R (sort after l).
Proof.
  induction l as [|x l IH]; intros Hd; simpl; [constructor|].
  inversion Hd; subst.
  apply insert_sorted; auto.
  apply (Permutation_Forall (x := l)); [symmetry; apply sort_perm | assumption].
Qed.
End Ordered.

(** Stability: elements picked by [p], none of which sorts after
    another one, keep their order. *)
Section Stable.
Variable p : A -> bool.
Variable dom : A -> Prop.
Hypothesis ties : forall x y, dom x -> dom y ->
                              p x = true -> p y = true -> after x y = false.

Lemma insert_stable (x : A) (l : list A) :
  dom x -> Forall dom l ->
  filter p (insert after x l) = filter p (x :: l).
Proof.
  intros Hx Hd.
  induction l as [|y l IH]; [reflexivity|].
  inversion Hd as [|? ? Hdy Hdl]; subst.
  cbn [insert].
  destruct (after x y) eqn:E; [|reflexivity].
  cbn [filter]. rewrite IH by assumption. cbn [filter].
  destruct (p x) eqn:Px, (p y) eqn:Py; try reflexivity.
  rewrite ties in E by assumption. discriminate.
Qed.

Lemma sort_stable (l : list A) :
  Forall dom l -> filter p (sort after l) = filter p l.
Proof.
  induction l as [|x l IH]; intros Hd; [reflexivity|].
  inversion Hd; subst.
  cbn [sort].
  rewrite insert_stable; auto.
  - cbn [filter]. now rewrite IH.
  - apply (Permutation_Forall (x := l)); [symmetry; apply sort_perm | assumption].
Qed.
End Stable.
End Generic.

End SortFacts.

(** ** Numbers: signs and order *)

Module NumFacts.

Lemma unit_scale_pos : (0 < unit_scale)%N.
Proof.
  unfold unit_scale. apply N.neq_0_lt_0, N.pow_nonzero. discriminate.
Qed.

Lemma rne_div_ge (p q : N) : (p / q <= rne_div p q)%N.
Proof.
  unfold rne_div.
  destruct (2 * (p mod q) ?= q)%N; [destruct (N.even (p / q))| |]; lia.
Qed.

Lemma round_ratio_zero : round_ratio 0 1 = 0%N.
Proof. reflexivity. Qed.

(** Rounding a whole count of units never reaches zero from above. *)
Lemma round_ratio_pos (p : N) : (0 < p)%N -> (0 < round_ratio p 1)%N.
Proof.
  intros Hp. unfold round_ratio.
  rewrite N.div_1_r, N.mul_1_l.
  set (shift := (N.log2 p + 1 - 53)%N).
  assert (Hpow : (2 ^ shift <= p)%N).
  { apply N.le_trans with (2 ^ N.log2 p)%N.
    - apply N.pow_le_mono_r; [discriminate | unfold shift; lia].
    - now apply N.log2_spec. }
  assert (H2 : (0 < 2 ^ shift)%N).
  { apply N.neq_0_lt_0, N.pow_nonzero. discriminate. }
  assert (Ha : (1 <= p / 2 ^ shift)%N).
  { apply N.div_le_lower_bound; lia. }
  pose proof (rne_div_ge p (2 ^ shift)).
  apply N.mul_pos_pos; lia.
Qed.

Lemma gt_ofUnits_zero (s : bool) (p : N) :
  Num.gt (ofUnits s p) zero = negb s && (0 <? p)%N.
Proof.
  unfold Num.gt, ofUnits, ofRatio, zero.
  destruct (N.eq_dec p 0) as [->|Hp].
  - rewrite round_ratio_zero.
    replace (overflow_bound <=? 0)%N with false by reflexivity.
    cbn [lt]. destruct s; reflexivity.
  - assert (H : (0 < round_ratio p 1)%N) by (apply round_ratio_pos; lia).
    replace (0 <? p)%N with true by (symmetry; apply N.ltb_lt; lia).
    destruct (overflow_bound <=? round_ratio p 1)%N; cbn [lt].
    + now rewrite andb_true_r.
    + rewrite andb_true_r. unfold toZ.
      destruct s; cbn [negb]; [apply Z.ltb_ge | apply Z.ltb_lt]; lia.
Qed.

Lemma gt_neg_ofUnits_zero (s : bool) (p : N) :
  Num.gt (neg (ofUnits s p)) zero = s && (0 <? p)%N.
Proof.
  unfold Num.gt, ofUnits, ofRatio, zero.
  destruct (N.eq_dec p 0) as [->|Hp].
  - rewrite round_ratio_zero.
    replace (overflow_bound <=? 0)%N with false by reflexivity.
    cbn [lt neg]. destruct s; reflexivity.
  - assert (H : (0 < round_ratio p 1)%N) by (apply round_ratio_pos; lia).
    replace (0 <? p)%N with true by (symmetry; apply N.ltb_lt; lia).
    destruct (overflow_bound <=? round_ratio p 1)%N; cbn [lt neg].
    + rewrite andb_true_r. now destruct s.
    + rewrite andb_true_r. unfold toZ.
      destruct s; cbn [negb]; [apply Z.ltb_lt | apply Z.ltb_ge]; lia.
Qed.

(** The sign of a difference of finite numbers is the sign of the
    exact difference: [a - b > 0] exactly when [b < a]. *)
Lemma gt_sub_zero (s t : bool) (j k : N) :
  Num.gt (sub (Fin s j) (Fin t k)) zero = (toZ t k <? toZ s j)%Z.
Proof.
  unfold sub. cbn [neg add].
  destruct s, t; cbn [negb Bool.eqb];
    try destruct (N.compare_spec j k) as [E|L|G]; subst;
    rewrite ?gt_ofUnits_zero;
    unfold Num.gt, zero; cbn [lt]; unfold toZ; decide_ltb.
Qed.

(** And [-(a - b) > 0] exactly when [a < b]. *)
Lemma gt_neg_sub_zero (s t : bool) (j k : N) :
  Num.gt (neg (sub (Fin s j) (Fin t k))) zero = (toZ s j <? toZ t k)%Z.
Proof.
  unfold sub. cbn [neg add].
  destruct s, t; cbn [negb Bool.eqb];
    try destruct (N.compare_spec j k) as [E|L|G]; subst;
    rewrite ?gt_neg_ofUnits_zero;
    unfold Num.gt, zero; cbn [lt neg]; unfold toZ; cbn [negb]; decide_ltb.
Qed.

End NumFacts.

(** ** Sorting the rows *)

Module PipelineSort.
Import NumFacts SortFacts.

Lemma le_trans (a b c : number) :
  Num.le a b = true -> Num.le b c = true -> Num.le a c = true.
Proof.
  destruct a as [|[]|[] j], b as [|[]|[] k], c as [|[]|[] m];
    cbn [Num.le lt negb andb]; try discriminate; try reflexivity;
    unfold toZ; intros H1 H2;
    apply negb_true_iff in H1; apply negb_true_iff in H2;
    apply negb_true_iff;
    apply Z.ltb_ge in H1; apply Z.ltb_ge in H2; apply Z.ltb_ge; lia.
Qed.

Lemma ge_trans (a b c : number) :
  Num.ge a b = true -> Num.ge b c = true -> Num.ge a c = true.
Proof. unfold Num.ge. intros H1 H2. exact (le_trans c b a H2 H1). Qed.

Lemma finite_key (by_ : SortBy) (r : TopPageRow) :
  finiteRow r -> exists s k, sortKey by_ r = Fin s k.
Proof.
  intros [Hv Ht].
  destruct by_; cbn [sortKey].
  - destruct (visitors r); try discriminate; eauto.
  - destruct (total r); try discriminate; eauto.
Qed.

(** On finite rows the comparator result is above zero exactly when
    the first key is the larger one (ascending), or the smaller one
    (descending). *)
Lemma after_asc (by_ : SortBy) (x y : TopPageRow) :
  finiteRow x -> finiteRow y ->
  Num.gt (compareRows by_ asc x y) zero = Num.lt (sortKey by_ y) (sortKey by_ x).
Proof.
  intros Hx Hy.
  destruct (finite_key by_ x Hx) as (s & j & Ex).
  destruct (finite_key by_ y Hy) as (t & k & Ey).
  rewrite Ex, Ey. cbn [lt].
  rewrite <- gt_sub_zero.
  destruct by_; cbn [compareRows sortKey] in *; now rewrite Ex, Ey.
Qed.

Lemma after_desc (by_ : SortBy) (x y : TopPageRow) :
  finiteRow x -> finiteRow y ->
  Num.gt (compareRows by_ desc x y) zero = Num.lt (sortKey by_ x) (sortKey by_ y).
Proof.
  intros Hx Hy.
  destruct (finite_key by_ x Hx) as (s & j & Ex).
  destruct (finite_key by_ y Hy) as (t & k & Ey).
  rewrite Ex, Ey. cbn [lt].
  rewrite <- gt_neg_sub_zero.
  destruct by_; cbn [compareRows sortKey] in *; now rewrite Ex, Ey.
Qed.

Lemma lt_false_le (a b : number) :
  Num.isFinite a = true -> Num.isFinite b = true ->
  Num.lt b a = false -> Num.le a b = true.
Proof.
  destruct a, b; try discriminate. intros _ _ H.
  cbn [Num.le]. now rewrite H.
Qed.

Lemma lt_true_le (a b : number) :
  Num.lt a b = true -> Num.le a b = true.
Proof.
  destruct a as [|[]|[] j], b as [|[]|[] k];
    cbn [Num.le lt negb andb]; try discriminate; try reflexivity;
    unfold toZ; intros H; apply Z.ltb_lt in H;
    apply negb_true_iff, Z.ltb_ge; lia.
Qed.

Lemma key_finite (by_ : SortBy) (r : TopPageRow) :
  finiteRow r -> Num.isFinite (sortKey by_ r) = true.
Proof. intros [Hv Ht]. now destruct by_. Qed.

(** Two keys equal to the same number are not below one another. *)
Lemma eqb_not_lt (a b v : number) :
  Num.eqb a v = true -> Num.eqb b v = true -> Num.lt a b = false.
Proof.
  unfold Num.eqb.
  destruct a as [|[]|[] j], b as [|[]|[] k], v as [|[]|[] m];
    cbn [Num.le lt negb andb]; try discriminate; try reflexivity;
    unfold toZ; intros H1 H2;
    apply andb_true_iff in H1 as [H1 H1'];
    apply andb_true_iff in H2 as [H2 H2'];
    apply negb_true_iff in H1, H1', H2, H2';
    apply Z.ltb_ge in H1, H1', H2, H2'; apply Z.ltb_ge; lia.
Qed.

(** C5. For every sequence of rows with finite measures and every
    criteria, the sorted sequence respects the direction and is
    stable: with sortOrder asc it is non-decreasing in the chosen
    field (visitors unless total is selected), otherwise (desc, the
    default) it is non-increasing; the rows whose key equals any given
    number keep the relative order they had before the sort; and the
    sorted sequence holds the same rows. *)
Theorem sortRows_direction_and_stability (c : criteria) (rows : list TopPageRow) :
  Forall finiteRow rows ->
  let key := fun r : TopPageRow =>
               match sortBy c with Some by_total => total r | _ => visitors r end in
  let out := sortRows c rows in
  match sortOrder c with
  | Some asc => StronglySorted (fun a b => Num.le (key a) (key b) = true) out
  | _ => StronglySorted (fun a b => Num.ge (key a) (key b) = true) out
  end
  /\ (forall v : number,
         filter (fun r => Num.eqb (key r) v) out
         = filter (fun r => Num.eqb (key r) v) rows)
  /\ Permutation out rows.
Proof.
  intros Hfin key out.
  assert (Hkey : forall r, key r = sortKey (sortField c) r).
  { intros r. unfold key, sortField, sortKey.
    destruct (sortBy c) as [[]|]; reflexivity. }
  assert (Hext : forall v l,
             filter (fun r => Num.eqb (key r) v) l
             = filter (fun r => Num.eqb (sortKey (sortField c) r) v) l).
  { intros v l. apply filter_ext. intros r. now rewrite Hkey. }
  unfold out, sortRows, Arr.sortWith.
  split; [|split].
  - unfold sortDirection.
    destruct (sortOrder c) as [[]|].
    + apply (sort_sorted _ _ finiteRow); [| | |assumption].
      * intros x y z. apply le_trans.
      * intros x y Hx Hy E. rewrite after_asc in E by assumption.
        rewrite !Hkey. now apply lt_false_le; try apply key_finite.
      * intros x y Hx Hy E. rewrite after_asc in E by assumption.
        rewrite !Hkey. now apply lt_true_le.
    + apply (sort_sorted _ _ finiteRow); [| | |assumption].
      * intros x y z. apply ge_trans.
      * intros x y Hx Hy E. rewrite after_desc in E by assumption.
        rewrite !Hkey. unfold Num.ge. now apply lt_false_le; try apply key_finite.
      * intros x y Hx Hy E. rewrite after_desc in E by assumption.
        rewrite !Hkey. unfold Num.ge. now apply lt_true_le.
    + apply (sort_sorted _ _ finiteRow); [| | |assumption].
      * intros x y z. apply ge_trans.
      * intros x y Hx Hy E. rewrite after_desc in E by assumption.
        rewrite !Hkey. unfold Num.ge. now apply lt_false_le; try apply key_finite.
      * intros x y Hx Hy E. rewrite after_desc in E by assumption.
        rewrite !Hkey. unfold Num.ge. now apply lt_true_le.
  - intros v. rewrite !Hext.
    apply (sort_stable _ _ finiteRow); [|assumption].
    intros x y Hx Hy Px Py.
    destruct (sortDirection c).
    + rewrite after_asc by assumption. now apply eqb_not_lt with v.
    + rewrite after_desc by assumption. now apply eqb_not_lt with v.
  - apply sort_perm.
Qed.

End PipelineSort.

Module PipelineSortExamples.
Import PipelineSort.

Lemma sortRows_direction_and_stability_witness :
  Forall finiteRow Samples.tiedRows
  /\ (StronglySorted (fun a b => Num.ge (visitors a) (visitors b) = true)
        (sortRows noCriteria Samples.tiedRows)
      /\ (forall v : number,
             filter (fun r => Num.eqb (visitors r) v) (sortRows noCriteria Samples.tiedRows)
             = filter (fun r => Num.eqb (visitors r) v) Samples.tiedRows)
      /\ Permutation (sortRows noCriteria Samples.tiedRows) Samples.tiedRows).
Proof.
  assert (H : Forall finiteRow Samples.tiedRows).
  { repeat (constructor; [split; vm_compute; reflexivity|]). constructor. }
  split; [exact H|].
  exact (sortRows_direction_and_stability noCriteria Samples.tiedRows H).
Defined.

(** The three sample rows in descending order of visitors: the two
    rows with 2 visitors stay in their order. *)
Example sortRows_tiedRows :
  map item (sortRows noCriteria Samples.tiedRows) = ["/a"; "/c"; "/b"].
Proof. vm_compute. reflexivity. Qed.

End PipelineSortExamples.

(** ** The row limit *)

Module LimitFacts.
Import NumFacts.

Lemma int_1 : Num.int 1 = Fin false unit_scale.
Proof. vm_compute. reflexivity. Qed.

Lemma int_20 : Num.int 20 = Fin false (20 * unit_scale).
Proof. vm_compute. reflexivity. Qed.

Lemma int_200 : Num.int 200 = Fin false (200 * unit_scale).
Proof. vm_compute. reflexivity. Qed.

(** Whatever number is requested, [Math.max(1, Math.min(l, 200))] is
    a finite number between 1 and 200, unless [l] is NaN. *)
Lemma clamp_range (l : number) :
  l <> NaN ->
  exists k : N,
    Num.max (Num.int 1) (Num.min l (Num.int 200)) = Fin false k
    /\ (unit_scale <= k <= 200 * unit_scale)%N.
Proof.
  intros Hl. rewrite int_1, int_200.
  pose proof unit_scale_pos as HU.
  generalize dependent unit_scale. intros U HU.
  destruct l as [|[]|[] k]; [congruence| | | |].
  - exists U. cbn [Num.min Num.max lt andb negb]. split; [reflexivity | lia].
  - exists (200 * U)%N. cbn [Num.min Num.max lt andb negb toZ].
    destruct (Z.ltb_spec (Z.of_N U) (Z.of_N (200 * U))); [|lia].
    split; [reflexivity | lia].
  - exists U. cbn [Num.min lt toZ].
    destruct (Z.ltb_spec (- Z.of_N k) (Z.of_N (200 * U))); [|lia].
    cbn [Num.max lt toZ].
    destruct (Z.ltb_spec (Z.of_N U) (- Z.of_N k)); [lia|].
    split; [|lia].
    destruct (Z.ltb_spec (- Z.of_N k) (Z.of_N U)); [reflexivity | lia].
  - cbn [Num.min lt toZ].
    destruct (Z.ltb_spec (Z.of_N k) (Z.of_N (200 * U))).
    + cbn [Num.max lt toZ].
      destruct (Z.ltb_spec (Z.of_N U) (Z.of_N k)).
      * exists k. split; [reflexivity | lia].
      * exists U. split; [|lia].
        destruct (Z.ltb_spec (Z.of_N k) (Z.of_N U)); reflexivity.
    + exists (200 * U)%N.
      assert (E : (if (Z.of_N (200 * U) <? Z.of_N k)%Z
                   then Fin false (200 * U) else Fin false (200 * U))
                  = Fin false (200 * U))
        by (destruct (Z.of_N (200 * U) <? Z.of_N k)%Z; reflexivity).
      rewrite E. cbn [Num.max lt toZ].
      destruct (Z.ltb_spec (Z.of_N U) (Z.of_N (200 * U))); [|lia].
      split; [reflexivity | lia].
Qed.

(** [limit || 20] is never NaN. *)
Lemma requested_not_NaN (l : number) :
  (if Num.truthy l then l else Num.int 20) <> NaN.
Proof.
  rewrite int_20.
  destruct l as [| |s k]; cbn [Num.truthy]; try discriminate.
  destruct (negb (k =? 0)%N); discriminate.
Qed.

Lemma maxRowsOf_range (c : criteria) :
  exists k : N,
    maxRowsOf c = Fin false k /\ (unit_scale <= k <= 200 * unit_scale)%N.
Proof.
  unfold maxRowsOf.
  apply clamp_range.
  destruct (limit c) as [l|].
  - apply requested_not_NaN.
  - rewrite int_20. discriminate.
Qed.

Lemma firstn_min {A : Type} (n : nat) (l : list A) :
  firstn (Nat.min n (length l)) l = firstn n l.
Proof.
  destruct (Nat.le_gt_cases n (length l)) as [H|H].
  - now rewrite Nat.min_l.
  - rewrite Nat.min_r by lia.
    rewrite firstn_all. symmetry. apply firstn_all2. lia.
Qed.

(** Slicing by a finite, non-negative number keeps as many rows as
    its integer part. *)
Lemma slice0_Fin {A : Type} (l : list A) (k : N) :
  Arr.slice0 l (Fin false k) = firstn (N.to_nat (k / unit_scale)) l.
Proof.
  unfold Arr.slice0. cbn [toIntegerOrInfinity toZ].
  set (z := (k / unit_scale)%N).
  destruct (Z.ltb_spec (Z.of_N z) 0); [lia|].
  rewrite <- (firstn_min (N.to_nat z)).
  f_equal. lia.
Qed.




End LimitFacts.

(** ** Numeric coercion *)

Module CoercionFacts.
Import StrFacts.

Lemma int_0 : Num.int 0 = Fin false 0.
Proof. vm_compute. reflexivity. Qed.

Lemma toNumber_finite (value : string) : Num.isFinite (toNumber value) = true.
Proof.
  unfold toNumber.
  destruct (Num.isFinite (ofString (Str.trim (Str.removeCommas value)))) eqn:E.
  - exact E.
  - now rewrite int_0.
Qed.

(** A value built without the minus sign is not below zero. *)
Lemma ofRatio_not_negative (p q : N) : Num.lt (ofRatio false p q) zero = false.
Proof.
  unfold ofRatio, zero.
  destruct (overflow_bound <=? round_ratio p q)%N; cbn [lt]; [reflexivity|].
  unfold toZ. apply Z.ltb_ge. lia.
Qed.

Lemma decimalValue_not_negative (m : N) (e : Z) :
  Num.lt (decimalValue false m e) zero = false.
Proof.
  unfold decimalValue, ofUnits.
  destruct e; apply ofRatio_not_negative.
Qed.

Lemma unsignedDecimal_not_negative (s : string) :
  Num.lt (unsignedDecimal false s) zero = false.
Proof.
  unfold unsignedDecimal.
  destruct (String.eqb s "Infinity"); [reflexivity|].
  destruct (digits 10 s 0 0) as [[m1 c1] r1].
  assert (Hexp : forall m c r,
             Num.lt match exponentPart r with
                    | Some e => decimalValue false m (e - Z.of_N c)
                    | None => NaN
                    end zero = false).
  { intros m c r. destruct (exponentPart r); [apply decimalValue_not_negative | reflexivity]. }
  destruct r1 as [|c r].
  - destruct (0 <? c1)%N; [apply Hexp | reflexivity].
  - destruct (Ascii.eqb c ".").
    + destruct (digits 10 r m1 0) as [[m2 c2] r2].
      destruct ((0 <? c1)%N || (0 <? c2)%N); [apply Hexp | reflexivity].
    + destruct (0 <? c1)%N; [apply Hexp | reflexivity].
Qed.

Lemma nonDecimal_not_negative (t : string) (v : number) :
  nonDecimal t = Some v -> Num.lt v zero = false.
Proof.
  unfold nonDecimal.
  destruct t as [|c0 [|p r]]; try discriminate.
  destruct (Ascii.eqb c0 "0"); [|discriminate].
  destruct (if Ascii.eqb p "x" || Ascii.eqb p "X" then Some 16%N
            else if Ascii.eqb p "o" || Ascii.eqb p "O" then Some 8%N
            else if Ascii.eqb p "b" || Ascii.eqb p "B" then Some 2%N
            else None) as [b|]; [|discriminate].
  destruct (digits b r 0 0) as [[v' cnt] rest].
  destruct rest; [destruct (0 <? cnt)%N|]; intros [= <-];
    try reflexivity.
  apply ofRatio_not_negative.
Qed.

Lemma trim_idempotent (s : string) : Str.trim (Str.trim s) = Str.trim s.
Proof.
  destruct (trim_split s) as (w1 & w2 & H1 & H2 & E).
  rewrite E at 2. symmetry. now apply trim_skip.
Qed.

(** A trimmed text that does not start with the minus sign is not
    read as a number below zero. *)
Lemma ofString_not_negative (t : string) :
  Str.trim t = t ->
  (forall r, t <> String "-" r) ->
  Num.lt (ofString t) zero = false.
Proof.
  intros Ht Hminus. unfold ofString. rewrite Ht.
  destruct t as [|c r]; [reflexivity|].
  destruct (nonDecimal (String c r)) as [v|] eqn:E.
  - now apply nonDecimal_not_negative with (String c r).
  - unfold strDecimal.
    destruct (Ascii.eqb c "+"); [apply unsignedDecimal_not_negative|].
    destruct (Ascii.eqb_spec c "-") as [->|_]; [now elim (Hminus r)|].
    apply unsignedDecimal_not_negative.
Qed.

Lemma toNumber_removeCommas (value : string) :
  toNumber (Str.removeCommas value) = toNumber value.
Proof. unfold toNumber. now rewrite removeCommas_idempotent. Qed.

Lemma toNumber_trim (value : string) : toNumber (Str.trim value) = toNumber value.
Proof. unfold toNumber. now rewrite trim_removeCommas_trim. Qed.

(** C3, as the code has it.  Numeric coercion is total: for every
    string it returns a finite number, which is the number read from
    the text once its commas and the white space around it are
    removed, or 0 when that reading is not finite; commas and
    surrounding white space do not change the result.  The result is
    at least 0 unless the cleaned text starts with a minus sign. *)
Theorem toNumber_total (value : string) :
  Num.isFinite (toNumber value) = true
  /\ (toNumber value = Num.ofString (Str.trim (Str.removeCommas value))
      \/ (Num.isFinite (Num.ofString (Str.trim (Str.removeCommas value))) = false
          /\ toNumber value = Num.int 0))
  /\ toNumber (Str.removeCommas value) = toNumber value
  /\ toNumber (Str.trim value) = toNumber value
  /\ (Num.ge (toNumber value) (Num.int 0) = true
      \/ exists r, Str.trim (Str.removeCommas value) = String "-" r).
Proof.
  split; [apply toNumber_finite|].
  split.
  { unfold toNumber.
    destruct (Num.isFinite (ofString (Str.trim (Str.removeCommas value))));
      [left | right]; auto. }
  split; [apply toNumber_removeCommas|].
  split; [apply toNumber_trim|].
  assert (Ht : Str.trim (Str.trim (Str.removeCommas value))
               = Str.trim (Str.removeCommas value)) by apply trim_idempotent.
  unfold toNumber. rewrite !int_0.
  remember (Str.trim (Str.removeCommas value)) as t eqn:Et. clear Et.
  destruct t as [|c r].
  - left. reflexivity.
  - destruct (Ascii.eqb_spec c "-") as [->|Hc]; [right; now exists r|].
    left.
    assert (Hlt : Num.lt (ofString (String c r)) zero = false).
    { apply ofString_not_negative; [exact Ht|].
      intros r' [= E _]. now apply Hc. }
    destruct (ofString (String c r)) as [| |s k]; cbn [Num.isFinite];
      try reflexivity.
    unfold Num.ge. cbn [Num.le]. unfold zero in Hlt. now rewrite Hlt.
Qed.

(** The text "-5" is read as minus five, which is below zero. *)
Lemma toNumber_negative_counterexample :
  toNumber "-5" = Num.int (-5) /\ Num.ge (toNumber "-5") (Num.int 0) = false.
Proof. split; vm_compute; reflexivity. Qed.

Example toNumber_grouped : toNumber "1,200" = Num.int 1200.
Proof. vm_compute. reflexivity. Qed.

Example toNumber_spaces : toNumber " 42 " = Num.int 42.
Proof. vm_compute. reflexivity. Qed.

Example toNumber_text : toNumber "n/a" = Num.int 0.
Proof. vm_compute. reflexivity. Qed.

Example toNumber_empty : toNumber EmptyString = Num.int 0.
Proof. vm_compute. reflexivity. Qed.

Example toNumber_overflow : toNumber "1e400" = Num.int 0.
Proof. vm_compute. reflexivity. Qed.

Example toNumber_infinity : toNumber "Infinity" = Num.int 0.
Proof. vm_compute. reflexivity. Qed.

End CoercionFacts.

(** ** Filtering *)

Module FilterFacts.

Lemma includes_empty (s : string) : Str.includes s EmptyString = true.
Proof. destruct s; reflexivity. Qed.

Lemma startsWith_empty (s : string) : Str.startsWith s EmptyString = true.
Proof. destruct s; reflexivity. Qed.

(** [includes] finds the text somewhere, [startsWith] at the head. *)
Lemma startsWith_spec (s p : string) :
  Str.startsWith s p = true <-> exists b, s = p ++ b.
Proof.
  unfold Str.startsWith. revert s.
  induction p as [|c p IH]; intros s.
  - split; [intros _; now exists s | intros _; now destruct s].
  - destruct s as [|d s]; simpl.
    + split; [discriminate | intros [b E]; discriminate].
    + destruct (ascii_dec c d) as [->|Hn].
      * rewrite IH. split; intros [b E]; exists b; [now subst | now injection E].
      * split; [discriminate | intros [b E]; injection E; congruence].
Qed.

Lemma includes_spec (s sub : string) :
  Str.includes s sub = true <-> exists a b, s = a ++ sub ++ b.
Proof.
  induction s as [|c s IH].
  - cbn [Str.includes]. rewrite orb_false_r.
    change (String.prefix sub EmptyString) with (Str.startsWith EmptyString sub).
    rewrite startsWith_spec. split.
    + intros [b E]. now exists EmptyString, b.
    + intros (a & b & E). destruct a; [now exists b | discriminate].
  - cbn [Str.includes]. rewrite orb_true_iff, IH.
    change (String.prefix sub (String c s)) with (Str.startsWith (String c s) sub).
    rewrite startsWith_spec. split.
    + intros [[b E] | (a & b & E)].
      * now exists EmptyString, b.
      * exists (String c a), b. simpl. now rewrite E.
    + intros (a & b & E). destruct a as [|d a].
      * left. now exists b.
      * right. simpl in E. injection E as _ E. now exists a, b.
Qed.

Lemma ge_iff_not_lt (v m : number) :
  Num.isFinite v = true -> m <> NaN ->
  (Num.lt v m = false <-> Num.ge v m = true).
Proof.
  intros Hv Hm. unfold Num.ge.
  destruct v; try discriminate.
  destruct m; [congruence| |]; cbn [Num.le]; symmetry; apply negb_true_iff.
Qed.

(** What [keepRow] computes, one guard after the other. *)
Lemma keepRow_true (c : criteria) (r : TopPageRow) :
  keepRow c r = true <->
  (forall p, pageContains c = Some p ->
             Str.includes (Str.toLowerCase (item r)) (Str.toLowerCase p) = true)
  /\ (forall p, startsWith c = Some p -> Str.startsWith (item r) p = true)
  /\ (forall m, minVisitors c = Some m -> Num.lt (visitors r) m = false)
  /\ (forall m, minTotal c = Some m -> Num.lt (total r) m = false).
Proof.
  unfold keepRow.
  destruct (pageContains c) as [p|], (startsWith c) as [q|],
           (minVisitors c) as [mv|], (minTotal c) as [mt|].
  all: repeat match goal with
         | |- context [Str.truthy ?x] =>
             destruct x; cbn [Str.truthy andb Str.toLowerCase]
         end.
  all: rewrite ?includes_empty, ?startsWith_empty; cbn [negb].
  all: repeat match goal with
         | |- context [if negb ?b then _ else _] => destruct b eqn:?; cbn [negb]
         | |- context [if Num.lt ?a ?b then _ else _] => destruct (Num.lt a b) eqn:?
         end.
  all: split;
    [ intros H; try discriminate H;
      repeat split; intros ? [= <-]; try assumption;
      try apply includes_empty; try apply startsWith_empty
    | intros (H1 & H2 & H3 & H4); try reflexivity;
      try (specialize (H1 _ eq_refl)); try (specialize (H2 _ eq_refl));
      try (specialize (H3 _ eq_refl)); try (specialize (H4 _ eq_refl));
      cbn [Str.toLowerCase] in *; congruence ].
Qed.

Lemma keepRow_mono (c c' : criteria) (r : TopPageRow) :
  addsFilters c c' -> keepRow c' r = true -> keepRow c r = true.
Proof.
  intros (Hp & Hs & Hv & Ht).
  rewrite !keepRow_true.
  intros (K1 & K2 & K3 & K4).
  repeat split; intros x E.
  - destruct Hp as [Hp|Hp]; [congruence | apply K1; congruence].
  - destruct Hs as [Hs|Hs]; [congruence | apply K2; congruence].
  - destruct Hv as [Hv|Hv]; [congruence | apply K3; congruence].
  - destruct Ht as [Ht|Ht]; [congruence | apply K4; congruence].
Qed.

Lemma filter_filter_sub {A : Type} (f g : A -> bool) (l : list A) :
  (forall x, f x = true -> g x = true) ->
  filter f (filter g l) = filter f l.
Proof.
  intros H. induction l as [|x l IH]; [reflexivity|].
  cbn [filter]. destruct (g x) eqn:G; cbn [filter].
  - now rewrite IH.
  - destruct (f x) eqn:F; [|exact IH].
    apply H in F. congruence.
Qed.

Lemma filter_length_le {A : Type} (f : A -> bool) (l : list A) :
  length (filter f l) <= length l.
Proof.
  induction l as [|x l IH]; [constructor|].
  cbn [filter]. destruct (f x); cbn [length]; lia.
Qed.

(** C8. Filtering is a conjunction, hence monotonic.  A row with
    finite measures is kept, by criteria whose thresholds are numbers,
    exactly when every supplied predicate passes: its item contains
    pageContains whatever the letter case, its item starts with
    startsWith, its visitors are at least minVisitors and its total at
    least minTotal.  And for every row sequence, criteria that supply
    further filters keep a part of what was kept before, so the count
    of filtered rows never goes up.  The filtered rows themselves are
    the rows of the sequence that pass every supplied predicate, no
    more and no fewer: such a row is among them exactly when it is in
    the sequence and passes; the filter goes through the sequence row
    by row, keeping the order, a row by itself being kept or dropped
    as [keepRow] decides. *)
Theorem filter_conjunction_monotonic
    (c c' : criteria) (rows : list TopPageRow) (r : TopPageRow) :
  (finiteRow r -> thresholdsAreNumbers c ->
   (keepRow c r = true <->
    (forall p, pageContains c = Some p ->
               Str.includes (Str.toLowerCase (item r)) (Str.toLowerCase p) = true)
    /\ (forall p, startsWith c = Some p -> Str.startsWith (item r) p = true)
    /\ (forall m, minVisitors c = Some m -> Num.ge (visitors r) m = true)
    /\ (forall m, minTotal c = Some m -> Num.ge (total r) m = true)))
  /\ (addsFilters c c' ->
      filterRows c' rows = filter (keepRow c') (filterRows c rows)
      /\ length (filterRows c' rows) <= length (filterRows c rows))
  /\ (finiteRow r -> thresholdsAreNumbers c ->
      (In r (filterRows c rows) <->
       In r rows
       /\ (forall p, pageContains c = Some p ->
                     Str.includes (Str.toLowerCase (item r)) (Str.toLowerCase p)
                     = true)
       /\ (forall p, startsWith c = Some p -> Str.startsWith (item r) p = true)
       /\ (forall m, minVisitors c = Some m -> Num.ge (visitors r) m = true)
       /\ (forall m, minTotal c = Some m -> Num.ge (total r) m = true)))
  /\ (forall more : list TopPageRow,
        filterRows c (List.app rows more)
        = List.app (filterRows c rows) (filterRows c more))
  /\ filterRows c [r] = (if keepRow c r then [r] else [])
  /\ (addsFilters c c' ->
      forall x, In x (filterRows c' rows) -> In x (filterRows c rows)).
Proof.
  assert (K : finiteRow r -> thresholdsAreNumbers c ->
   (keepRow c r = true <->
    (forall p, pageContains c = Some p ->
               Str.includes (Str.toLowerCase (item r)) (Str.toLowerCase p) = true)
    /\ (forall p, startsWith c = Some p -> Str.startsWith (item r) p = true)
    /\ (forall m, minVisitors c = Some m -> Num.ge (visitors r) m = true)
    /\ (forall m, minTotal c = Some m -> Num.ge (total r) m = true))).
  { intros [Fv Ft] [Nv Nt]. rewrite keepRow_true.
    split; intros (K1 & K2 & K3 & K4); repeat split; try assumption; intros m E.
    + apply ge_iff_not_lt; [assumption | congruence | now apply K3].
    + apply ge_iff_not_lt; [assumption | congruence | now apply K4].
    + apply ge_iff_not_lt; [assumption | congruence | now apply K3].
    + apply ge_iff_not_lt; [assumption | congruence | now apply K4]. }
  assert (E : addsFilters c c' ->
              filterRows c' rows = filter (keepRow c') (filterRows c rows)).
  { intros Hadd. unfold filterRows. symmetry. apply filter_filter_sub.
    intros x. now apply keepRow_mono. }
  split; [exact K|].
  split.
  { intros Hadd. split; [exact (E Hadd)|].
    rewrite (E Hadd). apply filter_length_le. }
  split.
  { intros Hfin Hnum. unfold filterRows. rewrite filter_In.
    rewrite (K Hfin Hnum). reflexivity. }
  split.
  { intros more. unfold filterRows. apply filter_app. }
  split.
  { unfold filterRows. cbn [filter]. reflexivity. }
  intros Hadd x Hx. rewrite (E Hadd) in Hx.
  apply filter_In in Hx. exact (proj1 Hx).
Qed.

End FilterFacts.

Module FilterExamples.
Import FilterFacts Samples.

Lemma filter_conjunction_monotonic_witness :
  (finiteRow (row "/a" 2 9)
   /\ thresholdsAreNumbers minTwoVisitors
   /\ addsFilters minTwoVisitors minTwoVisitorsUnderA)
  /\ (keepRow minTwoVisitors (row "/a" 2 9) = true
      -> Num.ge (visitors (row "/a" 2 9)) (Num.int 2) = true)
  /\ length (filterRows minTwoVisitorsUnderA tiedRows)
     <= length (filterRows minTwoVisitors tiedRows)
  /\ In (row "/a" 2 9) (filterRows minTwoVisitors tiedRows).
Proof.
  assert (Hfin : finiteRow (row "/a" 2 9)).
  { split; vm_compute; reflexivity. }
  assert (Hnum : thresholdsAreNumbers minTwoVisitors).
  { split; vm_compute; discriminate. }
  assert (Hadd : addsFilters minTwoVisitors minTwoVisitorsUnderA).
  { repeat split; (now left) || (now right). }
  split; [exact (conj Hfin (conj Hnum Hadd))|].
  destruct (filter_conjunction_monotonic
              minTwoVisitors minTwoVisitorsUnderA tiedRows (row "/a" 2 9))
    as (Hiff & Hmono & Hin & _).
  split; [|split].
  - intros Hkeep.
    destruct (proj1 (Hiff Hfin Hnum) Hkeep) as (_ & _ & Hv & _).
    exact (Hv _ eq_refl).
  - exact (proj2 (Hmono Hadd)).
  - apply (proj2 (Hin Hfin Hnum)).
    split; [left; reflexivity|].
    split; [intros p Hp; vm_compute in Hp; discriminate Hp|].
    split; [intros p Hp; vm_compute in Hp; discriminate Hp|].
    split; [|intros m Hm; vm_compute in Hm; discriminate Hm].
    intros m Hm.
    assert (Em : m = Num.int 2).
    { unfold minTwoVisitors in Hm. cbn [minVisitors] in Hm. congruence. }
    rewrite Em. vm_compute. reflexivity.
Defined.

Example filterRows_minTwoVisitors :
  map item (filterRows minTwoVisitors tiedRows) = ["/a"; "/c"]
  /\ map item (filterRows minTwoVisitorsUnderA tiedRows) = ["/a"].
Proof. split; vm_compute; reflexivity. Qed.

End FilterExamples.

(** ** Empty text filters *)

Module EmptyFilterFacts.
Import FilterFacts.

Lemma keepRow_empty_pageContains (c : criteria) (r : TopPageRow) :
  keepRow (withPageContains (Some EmptyString) c) r
  = keepRow (withPageContains None c) r.
Proof. reflexivity. Qed.

Lemma keepRow_empty_startsWith (c : criteria) (r : TopPageRow) :
  keepRow (withStartsWith (Some EmptyString) c) r
  = keepRow (withStartsWith None c) r.
Proof. reflexivity. Qed.

Lemma bind_ext {A B : Type} (r : result A) (k1 k2 : A -> result B) :
  (forall a, k1 a = k2 a) -> bind r k1 = bind r k2.
Proof. intros H. destruct r; [apply H | reflexivity]. Qed.

(** Two criteria that agree outside the text filters and keep the
    same rows give the same answer. *)
Lemma renderReport_same_filter
    (toLocaleString : number -> string) (c1 c2 : criteria)
    (file : string) (rows : list TopPageRow) :
  sortBy c1 = sortBy c2 -> sortOrder c1 = sortOrder c2 ->
  limit c1 = limit c2 -> includeSummary c1 = includeSummary c2 ->
  filterRows c1 rows = filterRows c2 rows ->
  renderReport toLocaleString c1 file rows = renderReport toLocaleString c2 file rows.
Proof.
  intros Hb Ho Hm Hs Hfilter.
  unfold renderReport, sortRows, topRows, maxRowsOf, sortField, sortDirection.
  rewrite Hb, Ho, Hm, Hs, Hfilter. reflexivity.
Qed.

Lemma getVercelTopPages_same_filter
    (toLocaleString : number -> string) (env : fs) (c1 c2 : criteria) :
  reportType c1 = reportType c2 -> fileName c1 = fileName c2 ->
  listReports c1 = listReports c2 ->
  sortBy c1 = sortBy c2 -> sortOrder c1 = sortOrder c2 ->
  limit c1 = limit c2 -> includeSummary c1 = includeSummary c2 ->
  (forall rows, filterRows c1 rows = filterRows c2 rows) ->
  getVercelTopPages toLocaleString env c1 = getVercelTopPages toLocaleString env c2.
Proof.
  intros Ht Hf Hl Hb Ho Hm Hs Hfilter.
  unfold getVercelTopPages.
  enough (T : getVercelTopPages_try toLocaleString env c1
              = getVercelTopPages_try toLocaleString env c2)
    by (rewrite T; reflexivity).
  unfold getVercelTopPages_try, selectFile.
  rewrite Hl, Ht, Hf.
  assert (E : forall file,
             bind (loadRows env file)
               (fun rows => Ok (renderReport toLocaleString c1 file rows))
             = bind (loadRows env file)
                 (fun rows => Ok (renderReport toLocaleString c2 file rows))).
  { intros file. apply bind_ext. intros rows. apply f_equal.
    apply renderReport_same_filter; auto. }
  destruct (listReports c2) as [[]|]; [reflexivity | |];
    apply bind_ext; exact E.
Qed.

(** C9. An empty-string text filter imposes no constraint: for every
    row sequence the rows kept with pageContains (or startsWith) set
    to the empty string are the rows kept with that filter absent,
    and so the tool returns the same text. *)
Theorem empty_text_filter_is_no_filter
    (toLocaleString : number -> string) (env : fs)
    (c : criteria) (rows : list TopPageRow) :
  filterRows (withPageContains (Some EmptyString) c) rows
  = filterRows (withPageContains None c) rows
  /\ filterRows (withStartsWith (Some EmptyString) c) rows
     = filterRows (withStartsWith None c) rows
  /\ getVercelTopPages toLocaleString env (withPageContains (Some EmptyString) c)
     = getVercelTopPages toLocaleString env (withPageContains None c)
  /\ getVercelTopPages toLocaleString env (withStartsWith (Some EmptyString) c)
     = getVercelTopPages toLocaleString env (withStartsWith None c).
Proof.
  assert (P : forall l, filterRows (withPageContains (Some EmptyString) c) l
                        = filterRows (withPageContains None c) l).
  { intros l. unfold filterRows. apply filter_ext.
    intros r. apply keepRow_empty_pageContains. }
  assert (S : forall l, filterRows (withStartsWith (Some EmptyString) c) l
                        = filterRows (withStartsWith None c) l).
  { intros l. unfold filterRows. apply filter_ext.
    intros r. apply keepRow_empty_startsWith. }
  split; [apply P|]. split; [apply S|].
  split; apply getVercelTopPages_same_filter; try reflexivity; assumption.
Qed.

End EmptyFilterFacts.

(** ** The order of file names *)

Module OrderFacts.
Import SortFacts.

Lemma ascii_compare_N (a b : ascii) :
  Ascii.compare a b = N.compare (N_of_ascii a) (N_of_ascii b).
Proof. reflexivity. Qed.

Lemma compare_refl (s : string) : String.compare s s = Eq.
Proof.
  induction s as [|c s IH]; [reflexivity|].
  cbn [String.compare]. rewrite ascii_compare_N, N.compare_refl. exact IH.
Qed.

Lemma leb_refl (s : string) : String.leb s s = true.
Proof. unfold String.leb. now rewrite compare_refl. Qed.

Lemma leb_trans (s1 s2 s3 : string) :
  String.leb s1 s2 = true -> String.leb s2 s3 = true -> String.leb s1 s3 = true.
Proof.
  unfold String.leb. revert s2 s3.
  induction s1 as [|a s1 IH]; intros [|b s2] [|c s3]; cbn [String.compare];
    try reflexivity; try discriminate.
  rewrite !ascii_compare_N.
  destruct (N.compare_spec (N_of_ascii a) (N_of_ascii b)) as [E1|L1|G1];
    destruct (N.compare_spec (N_of_ascii b) (N_of_ascii c)) as [E2|L2|G2];
    try discriminate; intros H1 H2.
  - rewrite E1, E2, N.compare_refl. now apply IH with s2.
  - rewrite E1. now rewrite (proj2 (N.compare_lt_iff _ _) L2).
  - rewrite <- E2. now rewrite (proj2 (N.compare_lt_iff _ _) L1).
  - assert (L : (N_of_ascii a < N_of_ascii c)%N) by lia.
    now rewrite (proj2 (N.compare_lt_iff _ _) L).
Qed.

Lemma ltb_false_leb (x y : string) : String.ltb y x = false -> String.leb x y = true.
Proof.
  unfold String.ltb, String.leb. rewrite (String.compare_antisym x y).
  now destruct (String.compare y x).
Qed.

Lemma ltb_true_leb (x y : string) : String.ltb y x = true -> String.leb y x = true.
Proof.
  unfold String.ltb, String.leb. now destruct (String.compare y x).
Qed.

(** [sort()] puts the names in ascending order. *)
Lemma sortStrings_sorted (l : list string) :
  StronglySorted (fun a b => String.leb a b = true) (Arr.sortStrings l).
Proof.
  unfold Arr.sortStrings.
  apply (sort_sorted _ _ (fun _ => True)).
  - intros x y z. apply leb_trans.
  - intros x y _ _. apply ltb_false_leb.
  - intros x y _ _. apply ltb_true_leb.
  - apply Forall_forall. intros; exact I.
Qed.

Lemma sortStrings_In (l : list string) (x : string) :
  In x (Arr.sortStrings l) <-> In x l.
Proof. apply sort_In. Qed.

Lemma sortStrings_nil (l : list string) : Arr.sortStrings l = [] <-> l = [].
Proof.
  split; intros H.
  - apply length_zero_iff_nil. rewrite <- (sort_length (fun x y => String.ltb y x) l).
    unfold Arr.sortStrings in H. now rewrite H.
  - now subst.
Qed.

Lemma filter_sorted {A : Type} (R : A -> A -> Prop) (f : A -> bool) (l : list A) :
  StronglySorted R l -> StronglySorted R (filter f l).
Proof.
  induction 1 as [|x l Hs IH Hx]; cbn [filter]; [constructor|].
  destruct (f x); [|exact IH].
  constructor; [exact IH|].
  apply Forall_forall. intros y Hy.
  apply filter_In in Hy as [Hy _].
  now apply (proj1 (Forall_forall _ _) Hx).
Qed.

(** The last element of a sorted list is above all the others. *)
Lemma last_sorted_max {A : Type} (R : A -> A -> Prop) (d : A) (l : list A) :
  (forall x, R x x) ->
  StronglySorted R l ->
  forall x, In x l -> R x (last l d).
Proof.
  intros Hrefl Hs.
  induction Hs as [|y l Hs IH Hy]; intros x Hx; [contradiction|].
  destruct l as [|z l].
  - destruct Hx as [<-|[]]. apply Hrefl.
  - change (last (y :: z :: l) d) with (last (z :: l) d).
    destruct Hx as [<-|Hx].
    + apply (proj1 (Forall_forall _ _) Hy).
      clear. generalize dependent z.
      induction l as [|w l IHl]; intros z; [now left|].
      right. change (last (z :: w :: l) d) with (last (w :: l) d). apply IHl.
    + now apply IH.
Qed.

Lemma last_In {A : Type} (d : A) (l : list A) : l <> [] -> In (last l d) l.
Proof.
  induction l as [|x l IH]; [congruence|]. intros _.
  destruct l as [|y l]; [now left|].
  right. change (last (x :: y :: l) d) with (last (y :: l) d).
  apply IH. discriminate.
Qed.

End OrderFacts.

(** ** The catalog resolver *)

Module ResolverFacts.
Import OrderFacts.

Lemma csvFilesOf_In (files : list string) (f : string) :
  In f (csvFilesOf files) <-> In f files /\ Str.endsWith f ".csv" = true.
Proof. unfold csvFilesOf. now rewrite sortStrings_In, filter_In. Qed.

Lemma csvFilesOf_sorted (files : list string) :
  StronglySorted (fun a b => String.leb a b = true) (csvFilesOf files).
Proof. apply sortStrings_sorted. Qed.

(** Called without a name, [resolveFileName] prefers the default
    file and falls back to the last name; it throws when no name
    ends in [.csv]. *)
Lemma resolveFileName_default (env : fs) (files : list string) :
  readdir env = Ok files ->
  resolveFileName env None
  = match csvFilesOf files with
    | [] => throwError "No CSV files found in src/lib/vercel"
    | _ :: _ =>
        Ok (if Arr.includes (csvFilesOf files) DEFAULT_FILE then DEFAULT_FILE
            else last (csvFilesOf files) EmptyString)
    end.
Proof.
  intros H. unfold resolveFileName. rewrite H. cbn [bind].
  destruct (csvFilesOf files); reflexivity.
Qed.

(** The tool goes to [resolveFileName] only with a name that is not
    empty. *)
Lemma selectFile_cases (env : fs) (c : criteria) :
  (exists f, fileName c = Some f /\ f <> EmptyString
             /\ selectFile env c = resolveFileName env (Some f))
  \/ ((fileName c = None \/ fileName c = Some EmptyString)
      /\ selectFile env c
         = resolveFileNameByType env
             (match reportType c with Some t => t | None => pages end)).
Proof.
  unfold selectFile.
  destruct (fileName c) as [[|ch f]|].
  - right. split; [now right | reflexivity].
  - left. exists (String ch f). repeat split. discriminate.
  - right. split; [now left | reflexivity].
Qed.

(** C1, as the code has it.  When the caller supplies neither
    fileName nor reportType, the file is resolved as for report type
    pages: it is the lexicographically last name of the listing that
    ends in .csv and starts with "Top Pages - ", and the call fails,
    with the no-match error for pages, exactly when the listing has
    no such name. *)
Theorem default_resolution_by_type (env : fs) (c : criteria) (files : list string) :
  readdir env = Ok files ->
  fileName c = None ->
  reportType c = None ->
  let isPagesReport :=
    fun f => Str.endsWith f ".csv" && Str.startsWith f "Top Pages - " in
  ((forall f, In f files -> isPagesReport f = false)
   /\ selectFile env c = throwError "No CSV found for reportType 'pages'")
  \/ (exists f,
         selectFile env c = Ok f
         /\ In f files /\ isPagesReport f = true
         /\ forall g, In g files -> isPagesReport g = true -> String.leb g f = true).
Proof.
  intros Hdir Hname Htype isPagesReport.
  unfold selectFile. rewrite Hname, Htype.
  unfold resolveFileNameByType. rewrite Hdir. cbn [bind toReportLabel].
  set (matches := filter (fun f => Str.startsWith f ("Top Pages" ++ " - "))
                    (csvFilesOf files)).
  assert (Hin : forall g, In g matches <-> In g files /\ isPagesReport g = true).
  { intros g. unfold matches, isPagesReport.
    rewrite filter_In, csvFilesOf_In, andb_true_iff.
    change ("Top Pages" ++ " - ") with "Top Pages - ". tauto. }
  destruct matches as [|m ms] eqn:E.
  - left. split; [|reflexivity].
    intros f Hf. destruct (isPagesReport f) eqn:P; [|reflexivity].
    destruct (proj2 (Hin f) (conj Hf P)).
  - right. cbn [length Nat.eqb].
    exists (last (m :: ms) EmptyString).
    assert (Hlast : In (last (m :: ms) EmptyString) (m :: ms))
      by (apply last_In; discriminate).
    apply Hin in Hlast as [H1 H2].
    repeat split; try assumption.
    intros g Hg Pg.
    apply (last_sorted_max (fun a b => String.leb a b = true)).
    + apply leb_refl.
    + rewrite <- E. unfold matches. apply filter_sorted, csvFilesOf_sorted.
    + apply Hin. now split.
Qed.

Lemma default_resolution_by_type_witness :
  (readdir Samples.defaultAndLater = Ok [DEFAULT_FILE; "Top Pages - Z.csv"]
   /\ fileName noCriteria = None /\ reportType noCriteria = None)
  /\ (((forall f, In f [DEFAULT_FILE; "Top Pages - Z.csv"] ->
                  Str.endsWith f ".csv" && Str.startsWith f "Top Pages - " = false)
       /\ selectFile Samples.defaultAndLater noCriteria
          = throwError "No CSV found for reportType 'pages'")
      \/ (exists f,
             selectFile Samples.defaultAndLater noCriteria = Ok f
             /\ In f [DEFAULT_FILE; "Top Pages - Z.csv"]
             /\ Str.endsWith f ".csv" && Str.startsWith f "Top Pages - " = true
             /\ forall g, In g [DEFAULT_FILE; "Top Pages - Z.csv"] ->
                          Str.endsWith g ".csv" && Str.startsWith g "Top Pages - " = true ->
                          String.leb g f = true)).
Proof.
  split; [repeat split|].
  exact (default_resolution_by_type Samples.defaultAndLater noCriteria
           [DEFAULT_FILE; "Top Pages - Z.csv"] eq_refl eq_refl eq_refl).
Defined.

(** With the default file and a later Top Pages report in the
    directory, a call without criteria does not resolve to the default
    file; with one report of another type it fails although a .csv
    file is there; and with no .csv file at all the error is not the
    empty-catalog error. *)
Lemma default_resolution_counterexample :
  (Arr.includes (csvFilesOf [DEFAULT_FILE; "Top Pages - Z.csv"]) DEFAULT_FILE = true
   /\ selectFile Samples.defaultAndLater noCriteria = Ok "Top Pages - Z.csv"
   /\ selectFile Samples.defaultAndLater noCriteria <> Ok DEFAULT_FILE)
  /\ (csvFilesOf ["Top Referrers - Jan 1, 26.csv"] = ["Top Referrers - Jan 1, 26.csv"]
      /\ selectFile Samples.referrersOnly noCriteria
         = throwError "No CSV found for reportType 'pages'")
  /\ (csvFilesOf ["notes.txt"] = []
      /\ selectFile Samples.noReports noCriteria
         = throwError "No CSV found for reportType 'pages'"
      /\ selectFile Samples.noReports noCriteria
         <> throwError "No CSV files found in src/lib/vercel").
Proof.
  repeat split; try (vm_compute; reflexivity); vm_compute; discriminate.
Qed.

(** C10. The empty-catalog check of resolve-by-filename comes before
    any validation of the requested name: when the listing has no
    name ending in .csv, [resolveFileName] throws the empty-catalog
    error whatever name is requested, and a call of the tool with a
    fileName returns that error as its text. *)
Theorem empty_catalog_precedes_validation
    (toLocaleString : number -> string) (env : fs) (files : list string)
    (requested : option string) (c : criteria) (f : string) :
  readdir env = Ok files ->
  filter (fun name => Str.endsWith name ".csv") files = [] ->
  resolveFileName env requested = throwError "No CSV files found in src/lib/vercel"
  /\ (fileName c = Some f -> f <> EmptyString -> listReports c <> Some true ->
      getVercelTopPages toLocaleString env c
      = "Error reading Vercel analytics CSV: No CSV files found in src/lib/vercel").
Proof.
  intros Hdir Hcsv.
  assert (R : forall r, resolveFileName env r
                        = throwError "No CSV files found in src/lib/vercel").
  { intros r. unfold resolveFileName, csvFilesOf.
    rewrite Hdir. cbn [bind]. rewrite Hcsv. reflexivity. }
  split; [apply R|].
  intros Hname Hne Hlist.
  unfold getVercelTopPages, getVercelTopPages_try, selectFile.
  rewrite Hname.
  destruct f as [|ch f]; [congruence|].
  rewrite R.
  destruct (listReports c) as [[]|]; [congruence | reflexivity | reflexivity].
Qed.

Lemma empty_catalog_precedes_validation_witness :
  (readdir Samples.noReports = Ok ["notes.txt"]
   /\ filter (fun name => Str.endsWith name ".csv") ["notes.txt"] = [])
  /\ resolveFileName Samples.noReports (Some "../secret.txt")
     = throwError "No CSV files found in src/lib/vercel"
  /\ getVercelTopPages EnUS.toLocaleString Samples.noReports Samples.namedFile
     = "Error reading Vercel analytics CSV: No CSV files found in src/lib/vercel".
Proof.
  assert (H1 : readdir Samples.noReports = Ok ["notes.txt"]) by reflexivity.
  assert (H2 : filter (fun name => Str.endsWith name ".csv") ["notes.txt"] = [])
    by reflexivity.
  split; [exact (conj H1 H2)|].
  destruct (empty_catalog_precedes_validation EnUS.toLocaleString
              Samples.noReports ["notes.txt"] (Some "../secret.txt")
              Samples.namedFile "../secret.txt" H1 H2) as [R T].
  split; [exact R|].
  apply T; [reflexivity | discriminate | discriminate].
Defined.

End ResolverFacts.

(** ** The call boundary *)

Module BoundaryFacts.

Lemma resolveFileName_throws (env : fs) (requested : option string) (e : thrown) :
  resolveFileName env requested = Throw e ->
  readdir env = Throw e \/ resolverError e.
Proof.
  unfold resolveFileName.
  destruct (readdir env) as [files|e']; cbn [bind].
  - intros H. right.
    destruct (length (csvFilesOf files) =? 0)%nat.
    + injection H as <-. eexists. split; [reflexivity | now left].
    + destruct requested as [[|ch r]|]; try discriminate.
      destruct (negb (Str.endsWith (Path.basename (String ch r)) ".csv")).
      * injection H as <-. eexists. split; [reflexivity | right; now left].
      * destruct (negb (Arr.includes (csvFilesOf files) (Path.basename (String ch r))));
          [|discriminate].
        injection H as <-. eexists. split; [reflexivity|].
        right; right; left. now eexists.
  - intros [= ->]. now left.
Qed.

Lemma resolveFileNameByType_throws (env : fs) (t : ReportType) (e : thrown) :
  resolveFileNameByType env t = Throw e ->
  readdir env = Throw e \/ resolverError e.
Proof.
  unfold resolveFileNameByType.
  destruct (readdir env) as [files|e']; cbn [bind].
  - intros H. right.
    destruct (length _ =? 0)%nat; [|discriminate].
    injection H as <-. eexists. split; [reflexivity|].
    right; right; right. now exists t.
  - intros [= ->]. now left.
Qed.

Lemma selectFile_throws (env : fs) (c : criteria) (e : thrown) :
  selectFile env c = Throw e ->
  readdir env = Throw e \/ resolverError e.
Proof.
  unfold selectFile.
  destruct (fileName c) as [[|ch f]|].
  - apply resolveFileNameByType_throws.
  - apply resolveFileName_throws.
  - apply resolveFileNameByType_throws.
Qed.

Lemma try_throws (toLocaleString : number -> string) (env : fs) (c : criteria)
    (e : thrown) :
  getVercelTopPages_try toLocaleString env c = Throw e ->
  readdir env = Throw e \/ (exists f, readFile env f = Throw e) \/ resolverError e.
Proof.
  unfold getVercelTopPages_try.
  assert (Hlist :
            bind (listAvailableReports env)
              (fun reports =>
                 if (length reports =? 0)%nat
                 then Ok "No CSV reports found in src/lib/vercel."
                 else Ok (Str.join NL
                            ("Available Vercel CSV reports:" :: EmptyString ::
                             Arr.mapi (fun r i => Str.ofNat (i + 1) ++ ". " ++ r) reports)))
            = Throw e -> readdir env = Throw e).
  { unfold listAvailableReports.
    destruct (readdir env) as [files|e']; cbn [bind].
    - destruct (length _ =? 0)%nat; discriminate.
    - congruence. }
  assert (Hrows :
            bind (selectFile env c)
              (fun selectedFile =>
                 bind (loadRows env selectedFile)
                   (fun rows => Ok (renderReport toLocaleString c selectedFile rows)))
            = Throw e ->
            readdir env = Throw e \/ (exists f, readFile env f = Throw e)
            \/ resolverError e).
  { destruct (selectFile env c) as [f|e'] eqn:S; cbn [bind].
    - unfold loadRows.
      destruct (readFile env f) as [content|e''] eqn:F; cbn [bind]; [discriminate|].
      intros [= ->]. right; left. now exists f.
    - intros [= ->]. apply selectFile_throws in S. tauto. }
  destruct (listReports c) as [[]|]; auto.
Qed.

Lemma readdir_failure (toLocaleString : number -> string) (env : fs) (c : criteria)
    (e : thrown) :
  readdir env = Throw e ->
  getVercelTopPages_try toLocaleString env c = Throw e.
Proof.
  intros H.
  unfold getVercelTopPages_try, listAvailableReports, selectFile,
    resolveFileName, resolveFileNameByType.
  rewrite H.
  destruct (listReports c) as [[]|]; [reflexivity | |];
    destruct (fileName c) as [[|ch f]|]; reflexivity.
Qed.

(** C4. For every criteria and every outcome of the file-system
    calls, the tool returns a string: the text of the [try] block, or,
    for every value thrown there, the error prefix followed by the
    message of the thrown [Error], or by "Unknown error" when the
    thrown value is not an [Error].  What is thrown in the block is a
    failure of [readdir] or [readFile] or one of the resolver's own
    errors, and a failure of either file-system call ends in such an
    error string. *)
Theorem getVercelTopPages_never_throws
    (toLocaleString : number -> string) (env : fs) (c : criteria) :
  match getVercelTopPages_try toLocaleString env c with
  | Ok text => getVercelTopPages toLocaleString env c = text
  | Throw (ErrorObject message) =>
      getVercelTopPages toLocaleString env c
      = "Error reading Vercel analytics CSV: " ++ message
  | Throw OtherValue =>
      getVercelTopPages toLocaleString env c
      = "Error reading Vercel analytics CSV: Unknown error"
  end
  /\ (forall e, getVercelTopPages_try toLocaleString env c = Throw e ->
                readdir env = Throw e
                \/ (exists f, readFile env f = Throw e)
                \/ resolverError e)
  /\ (forall e, readdir env = Throw e ->
                getVercelTopPages toLocaleString env c = catchClause e)
  /\ (forall f e, listReports c <> Some true ->
                  selectFile env c = Ok f ->
                  readFile env f = Throw e ->
                  getVercelTopPages toLocaleString env c = catchClause e).
Proof.
  split; [|split; [|split]].
  - unfold getVercelTopPages.
    destruct (getVercelTopPages_try toLocaleString env c) as [text|[message|]];
      reflexivity.
  - intros e. apply try_throws.
  - intros e H. unfold getVercelTopPages.
    now rewrite (readdir_failure toLocaleString env c e H).
  - intros f e Hlist Hsel Hread.
    unfold getVercelTopPages, getVercelTopPages_try, loadRows.
    rewrite Hsel. cbn [bind]. rewrite Hread. cbn [bind].
    destruct (listReports c) as [[]|]; [congruence | reflexivity | reflexivity].
Qed.

Lemma getVercelTopPages_never_throws_witness :
  (readdir Samples.unlistable = Throw OtherValue
   /\ getVercelTopPages EnUS.toLocaleString Samples.unlistable noCriteria
      = "Error reading Vercel analytics CSV: Unknown error")
  /\ (listReports noCriteria <> Some true
      /\ selectFile Samples.defaultAndLater noCriteria = Ok "Top Pages - Z.csv"
      /\ readFile Samples.defaultAndLater "Top Pages - Z.csv"
         = Throw (ErrorObject "EACCES: permission denied")
      /\ getVercelTopPages EnUS.toLocaleString Samples.defaultAndLater noCriteria
         = "Error reading Vercel analytics CSV: EACCES: permission denied")
  /\ (getVercelTopPages_try EnUS.toLocaleString Samples.referrersOnly noCriteria
      = Throw (ErrorObject "No CSV found for reportType 'pages'")
      /\ resolverError (ErrorObject "No CSV found for reportType 'pages'")).
Proof.
  assert (A1 : readdir Samples.unlistable = Throw OtherValue) by reflexivity.
  assert (B1 : listReports noCriteria <> Some true) by discriminate.
  assert (B2 : selectFile Samples.defaultAndLater noCriteria = Ok "Top Pages - Z.csv")
    by (vm_compute; reflexivity).
  assert (B3 : readFile Samples.defaultAndLater "Top Pages - Z.csv"
               = Throw (ErrorObject "EACCES: permission denied")) by reflexivity.
  assert (C1 : getVercelTopPages_try EnUS.toLocaleString Samples.referrersOnly noCriteria
               = Throw (ErrorObject "No CSV found for reportType 'pages'"))
    by (vm_compute; reflexivity).
  assert (R1 : getVercelTopPages EnUS.toLocaleString Samples.unlistable noCriteria
               = "Error reading Vercel analytics CSV: Unknown error").
  { exact (proj1 (proj2 (proj2
             (getVercelTopPages_never_throws EnUS.toLocaleString
                Samples.unlistable noCriteria))) OtherValue A1). }
  assert (R2 : getVercelTopPages EnUS.toLocaleString Samples.defaultAndLater noCriteria
               = "Error reading Vercel analytics CSV: EACCES: permission denied").
  { exact (proj2 (proj2 (proj2
             (getVercelTopPages_never_throws EnUS.toLocaleString
                Samples.defaultAndLater noCriteria)))
             "Top Pages - Z.csv" (ErrorObject "EACCES: permission denied") B1 B2 B3). }
  assert (R3 : resolverError (ErrorObject "No CSV found for reportType 'pages'")).
  { destruct (proj1 (proj2
               (getVercelTopPages_never_throws EnUS.toLocaleString
                  Samples.referrersOnly noCriteria)) _ C1) as [H|[[f H]|H]].
    - discriminate H.
    - discriminate H.
    - exact H. }
  exact (conj (conj A1 R1) (conj (conj B1 (conj B2 (conj B3 R2))) (conj C1 R3))).
Defined.

End BoundaryFacts.

(** ** The scenario of the specification *)

Module Scenario.
Import Samples.

(** C7. The directory holds only "Top Pages - Jan 1, 26.csv", with
    the header [item,visitors,total] and the data lines
    [/home,100,150] and [/about,50,"1,200"].  A call without criteria
    loads the two rows, the quoted "1,200" being read as 1200, orders
    /home (100 visitors) before /about (50 visitors), and reports 2
    rows matched, 150 visitors in total and 1350 visits in total; the
    text below is what it returns under the en-US locale. *)
Theorem scenario_top_pages :
  selectFile scenario noCriteria = Ok scenarioFile
  /\ loadRows scenario scenarioFile
     = Ok [row "/home" 100 150; row "/about" 50 1200]
  /\ sortRows noCriteria (filterRows noCriteria [row "/home" 100 150; row "/about" 50 1200])
     = [row "/home" 100 150; row "/about" 50 1200]
  /\ length (filterRows noCriteria [row "/home" 100 150; row "/about" 50 1200]) = 2
  /\ sumVisitors [row "/home" 100 150; row "/about" 50 1200] = Num.int 150
  /\ sumTotal [row "/home" 100 150; row "/about" 50 1200] = Num.int 1350
  /\ getVercelTopPages EnUS.toLocaleString scenario noCriteria
     = Str.join NL
         ["Vercel Analytics Report";
          "Report type: Top Pages";
          "Period: Jan 1, 26";
          "File: Top Pages - Jan 1, 26.csv";
          "Rows scanned: 2";
          "Rows matched: 2";
          "Total visitors (matched): 150";
          "Total visits (matched): 1,350";
          EmptyString;
          "Top 2 rows by visitors (desc)";
          EmptyString;
          "1. /home | Visitors: 100 | Total: 150";
          "2. /about | Visitors: 50 | Total: 1,200"].
Proof.
  do 6 (split; [vm_compute; reflexivity|]).
  vm_compute. reflexivity.
Qed.

End Scenario.


(** ** The row loader *)

Module LoaderFacts.
Import CoercionFacts.

Lemma loadRows_loop_rows (lines : list string) :
  Forall (fun r => finiteRow r /\ item r <> EmptyString) (loadRows_loop lines).
Proof.
  induction lines as [|line lines IH]; cbn [loadRows_loop]; [constructor|].
  destruct (Arr.get (parseCsvLine line) 0) as [[|ch page]|]; try exact IH.
  constructor; [|exact IH].
  cbn [item visitors total]. split; [split; apply toNumber_finite | discriminate].
Qed.

(** Every loaded row has a non-empty item and finite measures, so
    the rows that reach the sort always satisfy its hypothesis. *)
Lemma rowsOfContent_rows (content : string) :
  Forall (fun r => finiteRow r /\ item r <> EmptyString) (rowsOfContent content).
Proof.
  unfold rowsOfContent.
  destruct (length _ <=? 1)%nat; [constructor | apply loadRows_loop_rows].
Qed.

Lemma filterRows_finite (c : criteria) (content : string) :
  Forall finiteRow (filterRows c (rowsOfContent content)).
Proof.
  apply Forall_forall. intros r Hr.
  apply filter_In in Hr as [Hr _].
  exact (proj1 (proj1 (Forall_forall _ _) (rowsOfContent_rows content) r Hr)).
Qed.

End LoaderFacts.

(** ** The built-ins on examples *)

Module ModelExamples.
Import StrFacts FilterFacts.

Lemma endsWith_spec (s p : string) :
  Str.endsWith s p = true <-> exists a, s = a ++ p.
Proof.
  unfold Str.endsWith.
  change (String.prefix (Str.rev p) (Str.rev s))
    with (Str.startsWith (Str.rev s) (Str.rev p)).
  rewrite startsWith_spec. split.
  - intros [b E]. exists (Str.rev b).
    rewrite <- (rev_involutive s), E, rev_app. now rewrite rev_involutive.
  - intros [a ->]. exists (Str.rev a). apply rev_app.
Qed.

Example basename_examples :
  map Path.basename ["../secret.csv"; "a/b/"; "/"; "x.csv"]
  = ["secret.csv"; "b"; EmptyString; "x.csv"].
Proof. reflexivity. Qed.

Example extractDateRange_examples :
  map extractDateRange
    [DEFAULT_FILE; "Top Pages - Jan 1, 26.CSV"; "Top a- x.csv"; "notes.csv"]
  = ["Nov 13 '25, 11pm - Feb 13 '26"; "Jan 1, 26"; "Top a- x"; "notes"].
Proof. reflexivity. Qed.

Example inferReportLabel_examples :
  map inferReportLabel [DEFAULT_FILE; "Top Devices - x.csv"; "Top Pages.csv"]
  = ["Top Pages"; "Top Devices"; "Unknown"].
Proof. reflexivity. Qed.

Example splitLines_example :
  Str.splitLines ("a" ++ String CR (String LF ("b" ++ String LF "c")))
  = ["a"; "b"; "c"].
Proof. reflexivity. Qed.

Example parseCsvLine_examples :
  parseCsvLine "a,b,c" = ["a"; "b"; "c"]
  /\ parseCsvLine ("a," ++ String dquote ("b,c" ++ String dquote ",d"))
     = ["a"; "b,c"; "d"]
  /\ parseCsvLine ",," = [EmptyString; EmptyString; EmptyString].
Proof. repeat split. Qed.

Example ofString_examples :
  map Num.ofString ["42"; " 1.5e1 "; "0x1F"; "-0"; "abc"; "1e400"; "9007199254740993"]
  = [Num.int 42; Num.int 15; Num.int 31; Fin true 0; NaN; Inf false;
     Num.int 9007199254740992].
Proof. vm_compute. reflexivity. Qed.

Example toLocaleString_examples :
  map EnUS.toLocaleString
    [Num.int 999; Num.int 1350; Num.int (-1234567); Num.ofString "12.5";
     Num.ofString "0.0005"; Num.ofString "1.0005"; Num.ofString "1e23";
     Num.ofString "1e21"; Num.ofString "0.1"; Num.ofString "-0";
     Num.ofString "2.675"; Num.ofString "0.0004"; Num.ofString "1234.5678";
     Num.ofString "9007199254740993"; Num.ofString "5e-324"]
  = ["999"; "1,350"; "-1,234,567"; "12.5"; "0.001"; "1.001";
     "100,000,000,000,000,000,000,000"; "1,000,000,000,000,000,000,000";
     "0.1"; "-0"; "2.675"; "0"; "1,234.568"; "9,007,199,254,740,992"; "0"].
Proof. vm_compute. reflexivity. Qed.

Example shortest_examples :
  map (fun s => match Num.ofString s with
                | Fin _ k => EnUS.shortest k
                | _ => (0%N, 0%Z)
                end)
    ["0.1"; "0.30000000000000004"; "1.0005"; "5e-324";
     "1.7976931348623157e308"; "9007199254740994"; "4.35"]
  = [(1%N, (-1)%Z); (30000000000000004%N, (-17)%Z); (10005%N, (-4)%Z);
     (5%N, (-324)%Z); (17976931348623157%N, 292%Z);
     (9007199254740994%N, 0%Z); (435%N, (-2)%Z)].
Proof. vm_compute. reflexivity. Qed.

End ModelExamples.


(** ** More on the delimited-row parser *)

Module ParserMore.
Import StrFacts Text.

Lemma splitOnComma_not_nil (s : string) : splitOnComma s <> [].
Proof.
  destruct s as [|c s]; cbn [splitOnComma]; [discriminate|].
  destruct (Ascii.eqb c comma); [discriminate|].
  destruct (splitOnComma s); discriminate.
Qed.

Lemma loop_no_quote (line : string) (fields : list string) (current : string) :
  count dquote line = 0 ->
  parseCsvLine_loop line fields current false
  = (fields ++ prepend current (splitOnComma line))%list.
Proof.
  revert fields current.
  induction line as [|c line IH]; intros fields current Hq.
  - cbn. now rewrite append_nil_r.
  - cbn [count] in Hq.
    destruct (Ascii.eqb c dquote) eqn:Eq; [discriminate|].
    cbn [parseCsvLine_loop splitOnComma]. rewrite Eq.
    destruct (Ascii.eqb c comma) eqn:Ec; cbn [andb negb].
    + rewrite IH by exact Hq.
      rewrite <- app_assoc. cbn [prepend app]. rewrite append_nil_r.
      pose proof (splitOnComma_not_nil line) as Hne.
      destruct (splitOnComma line) as [|f fs]; [congruence | reflexivity].
    + rewrite IH by exact Hq.
      destruct (splitOnComma line) as [|f fs]; cbn [prepend];
        [reflexivity | now rewrite append_char].
Qed.

(** X1.  A line without any quote character is cut at its commas, as a
    plain split would do. *)
Theorem parseCsvLine_plain_split (line : string) :
  count dquote line = 0 ->
  parseCsvLine line = splitOnComma line.
Proof.
  intros Hq. unfold parseCsvLine.
  rewrite loop_no_quote by exact Hq.
  cbn [app].
  pose proof (splitOnComma_not_nil line) as Hne.
  destruct (splitOnComma line); [congruence | reflexivity].
Qed.

Lemma parseCsvLine_plain_split_witness :
  count dquote "/home,100,150" = 0
  /\ parseCsvLine "/home,100,150" = splitOnComma "/home,100,150".
Proof.
  split; [reflexivity|].
  apply (parseCsvLine_plain_split "/home,100,150"). reflexivity.
Defined.

Lemma loop_length (line : string) (fields : list string) (current : string)
    (inQuotes : bool) :
  length fields + 1 <= length (parseCsvLine_loop line fields current inQuotes)
  /\ length (parseCsvLine_loop line fields current inQuotes)
     <= length fields + 1 + count comma line.
Proof.
  remember (String.length line) as n eqn:Hn.
  revert line fields current inQuotes Hn.
  induction n as [n IH] using lt_wf_ind.
  intros line fields current inQuotes Hn.
  destruct line as [|c rest].
  - cbn. rewrite length_app. cbn. lia.
  - cbn [parseCsvLine_loop count].
    assert (Hrest : forall f cur q,
               length f + 1 <= length (parseCsvLine_loop rest f cur q)
               /\ length (parseCsvLine_loop rest f cur q)
                  <= length f + 1 + count comma rest).
    { intros f cur q. apply (IH (String.length rest)); [subst; cbn; lia | reflexivity]. }
    destruct (Ascii.eqb c dquote) eqn:Eq.
    + assert (Ec : Ascii.eqb c comma = false).
      { apply Ascii.eqb_eq in Eq. now subst. }
      rewrite Ec. cbn [Nat.add].
      destruct inQuotes; [|apply Hrest].
      destruct rest as [|next rest']; [apply Hrest|].
      destruct (Ascii.eqb next dquote) eqn:En; [|apply Hrest].
      assert (Enc : Ascii.eqb next comma = false).
      { apply Ascii.eqb_eq in En. now subst. }
      cbn [count]. rewrite Enc. cbn [Nat.add].
      apply (IH (String.length rest')); [subst; cbn; lia | reflexivity].
    + destruct (Ascii.eqb c comma) eqn:Ec; cbn [andb].
      * destruct inQuotes; cbn [negb].
        -- destruct (Hrest fields (current ++ String c EmptyString) true). lia.
        -- destruct (Hrest (fields ++ [current])%list EmptyString false) as [L U].
           rewrite length_app in L, U. cbn [length] in L, U. lia.
      * cbn [Nat.add]. apply Hrest.
Qed.

(** X2.  Whatever the line, quotes balanced or not, the parser returns at
    least one field and at most one more than the line has commas. *)
Theorem parseCsvLine_field_count (line : string) :
  1 <= length (parseCsvLine line) <= 1 + count comma line.
Proof.
  unfold parseCsvLine.
  destruct (loop_length line [] EmptyString false) as [L U].
  cbn [length] in L, U. lia.
Qed.

Lemma loop_open_quote (s : string) (fields : list string) (current : string) :
  count dquote s = 0 ->
  parseCsvLine_loop s fields current true = List.app fields [current ++ s].
Proof.
  revert current.
  induction s as [|c s IH]; intros current Hq.
  - cbn. now rewrite append_nil_r.
  - cbn [count] in Hq.
    destruct (Ascii.eqb c dquote) eqn:Eq; [discriminate|].
    cbn [parseCsvLine_loop]. rewrite Eq.
    rewrite andb_false_r.
    rewrite IH by exact Hq. now rewrite append_char.
Qed.

(** X3.  An opening quote that is never closed takes the rest of the line,
    commas included, into one field. *)
Theorem parseCsvLine_unclosed_quote (s : string) :
  count dquote s = 0 ->
  parseCsvLine (String dquote s) = [s].
Proof.
  intros Hq. unfold parseCsvLine. cbn [parseCsvLine_loop].
  rewrite Ascii.eqb_refl. cbn [negb].
  now rewrite loop_open_quote.
Qed.

Lemma parseCsvLine_unclosed_quote_witness :
  count dquote "a,b" = 0 /\ parseCsvLine (String dquote "a,b") = ["a,b"].
Proof.
  split; [reflexivity|].
  apply (parseCsvLine_unclosed_quote "a,b"). reflexivity.
Defined.

End ParserMore.


(** ** More on the catalog resolver *)

Module ResolverMore.
Import StrFacts OrderFacts ResolverFacts FilterFacts Text.

Lemma includes_In (l : list string) (s : string) :
  Arr.includes l s = true <-> In s l.
Proof.
  unfold Arr.includes. rewrite existsb_exists. split.
  - intros (x & Hx & E). apply String.eqb_eq in E. now subst.
  - intros H. exists s. split; [exact H | apply String.eqb_refl].
Qed.

Lemma count_app (c : ascii) (a b : string) :
  count c (a ++ b) = count c a + count c b.
Proof.
  induction a as [|d a IH]; cbn [append count]; [reflexivity|].
  rewrite IH. lia.
Qed.

Lemma count_rev (c : ascii) (s : string) : count c (Str.rev s) = count c s.
Proof.
  induction s as [|d s IH]; [reflexivity|].
  rewrite rev_cons, count_app, IH. cbn [count]. lia.
Qed.

Lemma untilSlash_no_slash (s : string) : count slash (Path.untilSlash s) = 0.
Proof.
  induction s as [|c s IH]; [reflexivity|].
  cbn [Path.untilSlash].
  destruct (Ascii.eqb c slash) eqn:E; [reflexivity|].
  cbn [count]. now rewrite E, IH.
Qed.

(** No directory part is left in a base name. *)
Lemma basename_no_slash (p : string) : count slash (Path.basename p) = 0.
Proof. unfold Path.basename. rewrite count_rev. apply untilSlash_no_slash. Qed.

Lemma csvFilesOf_nil (files : list string) :
  csvFilesOf files = [] <-> forall f, In f files -> Str.endsWith f ".csv" = false.
Proof.
  split.
  - intros E f Hf. destruct (Str.endsWith f ".csv") eqn:C; [|reflexivity].
    assert (In f (csvFilesOf files)) by (apply csvFilesOf_In; now split).
    rewrite E in H. contradiction.
  - intros H. destruct (csvFilesOf files) as [|g l] eqn:E; [reflexivity|].
    assert (Hg : In g (csvFilesOf files)) by (rewrite E; now left).
    apply csvFilesOf_In in Hg as [Hg C]. rewrite (H g Hg) in C. discriminate.
Qed.

(** X4.  Resolve by file name.  With a listing that has some .csv file, a
    requested name is resolved to its base name exactly when that base
    name ends in .csv and is in the listing; the resolved name then
    has no directory part.  Otherwise the call throws: the
    wrong-extension error when the base name does not end in .csv,
    and else the not-found error, which names the base name. *)
Theorem resolveFileName_by_name (env : fs) (files : list string) (requested : string) :
  readdir env = Ok files ->
  requested <> EmptyString ->
  (exists g, In g files /\ Str.endsWith g ".csv" = true) ->
  let clean := Path.basename requested in
  (Str.endsWith clean ".csv" = true /\ In clean files
   /\ count slash clean = 0
   /\ resolveFileName env (Some requested) = Ok clean)
  \/ (Str.endsWith clean ".csv" = false
      /\ resolveFileName env (Some requested)
         = throwError "fileName must be a .csv file")
  \/ (Str.endsWith clean ".csv" = true /\ ~ In clean files
      /\ resolveFileName env (Some requested)
         = throwError ("CSV file not found: " ++ clean)).
Proof.
  intros Hdir Hne (g & Hg & Cg) clean.
  unfold resolveFileName. rewrite Hdir. cbn [bind].
  destruct (csvFilesOf files) as [|x l] eqn:E.
  { rewrite (proj1 (csvFilesOf_nil files) E g Hg) in Cg. discriminate. }
  rewrite <- E. replace (length (csvFilesOf files) =? 0)%nat with false
    by (rewrite E; reflexivity).
  destruct requested as [|ch r]; [congruence|].
  fold clean.
  destruct (Str.endsWith clean ".csv") eqn:C; cbn [negb].
  - destruct (Arr.includes (csvFilesOf files) clean) eqn:I; cbn [negb].
    + left. apply includes_In, csvFilesOf_In in I as [I _].
      repeat split; try assumption. apply basename_no_slash.
    + right; right. repeat split.
      intros Hin.
      assert (In clean (csvFilesOf files)) by (apply csvFilesOf_In; now split).
      apply includes_In in H. congruence.
  - right; left. now split.
Qed.

Lemma resolveFileName_by_name_witness :
  (readdir Samples.defaultAndLater = Ok [DEFAULT_FILE; "Top Pages - Z.csv"]
   /\ "../secret.csv" <> EmptyString
   /\ exists g, In g [DEFAULT_FILE; "Top Pages - Z.csv"] /\ Str.endsWith g ".csv" = true)
  /\ resolveFileName Samples.defaultAndLater (Some "../secret.csv")
     = throwError "CSV file not found: secret.csv".
Proof.
  assert (H1 : readdir Samples.defaultAndLater = Ok [DEFAULT_FILE; "Top Pages - Z.csv"])
    by reflexivity.
  assert (H2 : "../secret.csv" <> EmptyString) by discriminate.
  assert (H3 : exists g, In g [DEFAULT_FILE; "Top Pages - Z.csv"]
                         /\ Str.endsWith g ".csv" = true).
  { exists "Top Pages - Z.csv". split; [right; now left | reflexivity]. }
  split; [exact (conj H1 (conj H2 H3))|].
  destruct (resolveFileName_by_name Samples.defaultAndLater
              [DEFAULT_FILE; "Top Pages - Z.csv"] "../secret.csv" H1 H2 H3)
    as [(_ & Hin & _)|[(C & _)|(_ & _ & R)]].
  - exfalso. destruct Hin as [E|[E|[]]]; discriminate E.
  - discriminate C.
  - exact R.
Defined.

(** X6.  Resolve by report type, for each of the six types: the result is
    the lexicographically last name of the listing that ends in .csv
    and starts with the label of the type followed by " - ", and the
    call throws the no-match error of that type exactly when the
    listing has no such name. *)
Theorem resolveFileNameByType_last (env : fs) (t : ReportType) (files : list string) :
  readdir env = Ok files ->
  let isReport :=
    fun f => Str.endsWith f ".csv" && Str.startsWith f (toReportLabel t ++ " - ") in
  ((forall f, In f files -> isReport f = false)
   /\ resolveFileNameByType env t
      = throwError ("No CSV found for reportType '" ++ reportTypeText t ++ "'"))
  \/ (exists f,
         resolveFileNameByType env t = Ok f
         /\ In f files /\ isReport f = true
         /\ forall g, In g files -> isReport g = true -> String.leb g f = true).
Proof.
  intros Hdir isReport.
  unfold resolveFileNameByType. rewrite Hdir. cbn [bind].
  set (matches := filter (fun f => Str.startsWith f (toReportLabel t ++ " - "))
                    (csvFilesOf files)).
  assert (Hin : forall g, In g matches <-> In g files /\ isReport g = true).
  { intros g. unfold matches, isReport.
    rewrite filter_In, csvFilesOf_In, andb_true_iff. tauto. }
  destruct matches as [|m ms] eqn:E.
  - left. split; [|reflexivity].
    intros f Hf. destruct (isReport f) eqn:P; [|reflexivity].
    destruct (proj2 (Hin f) (conj Hf P)).
  - right. cbn [length Nat.eqb].
    exists (last (m :: ms) EmptyString).
    assert (Hlast : In (last (m :: ms) EmptyString) (m :: ms))
      by (apply last_In; discriminate).
    apply Hin in Hlast as [H1 H2].
    repeat split; try assumption.
    intros g Hg Pg.
    apply (last_sorted_max (fun a b => String.leb a b = true)).
    + apply leb_refl.
    + rewrite <- E. unfold matches. apply filter_sorted, csvFilesOf_sorted.
    + apply Hin. now split.
Qed.

Lemma resolveFileNameByType_last_witness :
  readdir Samples.referrersOnly = Ok ["Top Referrers - Jan 1, 26.csv"]
  /\ resolveFileNameByType Samples.referrersOnly referrers
     = Ok "Top Referrers - Jan 1, 26.csv".
Proof.
  assert (H : readdir Samples.referrersOnly = Ok ["Top Referrers - Jan 1, 26.csv"])
    by reflexivity.
  split; [exact H|].
  destruct (resolveFileNameByType_last Samples.referrersOnly referrers
              ["Top Referrers - Jan 1, 26.csv"] H)
    as [[Hnone _]|(f & R & Hin & _)].
  - specialize (Hnone _ (or_introl eq_refl)). discriminate Hnone.
  - destruct Hin as [<-|[]]. exact R.
Defined.

(** X5.  [resolveFileName] called without a name: it throws the
    empty-catalog error exactly when no name of the listing ends in
    .csv; otherwise it returns the default file when the listing has
    it, and else the lexicographically last .csv name. *)
Theorem resolveFileName_without_name (env : fs) (files : list string) :
  readdir env = Ok files ->
  ((forall f, In f files -> Str.endsWith f ".csv" = false)
   /\ resolveFileName env None = throwError "No CSV files found in src/lib/vercel")
  \/ (exists f,
         resolveFileName env None = Ok f
         /\ In f files /\ Str.endsWith f ".csv" = true
         /\ ((In DEFAULT_FILE files /\ f = DEFAULT_FILE)
             \/ (~ In DEFAULT_FILE files
                 /\ forall g, In g files -> Str.endsWith g ".csv" = true ->
                              String.leb g f = true))).
Proof.
  intros Hdir.
  unfold resolveFileName. rewrite Hdir. cbn [bind].
  destruct (csvFilesOf files) as [|x l] eqn:E.
  - left. split; [|reflexivity]. now apply csvFilesOf_nil.
  - right. rewrite <- E.
    replace (length (csvFilesOf files) =? 0)%nat with false
      by (rewrite E; reflexivity).
    destruct (Arr.includes (csvFilesOf files) DEFAULT_FILE) eqn:I.
    + exists DEFAULT_FILE.
      apply includes_In, csvFilesOf_In in I as [I C].
      repeat split; try assumption. left. now split.
    + exists (last (csvFilesOf files) EmptyString).
      assert (Hlast : In (last (csvFilesOf files) EmptyString) (csvFilesOf files))
        by (apply last_In; rewrite E; discriminate).
      apply csvFilesOf_In in Hlast as [H1 H2].
      repeat split; try assumption.
      right. split.
      * intros Hin.
        assert (In DEFAULT_FILE (csvFilesOf files))
          by (apply csvFilesOf_In; split; [exact Hin | reflexivity]).
        apply includes_In in H. congruence.
      * intros g Hg Cg.
        apply (last_sorted_max (fun a b => String.leb a b = true)).
        -- apply leb_refl.
        -- apply csvFilesOf_sorted.
        -- apply csvFilesOf_In. now split.
Qed.

Lemma resolveFileName_without_name_witness :
  readdir Samples.defaultAndLater = Ok [DEFAULT_FILE; "Top Pages - Z.csv"]
  /\ resolveFileName Samples.defaultAndLater None = Ok DEFAULT_FILE.
Proof.
  assert (H : readdir Samples.defaultAndLater = Ok [DEFAULT_FILE; "Top Pages - Z.csv"])
    by reflexivity.
  split; [exact H|].
  destruct (resolveFileName_without_name Samples.defaultAndLater
              [DEFAULT_FILE; "Top Pages - Z.csv"] H)
    as [[Hnone _]|(f & R & _ & _ & [[_ ->]|[Hno _]])].
  - specialize (Hnone _ (or_introl eq_refl)). discriminate Hnone.
  - exact R.
  - elim Hno. now left.
Defined.

End ResolverMore.


(** ** Report labels and date ranges *)

Module DescriptorFacts.
Import StrFacts FilterFacts ResolverFacts.

Lemma stripCsvExtension_csv (x : string) : stripCsvExtension (x ++ ".csv") = x.
Proof.
  unfold stripCsvExtension.
  rewrite rev_app.
  change (Str.rev ".csv") with "vsc.".
  cbn [append].
  replace (Ascii.eqb (Str.lowerChar "v") "v" && Ascii.eqb (Str.lowerChar "s") "s"
           && Ascii.eqb (Str.lowerChar "c") "c" && Ascii.eqb "." ".")
    with true by reflexivity.
  apply rev_involutive.
Qed.

Lemma inferReportLabel_prefix (t : ReportType) (rest : string) :
  inferReportLabel (toReportLabel t ++ " - " ++ rest) = toReportLabel t.
Proof.
  destruct t; unfold inferReportLabel, REPORT_LABELS, inferReportLabel_loop;
    repeat match goal with
           | |- context [Str.startsWith ?n ?p] =>
               first
                 [ replace (Str.startsWith n p) with false by reflexivity
                 | replace (Str.startsWith n p) with true
                     by (symmetry; apply startsWith_spec; exists rest; reflexivity) ]
           end;
    reflexivity.
Qed.

Lemma stripReportPrefix_label (t : ReportType) (rest : string) :
  stripReportPrefix (toReportLabel t ++ " - " ++ rest) = rest.
Proof. destruct t; reflexivity. Qed.

(** X7.  A file named by the convention, the label of a report type, then
    " - ", a date range and ".csv", is read back as that label and
    that date range, whatever the text of the date range, and it
    counts as a .csv file. *)
Theorem report_file_name_roundtrip (t : ReportType) (dateRange : string) :
  inferReportLabel (toReportLabel t ++ " - " ++ dateRange ++ ".csv") = toReportLabel t
  /\ extractDateRange (toReportLabel t ++ " - " ++ dateRange ++ ".csv") = dateRange
  /\ Str.endsWith (toReportLabel t ++ " - " ++ dateRange ++ ".csv") ".csv" = true.
Proof.
  split; [apply inferReportLabel_prefix|]. split.
  - unfold extractDateRange.
    replace (toReportLabel t ++ " - " ++ dateRange ++ ".csv")
      with ((toReportLabel t ++ " - " ++ dateRange) ++ ".csv")
      by (now rewrite !append_assoc).
    rewrite stripCsvExtension_csv. apply stripReportPrefix_label.
  - unfold Str.endsWith.
    change (String.prefix (Str.rev ".csv") ?x) with (Str.startsWith x (Str.rev ".csv")).
    apply startsWith_spec.
    exists (Str.rev (toReportLabel t ++ " - " ++ dateRange)).
    rewrite <- rev_app. now rewrite !append_assoc.
Qed.

(** X8.  The file found for a report type always carries the label of
    that type: the report label shown for it is the one asked for. *)
Theorem resolved_file_has_requested_label (env : fs) (t : ReportType) (f : string) :
  resolveFileNameByType env t = Ok f ->
  inferReportLabel f = toReportLabel t /\ Str.endsWith f ".csv" = true.
Proof.
  unfold resolveFileNameByType.
  destruct (readdir env) as [files|e]; cbn [bind]; [|discriminate].
  set (matches := filter (fun g => Str.startsWith g (toReportLabel t ++ " - "))
                    (csvFilesOf files)).
  destruct matches as [|m ms] eqn:E; [discriminate|].
  cbn [length Nat.eqb].
  assert (Hlast : In (last (m :: ms) EmptyString) matches).
  { rewrite E. apply OrderFacts.last_In. discriminate. }
  generalize dependent (last (m :: ms) EmptyString).
  intros f0 Hlast [= <-].
  unfold matches in Hlast.
  apply filter_In in Hlast as [Hcsv Hpre].
  apply csvFilesOf_In in Hcsv as [_ Hcsv].
  split; [|exact Hcsv].
  apply startsWith_spec in Hpre as [rest Hrest].
  rewrite Hrest, append_assoc. apply inferReportLabel_prefix.
Qed.

Lemma resolved_file_has_requested_label_witness :
  resolveFileNameByType Samples.referrersOnly referrers
  = Ok "Top Referrers - Jan 1, 26.csv"
  /\ inferReportLabel "Top Referrers - Jan 1, 26.csv" = "Top Referrers".
Proof.
  assert (H : resolveFileNameByType Samples.referrersOnly referrers
              = Ok "Top Referrers - Jan 1, 26.csv") by reflexivity.
  split; [exact H|].
  exact (proj1 (resolved_file_has_requested_label
                  Samples.referrersOnly referrers _ H)).
Defined.

End DescriptorFacts.


(** ** Listing mode and the files that are read *)

Module CatalogFacts.
Import StrFacts OrderFacts ResolverFacts ResolverMore SortFacts.




(** X11.  Listing mode short-circuits: its answer depends on the directory
    listing alone, not on any other criteria nor on what the files
    hold, and the only failure it can meet is that of [readdir]. *)
Theorem list_mode_short_circuit
    (toLocaleString : number -> string) (env env' : fs) (c c' : criteria) :
  listReports c = Some true ->
  listReports c' = Some true ->
  readdir env = readdir env' ->
  getVercelTopPages toLocaleString env c = getVercelTopPages toLocaleString env' c'
  /\ forall e, getVercelTopPages_try toLocaleString env c = Throw e <->
               readdir env = Throw e.
Proof.
  intros H H' Hdir.
  unfold getVercelTopPages, getVercelTopPages_try, listAvailableReports.
  rewrite H, H', <- Hdir. split; [reflexivity|].
  intros e. destruct (readdir env) as [files|e0]; cbn [bind].
  - destruct (length _ =? 0)%nat; split; discriminate.
  - split; intros [= ->]; reflexivity.
Qed.

Lemma list_mode_short_circuit_witness :
  (listReports (withListReports (Some true) noCriteria) = Some true
   /\ listReports (withListReports (Some true) Samples.namedFile) = Some true
   /\ readdir Samples.defaultAndLater
      = readdir (Samples.unreadable [DEFAULT_FILE; "Top Pages - Z.csv"]))
  /\ getVercelTopPages EnUS.toLocaleString Samples.defaultAndLater
       (withListReports (Some true) noCriteria)
     = getVercelTopPages EnUS.toLocaleString
         (Samples.unreadable [DEFAULT_FILE; "Top Pages - Z.csv"])
         (withListReports (Some true) Samples.namedFile).
Proof.
  split; [repeat split|].
  exact (proj1 (list_mode_short_circuit EnUS.toLocaleString
                  Samples.defaultAndLater
                  (Samples.unreadable [DEFAULT_FILE; "Top Pages - Z.csv"])
                  (withListReports (Some true) noCriteria)
                  (withListReports (Some true) Samples.namedFile)
                  eq_refl eq_refl eq_refl)).
Defined.

(** The file picked for a call is a .csv file of the listing. *)
Lemma selectFile_Ok (env : fs) (c : criteria) (f : string) :
  selectFile env c = Ok f ->
  exists files, readdir env = Ok files /\ In f files /\ Str.endsWith f ".csv" = true
                /\ (forall n, fileName c = Some n -> n <> EmptyString ->
                              f = Path.basename n).
Proof.
  assert (ByType : forall t,
             resolveFileNameByType env t = Ok f ->
             exists files, readdir env = Ok files /\ In f files
                           /\ Str.endsWith f ".csv" = true).
  { intros t. unfold resolveFileNameByType.
    destruct (readdir env) as [files|e]; cbn [bind]; [|discriminate].
    set (matches := filter (fun g => Str.startsWith g (toReportLabel t ++ " - "))
                      (csvFilesOf files)).
    destruct matches as [|m ms] eqn:E; [discriminate|].
    cbn [length Nat.eqb].
    assert (Hlast : In (last (m :: ms) EmptyString) matches)
      by (rewrite E; apply last_In; discriminate).
    generalize dependent (last (m :: ms) EmptyString).
    intros f0 Hlast [= <-].
    unfold matches in Hlast. apply filter_In in Hlast as [Hcsv _].
    apply csvFilesOf_In in Hcsv. exists files. tauto. }
  unfold selectFile.
  destruct (fileName c) as [[|ch n]|] eqn:N.
  - intros H. destruct (ByType _ H) as (files & ? & ? & ?).
    exists files. repeat split; try assumption. intros n [= <-]. congruence.
  - unfold resolveFileName.
    destruct (readdir env) as [files|e]; cbn [bind]; [|discriminate].
    destruct (length (csvFilesOf files) =? 0)%nat; [discriminate|].
    destruct (negb (Str.endsWith (Path.basename (String ch n)) ".csv")); [discriminate|].
    destruct (Arr.includes (csvFilesOf files) (Path.basename (String ch n))) eqn:I;
      cbn [negb]; [|discriminate].
    intros [= <-].
    apply includes_In, csvFilesOf_In in I as [I C].
    exists files. repeat split; try assumption. now intros n' [= <-].
  - intros H. destruct (ByType _ H) as (files & ? & ? & ?).
    exists files. repeat split; try assumption. discriminate.
Qed.

Lemma selectFile_same_listing (env env' : fs) (c : criteria) :
  readdir env = readdir env' -> selectFile env c = selectFile env' c.
Proof.
  intros H. unfold selectFile, resolveFileName, resolveFileNameByType.
  now rewrite H.
Qed.

(** X12.  Whatever the criteria, a path-like fileName included, the file
    that the tool goes on to read is a name of the directory listing
    that ends in .csv and has no directory part. *)
Theorem selected_file_in_catalog (env : fs) (c : criteria) (files : list string)
    (f : string) :
  readdir env = Ok files ->
  (forall g, In g files -> Text.count slash g = 0) ->
  selectFile env c = Ok f ->
  In f files /\ Str.endsWith f ".csv" = true /\ Text.count slash f = 0.
Proof.
  intros Hdir Hnames Hsel.
  destruct (selectFile_Ok env c f Hsel) as (files' & Hdir' & Hin & C & _).
  assert (files' = files) by congruence. subst files'.
  repeat split; try assumption. now apply Hnames.
Qed.

Lemma selected_file_in_catalog_witness :
  (readdir Samples.scenario = Ok [Samples.scenarioFile]
   /\ (forall g, In g [Samples.scenarioFile] -> Text.count slash g = 0)
   /\ selectFile Samples.scenario
        (withFileName (Some "../../Top Pages - Jan 1, 26.csv") noCriteria)
      = Ok Samples.scenarioFile)
  /\ In Samples.scenarioFile [Samples.scenarioFile].
Proof.
  assert (H1 : readdir Samples.scenario = Ok [Samples.scenarioFile]) by reflexivity.
  assert (H2 : forall g, In g [Samples.scenarioFile] -> Text.count slash g = 0).
  { intros g [<-|[]]. reflexivity. }
  assert (H3 : selectFile Samples.scenario
                 (withFileName (Some "../../Top Pages - Jan 1, 26.csv") noCriteria)
               = Ok Samples.scenarioFile) by reflexivity.
  split; [exact (conj H1 (conj H2 H3))|].
  exact (proj1 (selected_file_in_catalog Samples.scenario _ _ _ H1 H2 H3)).
Defined.

(** X13.  The tool reads nothing but .csv files of the listing: two file
    systems with the same listing and the same contents for those
    files give the same answer, whatever else they hold. *)
Theorem reads_only_catalog_files
    (toLocaleString : number -> string) (env env' : fs) (c : criteria) :
  readdir env = readdir env' ->
  (forall files f, readdir env = Ok files -> In f files ->
                   Str.endsWith f ".csv" = true ->
                   readFile env f = readFile env' f) ->
  getVercelTopPages toLocaleString env c = getVercelTopPages toLocaleString env' c.
Proof.
  intros Hdir Hfiles.
  unfold getVercelTopPages.
  enough (T : getVercelTopPages_try toLocaleString env c
              = getVercelTopPages_try toLocaleString env' c)
    by (rewrite T; reflexivity).
  unfold getVercelTopPages_try, listAvailableReports.
  rewrite <- Hdir, <- (selectFile_same_listing env env' c Hdir).
  destruct (listReports c) as [[]|]; [reflexivity | |].
  all: destruct (selectFile env c) as [f|e] eqn:S; cbn [bind]; [|reflexivity].
  all: destruct (selectFile_Ok env c f S) as (files & D & Hin & C & _).
  all: unfold loadRows; now rewrite (Hfiles files f D Hin C).
Qed.

Lemma reads_only_catalog_files_witness :
  (readdir Samples.referrersOnly
   = readdir (Samples.unreadable ["Top Referrers - Jan 1, 26.csv"])
   /\ (forall files f,
          readdir Samples.referrersOnly = Ok files -> In f files ->
          Str.endsWith f ".csv" = true ->
          readFile Samples.referrersOnly f
          = readFile (Samples.unreadable ["Top Referrers - Jan 1, 26.csv"]) f))
  /\ getVercelTopPages EnUS.toLocaleString Samples.referrersOnly noCriteria
     = getVercelTopPages EnUS.toLocaleString
         (Samples.unreadable ["Top Referrers - Jan 1, 26.csv"]) noCriteria.
Proof.
  assert (H1 : readdir Samples.referrersOnly
               = readdir (Samples.unreadable ["Top Referrers - Jan 1, 26.csv"]))
    by reflexivity.
  assert (H2 : forall files f,
             readdir Samples.referrersOnly = Ok files -> In f files ->
             Str.endsWith f ".csv" = true ->
             readFile Samples.referrersOnly f
             = readFile (Samples.unreadable ["Top Referrers - Jan 1, 26.csv"]) f)
    by reflexivity.
  split; [exact (conj H1 H2)|].
  exact (reads_only_catalog_files EnUS.toLocaleString _ _ noCriteria H1 H2).
Defined.

End CatalogFacts.


(** ** More on the row loader *)

Module LoaderMore.
Import StrFacts ParserFacts CoercionFacts LoaderFacts CsvWriter Text.

Lemma splitLines_from_length (s cur : string) :
  length (Str.splitLines_from s cur) = count LF s + 1.
Proof.
  revert cur. induction s as [|c s IH]; intros cur; [reflexivity|].
  cbn [Str.splitLines_from count].
  destruct (Ascii.eqb c LF).
  - destruct cur as [|c' cur']; [|destruct (Ascii.eqb c' CR)];
      cbn [length]; rewrite IH; lia.
  - rewrite IH. lia.
Qed.

Lemma loadRows_loop_length (lines : list string) :
  length (loadRows_loop lines) <= length lines.
Proof.
  induction lines as [|l lines IH]; [constructor|].
  cbn [loadRows_loop].
  destruct (Arr.get (parseCsvLine l) 0) as [[|ch p]|]; cbn [length]; lia.
Qed.

Lemma rowsOfContent_length (content : string) :
  length (rowsOfContent content) <= count LF content.
Proof.
  unfold rowsOfContent.
  set (lines := filter Str.truthy (map Str.trim (Str.splitLines content))).
  assert (H : length lines <= count LF content + 1).
  { unfold lines. eapply Nat.le_trans; [apply FilterFacts.filter_length_le|].
    rewrite length_map. unfold Str.splitLines.
    now rewrite splitLines_from_length. }
  destruct (length lines <=? 1)%nat; [cbn; lia|].
  eapply Nat.le_trans; [apply loadRows_loop_length|].
  destruct lines; cbn [tl length] in *; lia.
Qed.

(** X14.  What a load gives.  [loadRows] fails only when [readFile] does;
    otherwise every row it returns has a non-empty item and finite
    visitors and total, and, the first line being the header, there
    are at most as many rows as the content has line feeds. *)
Theorem loadRows_rows (env : fs) (f : string) :
  match readFile env f with
  | Throw e => loadRows env f = Throw e
  | Ok content =>
      exists rows,
        loadRows env f = Ok rows
        /\ Forall (fun r => item r <> EmptyString /\ finiteRow r) rows
        /\ length rows <= count LF content
  end.
Proof.
  unfold loadRows.
  destruct (readFile env f) as [content|e]; cbn [bind]; [|reflexivity].
  exists (rowsOfContent content). split; [reflexivity|]. split.
  - eapply Forall_impl; [|apply rowsOfContent_rows].
    intros r [Hf Hi]. now split.
  - apply rowsOfContent_length.
Qed.

Lemma trim_CR (x : string) :
  Str.trim (x ++ String CR EmptyString) = Str.trim x.
Proof.
  apply (trim_skip EmptyString x (String CR EmptyString)); reflexivity.
Qed.

Lemma splitLines_from_toCRLF (s cur : string) :
  map Str.trim (Str.splitLines_from (toCRLF s) cur)
  = map Str.trim (Str.splitLines_from s cur).
Proof.
  revert cur. induction s as [|c s IH]; intros cur; [reflexivity|].
  cbn [toCRLF].
  destruct (Ascii.eqb c LF) eqn:E.
  - apply Ascii.eqb_eq in E. subst c.
    cbn [Str.splitLines_from].
    replace (Ascii.eqb CR LF) with false by reflexivity.
    replace (Ascii.eqb LF LF) with true by reflexivity.
    replace (Ascii.eqb CR CR) with true by reflexivity.
    destruct cur as [|c' cur']; [cbn [map]; now rewrite IH|].
    destruct (Ascii.eqb c' CR) eqn:E'; cbn [map]; rewrite IH; [|reflexivity].
    apply Ascii.eqb_eq in E'. subst c'.
    f_equal. rewrite rev_cons. apply trim_CR.
  - cbn [Str.splitLines_from]. rewrite E. apply IH.
Qed.

(** X15.  Line endings do not matter: a content whose lines end in CR LF
    gives the same rows as the content with bare LF line ends. *)
Theorem rowsOfContent_line_endings (content : string) :
  rowsOfContent (toCRLF content) = rowsOfContent content.
Proof.
  unfold rowsOfContent, Str.splitLines.
  now rewrite splitLines_from_toCRLF.
Qed.

Lemma loadRows_loop_written (fields : list string) (lines : list string) :
  fields <> [] ->
  loadRows_loop (writeLine fields :: lines)
  = match Arr.get fields 0 with
    | Some (String _ _ as page) =>
        {| item := page;
           visitors := toNumber (orZeroText (Arr.get fields 1));
           total := toNumber (orZeroText (Arr.get fields 2)) |}
        :: loadRows_loop lines
    | _ => loadRows_loop lines
    end.
Proof.
  intros Hne. cbn [loadRows_loop]. unfold parseCsvLine.
  rewrite (loop_writeLine fields Hne []). reflexivity.
Qed.

(** X16.  A written record is loaded from its first three fields only:
    further fields are ignored, a missing or empty count reads as 0,
    and a record with an empty item gives no row.  This holds
    whatever the fields contain, commas and quotes included. *)
Theorem loadRows_loop_fields
    (page v t : string) (more : list string) (lines : list string) :
  loadRows_loop (writeLine (page :: v :: t :: more) :: lines)
  = loadRows_loop (writeLine [page; v; t] :: lines)
  /\ loadRows_loop (writeLine [page] :: lines)
     = loadRows_loop (writeLine [page; "0"; "0"] :: lines)
  /\ loadRows_loop (writeLine [page; v] :: lines)
     = loadRows_loop (writeLine [page; v; "0"] :: lines)
  /\ loadRows_loop (writeLine [page; EmptyString; EmptyString] :: lines)
     = loadRows_loop (writeLine [page; "0"; "0"] :: lines)
  /\ loadRows_loop (writeLine (EmptyString :: v :: t :: more) :: lines)
     = loadRows_loop lines.
Proof.
  rewrite !loadRows_loop_written by discriminate.
  repeat split; destruct page; reflexivity.
Qed.

End LoaderMore.


(** ** More on the query pipeline *)

Module PipelineMore.
Import StrFacts SortFacts NumFacts PipelineSort LimitFacts FilterFacts.

(** The rows shown are the first [n] of the sorted rows, for some [n]
    between 1 and 200 that the limit decides. *)
Lemma topRows_firstn (c : criteria) :
  exists n, 1 <= n <= 200 /\ forall l : list TopPageRow, topRows c l = firstn n l.
Proof.
  destruct (maxRowsOf_range c) as (k & E & Hlo & Hhi).
  exists (N.to_nat (k / unit_scale)).
  pose proof unit_scale_pos as HU.
  split.
  - assert (1 <= k / unit_scale)%N by (apply N.div_le_lower_bound; lia).
    assert (k / unit_scale <= 200)%N by (apply N.Div0.div_le_upper_bound; lia).
    lia.
  - intros l. unfold topRows. rewrite E. apply slice0_Fin.
Qed.

Lemma In_firstn {A : Type} (n : nat) (l : list A) (x : A) :
  In x (firstn n l) -> In x l.
Proof.
  intros H. rewrite <- (firstn_skipn n l). apply in_or_app. now left.
Qed.

Lemma sortRows_In (c : criteria) (l : list TopPageRow) (r : TopPageRow) :
  In r (sortRows c l) <-> In r l.
Proof. unfold sortRows, Arr.sortWith. apply sort_In. Qed.

Lemma sortRows_length (c : criteria) (l : list TopPageRow) :
  length (sortRows c l) = length l.
Proof. unfold sortRows, Arr.sortWith. apply sort_length. Qed.

Lemma shown_rows_empty (c : criteria) (rows : list TopPageRow) :
  (topRows c (sortRows c (filterRows c rows)) = [] -> filterRows c rows = [])
  /\ (filterRows c rows = [] -> topRows c (sortRows c (filterRows c rows)) = []).
Proof.
  destruct (topRows_firstn c) as (n & [Hn _] & Htop).
  rewrite Htop. split; intros H.
  - apply length_zero_iff_nil. rewrite <- (sortRows_length c).
    destruct (sortRows c (filterRows c rows)) as [|x l]; [reflexivity|].
    destruct n; [lia | discriminate H].
  - assert (E : sortRows c (filterRows c rows) = []).
    { apply length_zero_iff_nil. rewrite sortRows_length, H. reflexivity. }
    rewrite E. now destruct n.
Qed.

(** X17.  Every row that is shown comes from the loaded rows and passes
    all the filters of the criteria; and as soon as one row passes the
    filters, at least one row is shown. *)
Theorem shown_rows_pass_filters (c : criteria) (rows : list TopPageRow) :
  (forall r, In r (topRows c (sortRows c (filterRows c rows))) ->
             In r rows /\ keepRow c r = true)
  /\ (topRows c (sortRows c (filterRows c rows)) = [] <-> filterRows c rows = []).
Proof.
  split.
  - destruct (topRows_firstn c) as (n & _ & Htop).
    rewrite Htop.
    intros r Hr. apply In_firstn in Hr.
    apply sortRows_In in Hr. unfold filterRows in Hr.
    now apply filter_In in Hr.
  - exact (conj (proj1 (shown_rows_empty c rows)) (proj2 (shown_rows_empty c rows))).
Qed.

Lemma startsWith_other_head (a b : ascii) (s p : string) :
  a <> b -> Str.startsWith (String a s) (String b p) = false.
Proof.
  intros H. unfold Str.startsWith. cbn [String.prefix].
  destruct (ascii_dec b a); [congruence | reflexivity].
Qed.

(** X18.  The "No rows match" text is returned exactly when no loaded row
    passes the filters; it then tells the label, the period, the file
    and how many rows were scanned.  It is never returned because of
    the limit. *)
Theorem no_rows_message
    (toLocaleString : number -> string) (c : criteria) (file : string)
    (rows : list TopPageRow) :
  (filterRows c rows = [] ->
   renderReport toLocaleString c file rows
   = "No rows match the current filters." ++ NL ++ NL
     ++ "Report: " ++ inferReportLabel file ++ NL
     ++ "Period: " ++ extractDateRange file ++ NL
     ++ "File: " ++ file ++ NL
     ++ "Rows scanned: " ++ Str.ofNat (length rows))
  /\ (filterRows c rows <> [] ->
      Str.startsWith (renderReport toLocaleString c file rows) "No rows match" = false).
Proof.
  destruct (shown_rows_empty c rows) as [Hto Hfrom].
  split; intros H.
  - unfold renderReport. rewrite (Hfrom H). reflexivity.
  - unfold renderReport.
    destruct (topRows c (sortRows c (filterRows c rows))) as [|x l] eqn:E.
    { elim H. now apply Hto. }
    cbn [length Nat.eqb].
    destruct (match includeSummary c with Some false => false | _ => true end).
    + cbn [List.app app Str.join String.concat append].
      apply startsWith_other_head. discriminate.
    + cbn [List.app app Str.join String.concat append].
      apply startsWith_other_head. discriminate.
Qed.

Lemma shown_rows_pass_filters_witness :
  In (Samples.row "/a" 2 9)
    (topRows Samples.minTwoVisitors
       (sortRows Samples.minTwoVisitors
          (filterRows Samples.minTwoVisitors Samples.tiedRows)))
  /\ keepRow Samples.minTwoVisitors (Samples.row "/a" 2 9) = true.
Proof.
  assert (H : In (Samples.row "/a" 2 9)
                (topRows Samples.minTwoVisitors
                   (sortRows Samples.minTwoVisitors
                      (filterRows Samples.minTwoVisitors Samples.tiedRows)))).
  { vm_compute. left. reflexivity. }
  split; [exact H|].
  exact (proj2 (proj1 (shown_rows_pass_filters Samples.minTwoVisitors Samples.tiedRows)
                  _ H)).
Defined.

Lemma no_rows_message_witness :
  (filterRows Samples.minTwoVisitors [Samples.row "/b" 1 5] = []
   /\ renderReport EnUS.toLocaleString Samples.minTwoVisitors "Top Pages - x.csv"
        [Samples.row "/b" 1 5]
      = "No rows match the current filters." ++ NL ++ NL
        ++ "Report: Top Pages" ++ NL ++ "Period: x" ++ NL
        ++ "File: Top Pages - x.csv" ++ NL ++ "Rows scanned: 1")
  /\ (filterRows Samples.minTwoVisitors Samples.tiedRows <> []
      /\ Str.startsWith
           (renderReport EnUS.toLocaleString Samples.minTwoVisitors "Top Pages - x.csv"
              Samples.tiedRows) "No rows match" = false).
Proof.
  assert (H1 : filterRows Samples.minTwoVisitors [Samples.row "/b" 1 5] = [])
    by (vm_compute; reflexivity).
  assert (H2 : filterRows Samples.minTwoVisitors Samples.tiedRows <> [])
    by (vm_compute; discriminate).
  split; split; try assumption.
  - exact (proj1 (no_rows_message EnUS.toLocaleString Samples.minTwoVisitors
                    "Top Pages - x.csv" [Samples.row "/b" 1 5]) H1).
  - exact (proj2 (no_rows_message EnUS.toLocaleString Samples.minTwoVisitors
                    "Top Pages - x.csv" Samples.tiedRows) H2).
Defined.

End PipelineMore.


(** ** The summary block and the ranking *)

Module RenderFacts.
Import StrFacts SortFacts NumFacts PipelineSort PipelineMore.

Lemma concat_app_block (sep : string) (a rest : list string) :
  rest <> [] ->
  exists block,
    String.concat sep (List.app a rest) = block ++ String.concat sep rest.
Proof.
  intros Hne. induction a as [|x a (block & IH)].
  - now exists EmptyString.
  - exists (x ++ sep ++ block).
    cbn [List.app app].
    destruct (List.app a rest) as [|y l] eqn:E.
    { destruct a; [cbn in E; congruence | discriminate E]. }
    cbn [String.concat]. cbn [String.concat] in IH.
    rewrite IH. now rewrite !append_assoc.
Qed.

(** X19.  Turning the summary off only removes text at the front: whatever
    includeSummary is, the returned text ends with the text returned
    for includeSummary = false, so the ranked rows are the same. *)
Theorem summary_is_a_leading_block
    (toLocaleString : number -> string) (c : criteria) (s : option bool)
    (file : string) (rows : list TopPageRow) :
  exists block,
    renderReport toLocaleString (withIncludeSummary s c) file rows
    = block ++ renderReport toLocaleString (withIncludeSummary (Some false) c) file rows.
Proof.
  unfold renderReport, sortRows, topRows, maxRowsOf, filterRows, keepRow,
    sortField, sortDirection.
  cbn [withIncludeSummary reportType fileName listReports pageContains startsWith
       minVisitors minTotal sortBy sortOrder limit includeSummary].
  match goal with
  | |- context [(length ?top =? 0)%nat] => destruct (length top =? 0)%nat
  end.
  - exists EmptyString. reflexivity.
  - destruct s as [[]|].
    + unfold Str.join. apply concat_app_block. discriminate.
    + exists EmptyString. reflexivity.
    + unfold Str.join. apply concat_app_block. discriminate.
Qed.

Lemma StronglySorted_app_inv {A : Type} (R : A -> A -> Prop) (l1 l2 : list A) :
  StronglySorted R (List.app l1 l2) ->
  forall x y, In x l1 -> In y l2 -> R x y.
Proof.
  induction l1 as [|a l1 IH]; intros Hs x y Hx Hy; [contradiction|].
  cbn [List.app app] in Hs. inversion Hs as [|? ? Hs' Ha]; subst.
  destruct Hx as [<-|Hx].
  - apply (proj1 (Forall_forall _ _) Ha). apply in_or_app. now right.
  - now apply IH.
Qed.

Lemma sortRows_sorted (c : criteria) (rows : list TopPageRow) :
  Forall finiteRow rows ->
  StronglySorted
    (fun a b =>
       match sortDirection c with
       | asc => Num.le (sortKey (sortField c) a) (sortKey (sortField c) b) = true
       | desc => Num.ge (sortKey (sortField c) a) (sortKey (sortField c) b) = true
       end)
    (sortRows c rows).
Proof.
  intros Hfin. unfold sortRows, Arr.sortWith.
  destruct (sortDirection c).
  - apply (sort_sorted _ _ finiteRow); [| | |assumption].
    + intros x y z. apply le_trans.
    + intros x y Hx Hy E. rewrite after_asc in E by assumption.
      now apply lt_false_le; try apply key_finite.
    + intros x y Hx Hy E. rewrite after_asc in E by assumption.
      now apply lt_true_le.
  - apply (sort_sorted _ _ finiteRow); [| | |assumption].
    + intros x y z. apply ge_trans.
    + intros x y Hx Hy E. rewrite after_desc in E by assumption.
      unfold Num.ge. now apply lt_false_le; try apply key_finite.
    + intros x y Hx Hy E. rewrite after_desc in E by assumption.
      unfold Num.ge. now apply lt_true_le.
Qed.

(** X20.  The rows shown are the top of the ranking.  For rows with finite
    measures, the sorted rows are the shown rows followed by the rows
    left out, and in descending order (the default) every shown row
    has a key at least as large as every row left out; in ascending
    order, at most as large. *)
Theorem shown_rows_are_the_top (c : criteria) (rows : list TopPageRow) :
  Forall finiteRow rows ->
  exists rest,
    sortRows c (filterRows c rows)
    = List.app (topRows c (sortRows c (filterRows c rows))) rest
    /\ forall r r', In r (topRows c (sortRows c (filterRows c rows))) ->
                    In r' rest ->
                    match sortDirection c with
                    | asc => Num.le (sortKey (sortField c) r)
                               (sortKey (sortField c) r') = true
                    | desc => Num.ge (sortKey (sortField c) r)
                                (sortKey (sortField c) r') = true
                    end.
Proof.
  intros Hfin.
  assert (Hff : Forall finiteRow (filterRows c rows)).
  { apply Forall_forall. intros r Hr. apply filter_In in Hr as [Hr _].
    now apply (proj1 (Forall_forall _ _) Hfin). }
  pose proof (sortRows_sorted c (filterRows c rows) Hff) as Hs.
  destruct (topRows_firstn c) as (n & _ & Htop).
  rewrite Htop.
  exists (skipn n (sortRows c (filterRows c rows))).
  split; [symmetry; apply firstn_skipn|].
  rewrite <- (firstn_skipn n (sortRows c (filterRows c rows))) in Hs.
  intros r r' Hr Hr'.
  exact (StronglySorted_app_inv _ _ _ Hs r r' Hr Hr').
Qed.

Lemma shown_rows_are_the_top_witness :
  Forall finiteRow Samples.tiedRows
  /\ exists rest,
       sortRows (withLimit (Some (Num.int 1)) noCriteria)
         (filterRows (withLimit (Some (Num.int 1)) noCriteria) Samples.tiedRows)
       = List.app
           (topRows (withLimit (Some (Num.int 1)) noCriteria)
              (sortRows (withLimit (Some (Num.int 1)) noCriteria)
                 (filterRows (withLimit (Some (Num.int 1)) noCriteria)
                    Samples.tiedRows)))
           rest.
Proof.
  assert (H : Forall finiteRow Samples.tiedRows).
  { repeat (constructor; [split; vm_compute; reflexivity|]). constructor. }
  split; [exact H|].
  destruct (shown_rows_are_the_top (withLimit (Some (Num.int 1)) noCriteria)
              Samples.tiedRows H) as (rest & E & _).
  exists rest. exact E.
Defined.

End RenderFacts.


(** ** Totals of whole counts *)

Module TotalFacts.
Import NumFacts Text.

(** A count of units whose bits below the rounding position are all
    zero is kept as it is. *)
Lemma round_ratio_exact (a s : N) :
  (N.log2 (a * 2 ^ s) + 1 - 53 <= s)%N ->
  round_ratio (a * 2 ^ s) 1 = (a * 2 ^ s)%N.
Proof.
  intros Hs. unfold round_ratio.
  rewrite N.div_1_r, N.mul_1_l.
  set (shift := (N.log2 (a * 2 ^ s) + 1 - 53)%N) in *.
  assert (E : (a * 2 ^ s = (a * 2 ^ (s - shift)) * 2 ^ shift)%N).
  { rewrite <- N.mul_assoc, <- N.pow_add_r. f_equal. f_equal. lia. }
  assert (H2 : (2 ^ shift <> 0)%N) by (apply N.pow_nonzero; discriminate).
  rewrite E at 1.
  unfold rne_div.
  rewrite N.div_mul by exact H2.
  rewrite N.Div0.mod_mul.
  replace (2 * 0 ?= 2 ^ shift)%N with Lt.
  - symmetry. exact E.
  - symmetry. apply N.compare_lt_iff. lia.
Qed.

(** A whole number below 2^53 is a double, held exactly. *)
Lemma ofUnits_whole (n : N) :
  (n < 2 ^ 53)%N -> ofUnits false (n * unit_scale) = Fin false (n * unit_scale).
Proof.
  intros Hn. unfold ofUnits, ofRatio, unit_scale.
  assert (Hround : round_ratio (n * 2 ^ 1074) 1 = (n * 2 ^ 1074)%N).
  { destruct (N.eq_dec n 0) as [->|Hz]; [reflexivity|].
    apply round_ratio_exact.
    rewrite N.log2_mul_pow2 by lia.
    assert (N.log2 n < 53)%N by (apply N.log2_lt_pow2; lia).
    lia. }
  rewrite Hround.
  replace (overflow_bound <=? n * 2 ^ 1074)%N with false; [reflexivity|].
  symmetry. apply N.leb_gt. unfold overflow_bound.
  apply N.lt_le_trans with (2 ^ 53 * 2 ^ 1074)%N.
  - apply N.mul_lt_mono_pos_r; [|exact Hn].
    apply N.neq_0_lt_0, N.pow_nonzero. discriminate.
  - rewrite <- N.pow_add_r. apply N.pow_le_mono_r; [discriminate|].
    apply N.leb_le. reflexivity.
Qed.

Lemma int_whole (n : N) :
  (n < 2 ^ 53)%N -> Num.int (Z.of_N n) = Fin false (n * unit_scale).
Proof.
  intros Hn. unfold Num.int.
  replace (Z.of_N n <? 0)%Z with false by (symmetry; apply Z.ltb_ge; lia).
  rewrite Zabs2N.id. now apply ofUnits_whole.
Qed.

Lemma add_whole (a b : N) :
  (a + b < 2 ^ 53)%N ->
  Num.add (Fin false (a * unit_scale)) (Fin false (b * unit_scale))
  = Fin false ((a + b) * unit_scale).
Proof.
  intros H. cbn [Num.add Bool.eqb].
  rewrite <- N.mul_add_distr_r. now apply ofUnits_whole.
Qed.

Lemma sumN_le (n : N) (l : list N) : In n l -> (n <= sumN l)%N.
Proof.
  induction l as [|m l IH]; [contradiction|].
  cbn [sumN fold_right]. fold (sumN l).
  intros [->|H]; [lia | specialize (IH H); lia].
Qed.

Lemma fold_add_whole (key : TopPageRow -> number) (rows : list TopPageRow)
    (counts : list N) (acc : N) :
  map key rows = map (fun n => Num.int (Z.of_N n)) counts ->
  (acc + sumN counts < 2 ^ 53)%N ->
  fold_left (fun sum row => Num.add sum (key row)) rows (Fin false (acc * unit_scale))
  = Fin false ((acc + sumN counts) * unit_scale).
Proof.
  revert counts acc.
  induction rows as [|r rows IH]; intros [|n counts] acc Hmap Hsum;
    try discriminate Hmap.
  - cbn [fold_left sumN fold_right]. now rewrite N.add_0_r.
  - cbn [map] in Hmap. injection Hmap as Hr Hmap.
    cbn [sumN fold_right] in Hsum. fold (sumN counts) in Hsum.
    cbn [fold_left sumN fold_right]. fold (sumN counts).
    rewrite Hr, int_whole by lia.
    rewrite add_whole by lia.
    rewrite (IH counts (acc + n)%N Hmap) by lia.
    f_equal. lia.
Qed.

(** X21.  Totals of whole counts are exact.  When the visitors (the totals)
    of the matched rows are whole numbers whose sum is below 2^53,
    the reported total is that sum, with no rounding, in whatever
    order the rows are added. *)
Theorem totals_are_exact (rows : list TopPageRow) (counts : list N) :
  (sumN counts < 2 ^ 53)%N ->
  (map visitors rows = map (fun n => Num.int (Z.of_N n)) counts ->
   sumVisitors rows = Num.int (Z.of_N (sumN counts)))
  /\ (map total rows = map (fun n => Num.int (Z.of_N n)) counts ->
      sumTotal rows = Num.int (Z.of_N (sumN counts))).
Proof.
  intros Hsum.
  assert (Z0 : Num.int 0 = Fin false (0 * unit_scale)).
  { change 0%Z with (Z.of_N 0). apply int_whole. apply N.neq_0_lt_0, N.pow_nonzero.
    discriminate. }
  split; intros Hmap.
  - unfold sumVisitors. rewrite Z0.
    rewrite (fold_add_whole visitors rows counts 0 Hmap) by (rewrite N.add_0_l; exact Hsum).
    rewrite N.add_0_l. symmetry. now apply int_whole.
  - unfold sumTotal. rewrite Z0.
    rewrite (fold_add_whole total rows counts 0 Hmap) by (rewrite N.add_0_l; exact Hsum).
    rewrite N.add_0_l. symmetry. now apply int_whole.
Qed.

Lemma totals_are_exact_witness :
  (sumN [2; 1; 2] < 2 ^ 53)%N
  /\ map visitors Samples.tiedRows = map (fun n => Num.int (Z.of_N n)) [2; 1; 2]%N
  /\ sumVisitors Samples.tiedRows = Num.int (Z.of_N (sumN [2; 1; 2]%N)).
Proof.
  assert (H1 : (sumN [2; 1; 2] < 2 ^ 53)%N) by reflexivity.
  assert (H2 : map visitors Samples.tiedRows
               = map (fun n => Num.int (Z.of_N n)) [2; 1; 2]%N) by reflexivity.
  split; [exact H1|]. split; [exact H2|].
  exact (proj1 (totals_are_exact Samples.tiedRows [2; 1; 2]%N H1) H2).
Defined.

End TotalFacts.


(** ** Labels of arbitrary names and the letter case of filters *)

Module LabelFacts.
Import StrFacts FilterFacts.

Lemma inferReportLabel_loop_cases (labels : list string) (name : string) :
  (In (inferReportLabel_loop labels name) labels
   /\ Str.startsWith name (inferReportLabel_loop labels name ++ " - ") = true)
  \/ (inferReportLabel_loop labels name = "Unknown"
      /\ forall label, In label labels -> Str.startsWith name (label ++ " - ") = false).
Proof.
  induction labels as [|l labels IH]; cbn [inferReportLabel_loop].
  - right. split; [reflexivity | intros ? []].
  - destruct (Str.startsWith name (l ++ " - ")) eqn:E.
    + left. split; [now left | exact E].
    + destruct IH as [[Hin Hs]|[Hu Hnone]].
      * left. split; [now right | exact Hs].
      * right. split; [exact Hu|].
        intros label [<-|Hl]; [exact E | now apply Hnone].
Qed.

(** X9.  Any file name is given one of the six report labels, and then it
    starts with that label followed by " - ", or it is given "Unknown",
    and then it starts with none of the six. *)
Theorem inferReportLabel_classifies (name : string) :
  (In (inferReportLabel name) REPORT_LABELS
   /\ Str.startsWith name (inferReportLabel name ++ " - ") = true)
  \/ (inferReportLabel name = "Unknown"
      /\ forall label, In label REPORT_LABELS ->
                       Str.startsWith name (label ++ " - ") = false).
Proof. apply inferReportLabel_loop_cases. Qed.

Lemma lowerChar_idempotent (c : ascii) :
  Str.lowerChar (Str.lowerChar c) = Str.lowerChar c.
Proof.
  destruct c as [[] [] [] [] [] [] [] []]; reflexivity.
Qed.

Lemma toLowerCase_idempotent (s : string) :
  Str.toLowerCase (Str.toLowerCase s) = Str.toLowerCase s.
Proof.
  induction s as [|c s IH]; [reflexivity|].
  cbn [Str.toLowerCase]. now rewrite lowerChar_idempotent, IH.
Qed.

Lemma toLowerCase_truthy (s : string) :
  Str.truthy (Str.toLowerCase s) = Str.truthy s.
Proof. destruct s; reflexivity. Qed.

(** X22.  The pageContains filter does not depend on letter case: giving
    the filter text in lower case, or a row whose item is in lower
    case, changes nothing to whether the row is kept. *)
Theorem pageContains_ignores_case
    (c : criteria) (p : string) (r : TopPageRow) :
  keepRow (withPageContains (Some (Str.toLowerCase p)) c) r
  = keepRow (withPageContains (Some p) c) r
  /\ (startsWith c = None ->
      keepRow (withPageContains (Some p) c)
        {| item := Str.toLowerCase (item r);
           visitors := visitors r; total := total r |}
      = keepRow (withPageContains (Some p) c) r).
Proof.
  split.
  - unfold keepRow.
    cbn [withPageContains pageContains startsWith minVisitors minTotal].
    now rewrite toLowerCase_truthy, toLowerCase_idempotent.
  - intros Hs. unfold keepRow.
    cbn [withPageContains pageContains startsWith minVisitors minTotal
         item visitors total].
    now rewrite Hs, toLowerCase_idempotent.
Qed.

Lemma pageContains_ignores_case_witness :
  startsWith noCriteria = None
  /\ keepRow (withPageContains (Some "HOME") noCriteria)
       {| item := Str.toLowerCase "/Home"; visitors := Num.int 1; total := Num.int 1 |}
     = keepRow (withPageContains (Some "HOME") noCriteria)
         {| item := "/Home"; visitors := Num.int 1; total := Num.int 1 |}.
Proof.
  split; [reflexivity|].
  exact (proj2 (pageContains_ignores_case noCriteria "HOME"
                  {| item := "/Home"; visitors := Num.int 1; total := Num.int 1 |})
           eq_refl).
Defined.

End LabelFacts.


(** ** The update-price tool *)

Module UpdatePriceFacts.
Import UpdatePrice.

Section Host.
Variable numberToString : number -> string.
Variable toLocaleString : number -> string.

Lemma not_wellFormed_cases (env : host) (r : request) :
  ~ wellFormed env r ->
  missing (SUPABASE_URL env) || missing (SUPABASE_SERVICE_ROLE_KEY env) = true
  \/ identifierCount r = 0
  \/ 1 < identifierCount r
  \/ price r = None.
Proof.
  intros H. unfold wellFormed in H.
  destruct (missing (SUPABASE_URL env)); [now left|].
  destruct (missing (SUPABASE_SERVICE_ROLE_KEY env)); [now left|].
  destruct (price r) as [pr|] eqn:P; [|now right; right; right].
  destruct (identifierCount r) as [|[|n]] eqn:C.
  - right; now left.
  - elim H. repeat split. discriminate.
  - right; right; left. lia.
Qed.

(** X23.  The checks come first and in a fixed order: missing credentials,
    then no identifier, then several identifiers, then no price.  A
    request that fails one of them gets the text of the first failed
    check, and the database is not used: the answer is the same on any
    host with the same two environment variables. *)
Theorem validation_precedes_database (env env' : host) (r : request) :
  (missing (SUPABASE_URL env) || missing (SUPABASE_SERVICE_ROLE_KEY env) = true ->
   updatePrice numberToString toLocaleString env r
   = "Error: Missing Supabase credentials. Please set SUPABASE_URL and SUPABASE_SERVICE_ROLE_KEY in .env file")
  /\ (missing (SUPABASE_URL env) || missing (SUPABASE_SERVICE_ROLE_KEY env) = false ->
      (identifierCount r = 0 ->
       updatePrice numberToString toLocaleString env r
       = "Error: Please provide one identifier ('id', 'vin', or 'stockNumber') to identify the vehicle.")
      /\ (1 < identifierCount r ->
          updatePrice numberToString toLocaleString env r
          = "Error: Please provide only one identifier ('id', 'vin', OR 'stockNumber'), not multiple.")
      /\ (identifierCount r = 1 -> price r = None ->
          updatePrice numberToString toLocaleString env r = "Error: Please provide 'price' to update the vehicle price."))
  /\ (SUPABASE_URL env = SUPABASE_URL env' ->
      SUPABASE_SERVICE_ROLE_KEY env = SUPABASE_SERVICE_ROLE_KEY env' ->
      ~ wellFormed env r ->
      updatePrice numberToString toLocaleString env r = updatePrice numberToString toLocaleString env' r).
Proof.
  unfold updatePrice, updatePrice_try.
  split; [|split].
  - intros ->. reflexivity.
  - intros ->. repeat split.
    + intros ->. reflexivity.
    + intros H. destruct (identifierCount r) as [|[|n]]; [lia | lia | reflexivity].
    + intros -> ->. reflexivity.
  - intros Hu Hk Hbad. rewrite <- Hu, <- Hk.
    destruct (not_wellFormed_cases env r Hbad) as [H|[H|[H|H]]].
    + now rewrite H.
    + rewrite H. now destruct (_ || _).
    + destruct (_ || _); [reflexivity|].
      destruct (identifierCount r) as [|[|n]]; [lia | lia | reflexivity].
    + rewrite H. destruct (_ || _); [reflexivity|].
      destruct (identifierCount r =? 0)%nat; [reflexivity|].
      now destruct (1 <? identifierCount r)%nat.
Qed.

(** X24.  With exactly one identifier given, the query is filtered on that
    identifier, and the not-found text names it. *)
Theorem query_uses_the_given_identifier (r : request) :
  identifierCount r = 1 ->
  (forall n, id r = Some n ->
             queryFilter r = Some (ById n)
             /\ identifierText numberToString r = "ID: " ++ numberToString n)
  /\ (forall s, vin r = Some s ->
                queryFilter r = Some (ByVin s)
                /\ identifierText numberToString r = "VIN: " ++ s)
  /\ (forall s, stockNumber r = Some s ->
                queryFilter r = Some (ByStockNumber s)
                /\ identifierText numberToString r = "Stock Number: " ++ s).
Proof.
  unfold identifierCount, queryFilter, identifierText.
  destruct (id r), (vin r), (stockNumber r); cbn; intros H; try discriminate H;
    (split; [|split]); intros x Hx; try discriminate Hx;
    injection Hx as <-; split; reflexivity.
Qed.

(** X25.  The tool never throws: whatever [createClient] or a query throws
    is turned into an error text, and these calls are the only source
    of a thrown value. *)
Theorem updatePrice_never_throws (env : host) (r : request) :
  match updatePrice_try numberToString toLocaleString env r with
  | Ok text => updatePrice numberToString toLocaleString env r = text
  | Throw (ErrorObject message) => updatePrice numberToString toLocaleString env r = "Error: " ++ message
  | Throw OtherValue => updatePrice numberToString toLocaleString env r = "Error: Unknown error"
  end
  /\ forall e, updatePrice_try numberToString toLocaleString env r = Throw e ->
               wellFormed env r
               /\ (createClient env = Throw e
                   \/ selectVehicles env (queryFilter r) = Throw e
                   \/ exists i p, price r = Some p /\ updateVehicle env i p = Throw e).
Proof.
  unfold updatePrice. split.
  - destruct (updatePrice_try numberToString toLocaleString env r) as [t|[m|]];
      reflexivity.
  - intros e. unfold updatePrice_try, wellFormed.
    destruct (missing (SUPABASE_URL env)); [discriminate|].
    destruct (missing (SUPABASE_SERVICE_ROLE_KEY env)); [discriminate|].
    cbn [orb].
    destruct (identifierCount r) as [|[|n]]; cbn [Nat.eqb Nat.ltb Nat.leb];
      try discriminate.
    destruct (price r) as [p|]; [|discriminate].
    intros H. split; [repeat split; discriminate|].
    destruct (createClient env) as [[]|e1]; cbn [bind] in H.
    2:{ left. congruence. }
    destruct (selectVehicles env (queryFilter r)) as [[m|vs]|e2]; cbn [bind] in H.
    + discriminate.
    + destruct vs as [|v [|v' vs]]; try discriminate.
      destruct (updateVehicle env (v_id v) p) as [[m|u]|e3] eqn:U; cbn [bind] in H;
        try discriminate.
      right; right. exists (v_id v), p. split; [reflexivity | congruence].
    + right; left. congruence.
Qed.

(** X26.  The price is written only when exactly one vehicle matches.  For
    a request that passes the checks on a host where the select
    answers with rows: no row gives the not-found text, several rows
    give the multiple-vehicles error, and in both cases no update is
    made; one row leads to the update of that row, whose refusal is
    reported with its message. *)
Theorem update_needs_one_match
    (env env' : host) (r : request) (vehicles : list vehicle) :
  wellFormed env r ->
  createClient env = Ok tt ->
  selectVehicles env (queryFilter r) = Ok (Selected vehicles) ->
  (vehicles = [] ->
   updatePrice numberToString toLocaleString env r = "No vehicle found with " ++ identifierText numberToString r ++ ".")
  /\ (2 <= length vehicles ->
      updatePrice numberToString toLocaleString env r
      = "Error: Multiple vehicles found with the same identifier. This shouldn't happen. Please contact support.")
  /\ (length vehicles <> 1 ->
      SUPABASE_URL env' = SUPABASE_URL env ->
      SUPABASE_SERVICE_ROLE_KEY env' = SUPABASE_SERVICE_ROLE_KEY env ->
      createClient env' = createClient env ->
      selectVehicles env' = selectVehicles env ->
      updatePrice numberToString toLocaleString env' r = updatePrice numberToString toLocaleString env r)
  /\ (forall v p message,
         vehicles = [v] -> price r = Some p ->
         updateVehicle env (v_id v) p = Ok (UpdateError message) ->
         updatePrice numberToString toLocaleString env r = "Error updating vehicle price: " ++ message).
Proof.
  intros (Hu & Hk & Hc & Hp) Hclient Hselect.
  assert (Hrun : forall h : host,
             SUPABASE_URL h = SUPABASE_URL env ->
             SUPABASE_SERVICE_ROLE_KEY h = SUPABASE_SERVICE_ROLE_KEY env ->
             createClient h = createClient env ->
             selectVehicles h = selectVehicles env ->
             updatePrice numberToString toLocaleString h r
             = match price r with
               | None => "Error: Please provide 'price' to update the vehicle price."
               | Some newPrice =>
                   match vehicles with
                   | [] => "No vehicle found with " ++ identifierText numberToString r ++ "."
                   | [selected] =>
                       match updateVehicle h (v_id selected) newPrice with
                       | Ok (UpdateError message) =>
                           "Error updating vehicle price: " ++ message
                       | Ok (Updated u) =>
                           "Successfully updated vehicle price:" ++ NL ++ NL
                           ++ "Vehicle: "
                           ++ Str.trim (displayOr numberToString (v_year selected) EmptyString
                                        ++ " "
                                        ++ displayOr numberToString (v_make selected) EmptyString
                                        ++ " "
                                        ++ displayOr numberToString (v_model selected) EmptyString)
                           ++ NL
                           ++ "ID: " ++ display numberToString (v_id u) ++ NL
                           ++ "VIN: " ++ displayOr numberToString (v_vin u) "N/A" ++ NL
                           ++ "Stock Number: "
                           ++ displayOr numberToString (v_stock_number u) "N/A" ++ NL ++ NL
                           ++ "Price: " ++ formatMoney toLocaleString (v_price selected)
                           ++ " -> " ++ formatMoney toLocaleString (v_price u)
                       | Throw (ErrorObject message) => "Error: " ++ message
                       | Throw OtherValue => "Error: Unknown error"
                       end
                   | _ :: _ :: _ =>
                       "Error: Multiple vehicles found with the same identifier. This shouldn't happen. Please contact support."
                   end
               end).
  { intros h Eu Ek Ec Es.
    unfold updatePrice, updatePrice_try.
    rewrite Eu, Ek, Ec, Es, Hu, Hk, Hc, Hclient, Hselect. cbn [orb Nat.eqb Nat.ltb Nat.leb bind].
    destruct (price r) as [p|]; [|reflexivity].
    cbn [bind].
    destruct vehicles as [|v [|v' vs]]; try reflexivity.
    destruct (updateVehicle h (v_id v) p) as [[m|u]|[m|]]; reflexivity. }
  destruct (price r) as [p|] eqn:P; [|congruence].
  repeat split.
  - intros ->. now rewrite (Hrun env).
  - intros Hlen. rewrite (Hrun env) by reflexivity.
    destruct vehicles as [|v [|v' vs]]; cbn [length] in Hlen; [lia | lia | reflexivity].
  - intros Hlen Eu Ek Ec Es.
    rewrite (Hrun env'), (Hrun env) by (reflexivity || assumption).
    destruct vehicles as [|v [|v' vs]]; cbn [length] in Hlen; [reflexivity | lia | reflexivity].
  - intros v p' message -> [= <-] U.
    rewrite (Hrun env) by reflexivity. now rewrite U.
Qed.

End Host.

Lemma validation_precedes_database_witness :
  (missing (SUPABASE_URL (offline None None))
   || missing (SUPABASE_SERVICE_ROLE_KEY (offline None None)) = true)
  /\ updatePrice EnUS.toLocaleString EnUS.toLocaleString (offline None None)
       (byVin "WP0AA2A9" (Some (Num.int 100)))
     = "Error: Missing Supabase credentials. Please set SUPABASE_URL and SUPABASE_SERVICE_ROLE_KEY in .env file".
Proof.
  split; [reflexivity|].
  exact (proj1 (validation_precedes_database EnUS.toLocaleString EnUS.toLocaleString
                  (offline None None) (offline None None)
                  (byVin "WP0AA2A9" (Some (Num.int 100)))) eq_refl).
Defined.

Lemma query_uses_the_given_identifier_witness :
  identifierCount (byVin "WP0AA2A9" None) = 1
  /\ queryFilter (byVin "WP0AA2A9" None) = Some (ByVin "WP0AA2A9").
Proof.
  split; [reflexivity|].
  exact (proj1 (proj1 (proj2 (query_uses_the_given_identifier EnUS.toLocaleString
                                (byVin "WP0AA2A9" None) eq_refl))
                  "WP0AA2A9" eq_refl)).
Defined.

Lemma updatePrice_never_throws_witness :
  updatePrice_try EnUS.toLocaleString EnUS.toLocaleString
    (offline (Some "u") (Some "k")) (byVin "WP0AA2A9" (Some (Num.int 100)))
  = Throw (ErrorObject "Invalid supabaseUrl")
  /\ wellFormed (offline (Some "u") (Some "k")) (byVin "WP0AA2A9" (Some (Num.int 100))).
Proof.
  assert (H : updatePrice_try EnUS.toLocaleString EnUS.toLocaleString
                (offline (Some "u") (Some "k")) (byVin "WP0AA2A9" (Some (Num.int 100)))
              = Throw (ErrorObject "Invalid supabaseUrl")) by reflexivity.
  split; [exact H|].
  exact (proj1 (proj2 (updatePrice_never_throws EnUS.toLocaleString EnUS.toLocaleString
                         (offline (Some "u") (Some "k"))
                         (byVin "WP0AA2A9" (Some (Num.int 100)))) _ H)).
Defined.

Lemma update_needs_one_match_witness :
  (wellFormed (readOnly []) (byVin "WP0AA2A9" (Some (Num.int 100)))
   /\ createClient (readOnly []) = Ok tt
   /\ selectVehicles (readOnly []) (queryFilter (byVin "WP0AA2A9" (Some (Num.int 100))))
      = Ok (Selected []))
  /\ updatePrice EnUS.toLocaleString EnUS.toLocaleString (readOnly [])
       (byVin "WP0AA2A9" (Some (Num.int 100)))
     = "No vehicle found with VIN: WP0AA2A9.".
Proof.
  assert (H1 : wellFormed (readOnly []) (byVin "WP0AA2A9" (Some (Num.int 100)))).
  { repeat split. discriminate. }
  assert (H2 : createClient (readOnly []) = Ok tt) by reflexivity.
  assert (H3 : selectVehicles (readOnly [])
                 (queryFilter (byVin "WP0AA2A9" (Some (Num.int 100))))
               = Ok (Selected [])) by reflexivity.
  split; [exact (conj H1 (conj H2 H3))|].
  exact (proj1 (update_needs_one_match EnUS.toLocaleString EnUS.toLocaleString
                  (readOnly []) (readOnly [])
                  (byVin "WP0AA2A9" (Some (Num.int 100))) [] H1 H2 H3) eq_refl).
Defined.

End UpdatePriceFacts.
